(** * OnRobot 3FG15 gripper: protocol layer, simulator and Modbus gateway

    A shallow embedding of the Python sources

      - [status.py]                 (module [Status])
      - [GripperBase.py]            (module [GripperBase])
      - [ThreeFG15Simulator.py]     (modules [Simulator] and [Simulator64])
      - [server/simple_modbus_server.py] (modules [SimpleDevice], [GripperDevice])

    followed by the properties established about them.

    Modelling conventions.
      - Python [int] is [Z].  Python [float] is modelled twice: by exact
        rationals [Q] in [GripperBase], [Simulator] and [GripperDevice], where
        the statements concern integers the floats carry without rounding
        or say within which magnitudes they hold; and by IEEE 754 binary64
        numbers ([Float64], over [SpecFloat]) in [Simulator64], where the
        statement is about the float arithmetic itself.
      - An object with mutable attributes is a record; a method is a function
        in the state-and-exception monad [Py.M]: it returns either the raised
        exception or the result, together with the object as the call left it
        (mutations made before a [raise] are kept, as in Python).
      - [time.time()] and [random.random()] consume the next value of an
        arbitrary stream ([Py.Clock], [Py.Rng]); nothing is assumed of the
        streams unless a statement says so.  [time.sleep], [print] and
        logging have no effect on the modelled state.
      - A method with an unbounded [while] loop takes a bound on its
        iterations ([Py.MF]); statements about it give a bound from which
        the method returns.
      - Only exceptions derived from [Exception] are modelled. *)

From Stdlib Require Import ZArith QArith Qround Lia Lqa Ascii List SpecFloat.
From stdpp Require Import gmap list.

Local Open Scope Z_scope.

(* ====================================================================== *)
(** ** Python runtime fragments used by the sources *)

Module Py.

(** Exception classes met in the sources.  [OtherException] stands for any
    other subclass of [Exception] a backing device may raise. *)
Inductive exn : Set :=
| RuntimeError | ValueError | ZeroDivisionError | IndexError | OtherException.

(** [except RuntimeError] *)
Definition is_RuntimeError (e : exn) : bool :=
  match e with RuntimeError => true | _ => false end.

(** [except Exception] *)
Definition is_Exception (e : exn) : bool := true.

(** A method on an object of type [S] returning an [A]. *)
Definition M (S A : Type) : Type := S -> (exn + A) * S.

Definition ret {S A} (a : A) : M S A := fun s => (inr a, s).
Definition raise {S A} (e : exn) : M S A := fun s => (inl e, s).
Definition bind {S A B} (c : M S A) (k : A -> M S B) : M S B :=
  fun s => match c s with
           | (inl e, s') => (inl e, s')
           | (inr a, s') => k a s'
           end.
Definition gets {S A} (f : S -> A) : M S A := fun s => (inr (f s), s).
Definition modify {S} (f : S -> S) : M S unit := fun s => (inr tt, f s).

(** [try: c  except <catches> as e: h e] *)
Definition try_except {S A} (c : M S A) (catches : exn -> bool)
           (h : exn -> M S A) : M S A :=
  fun s => match c s with
           | (inl e, s') => if catches e then h e s' else (inl e, s')
           | (inr a, s') => (inr a, s')
           end.

(** Lifting a pure computation that may raise. *)
Definition lift {S A} (r : exn + A) : M S A := fun s => (r, s).

(** Running [c] and handing its outcome, raised or returned, to the
    caller as a value. *)
Definition attempt {S A} (c : M S A) : M S (exn + A) :=
  fun s => let (r, s') := c s in (inr r, s').

(** Methods that contain an unbounded [while] loop take a bound on the
    number of iterations; [None] means the bound was reached before the
    loop ended.  No handler catches it. *)
Definition MF (S A : Type) : Type := S -> option ((exn + A) * S).

Definition retF {S A} (a : A) : MF S A := fun s => Some (inr a, s).
Definition bindF {S A B} (c : MF S A) (k : A -> MF S B) : MF S B :=
  fun s => match c s with
           | None => None
           | Some (inl e, s') => Some (inl e, s')
           | Some (inr a, s') => k a s'
           end.
Definition liftF {S A} (c : M S A) : MF S A := fun s => Some (c s).
Definition unfinished {S A} : MF S A := fun _ => None.

Definition try_exceptF {S A} (c : MF S A) (catches : exn -> bool)
           (h : exn -> MF S A) : MF S A :=
  fun s => match c s with
           | None => None
           | Some (inl e, s') => if catches e then h e s' else Some (inl e, s')
           | Some (inr a, s') => Some (inr a, s')
           end.

(** [for x in xs: body x] *)
Fixpoint for_each {S A} (xs : list A) (body : A -> M S unit) : M S unit :=
  match xs with
  | [] => ret tt
  | x :: xs' => bind (body x) (fun _ => for_each xs' body)
  end.

(** [int(q)] on a float: truncation toward zero. *)
Definition int_of_float (q : Q) : Z := Z.quot (Qnum q) (Zpos (Qden q)).

(** [round(q)] on a float: nearest integer, ties to the even one. *)
Definition round (q : Q) : Z :=
  let f := Qfloor q in
  match (q - inject_Z f ?= 1 # 2)%Q with
  | Lt => f
  | Gt => f + 1
  | Eq => if Z.even f then f else f + 1
  end.

Definition Qltb (x y : Q) : bool := negb (Qle_bool y x).

(** [min(a, b)] and [max(a, b)] on floats: the first argument unless the
    second is strictly smaller (larger). *)
Definition fmin (a b : Q) : Q := if Qltb b a then b else a.

(** [range(n)] *)
Definition range (n : Z) : list Z := map Z.of_nat (seq 0 (Z.to_nat n)).

(** [enumerate(xs)] *)
Definition enumerate {A} (xs : list A) : list (Z * A) :=
  combine (map Z.of_nat (seq 0 (length xs))) xs.

(** Position denoted by index [i] in a sequence of length [n]: negative
    indices count from the end; [None] is [IndexError]. *)
Definition position (n : nat) (i : Z) : option nat :=
  if 0 <=? i then (if i <? Z.of_nat n then Some (Z.to_nat i) else None)
  else if - Z.of_nat n <=? i then Some (Z.to_nat (Z.of_nat n + i))
  else None.

(** [l[i]] *)
Definition getitem {A} (l : list A) (i : Z) : exn + A :=
  match position (length l) i with
  | Some k => match l !! k with Some a => inr a | None => inl IndexError end
  | None => inl IndexError
  end.

(** [l[i] = a]: the updated list, or [IndexError]. *)
Definition setitem {A} (l : list A) (i : Z) (a : A) : exn + list A :=
  match position (length l) i with
  | Some k => inr (<[k := a]> l)
  | None => inl IndexError
  end.

(** Binary digits of a positive number, most significant first:
    [format(p, 'b')]. *)
Fixpoint bin_digits (p : positive) : list ascii :=
  match p with
  | xH => ["1"%char]
  | xO q => bin_digits q ++ ["0"%char]
  | xI q => bin_digits q ++ ["1"%char]
  end.

(** [format(n, '016b')]: sign, then zero padding up to a total width of 16,
    then the binary digits of the magnitude. *)
Definition format_016b (n : Z) : list ascii :=
  let sign := match n with Zneg _ => ["-"%char] | _ => [] end in
  let digits := match n with
                | Z0 => ["0"%char]
                | Zpos p | Zneg p => bin_digits p
                end in
  sign ++ repeat "0"%char (16 - length sign - length digits)%nat ++ digits.

(** [s[-k]] for [k >= 1]: the [k]-th character from the end. *)
Definition char_from_end (s : list ascii) (k : nat) : exn + ascii :=
  match k with
  | O => inl IndexError
  | S k' => match rev s !! k' with Some c => inr c | None => inl IndexError end
  end.

(** [int(c)] on a one-character string. *)
Definition int_of_char (c : ascii) : exn + Z :=
  (if Ascii.eqb c "0" then inr 0
   else if Ascii.eqb c "1" then inr 1
   else if Ascii.eqb c "2" then inr 2
   else if Ascii.eqb c "3" then inr 3
   else if Ascii.eqb c "4" then inr 4
   else if Ascii.eqb c "5" then inr 5
   else if Ascii.eqb c "6" then inr 6
   else if Ascii.eqb c "7" then inr 7
   else if Ascii.eqb c "8" then inr 8
   else if Ascii.eqb c "9" then inr 9
   else inl ValueError)%char.

(** [bool(n)] on an int. *)
Definition bool_of_int (n : Z) : bool := negb (n =? 0).

(** The wall clock as a program sees it: the stream of values successive
    calls of [time.time()] return, and how many were consumed. *)
Record Clock : Type := { readings : nat -> Q; ticks : nat }.

(** [time.time()] *)
Definition time_time (c : Clock) : Q * Clock :=
  (readings c (ticks c), {| readings := readings c; ticks := S (ticks c) |}).

(** The random generator: the stream of values of [random.random()]. *)
Record Rng : Type := { samples : nat -> Q; rolls : nat }.

(** [random.uniform(a, b)], that is [a + (b - a) * random.random()]. *)
Definition random_uniform (a b : Q) (r : Rng) : Q * Rng :=
  ((a + (b - a) * samples r (rolls r))%Q,
   {| samples := samples r; rolls := S (rolls r) |}).

End Py.

Declare Scope py_scope.
Delimit Scope py_scope with py.
Notation "'let*' x := c 'in' k" := (Py.bind c (fun x => k))
  (at level 10, x name, c at level 100, k at level 200) : py_scope.
Notation "c ;; k" := (Py.bind c (fun _ => k))
  (at level 100, k at level 200, right associativity) : py_scope.
Local Open Scope py_scope.

Declare Scope pyf_scope.
Delimit Scope pyf_scope with pyf.
Notation "'let*' x := c 'in' k" := (Py.bindF c (fun x => k))
  (at level 10, x name, c at level 100, k at level 200) : pyf_scope.
Notation "c ;; k" := (Py.bindF c (fun _ => k))
  (at level 100, k at level 200, right associativity) : pyf_scope.

(* ====================================================================== *)
(** ** status.py *)

Module Status.

Record ThreeFG15Status : Set := {
  busy : bool;
  grip_detected : bool;
  force_grip_detected : bool;
  calibration_ok : bool
}.

(** One field of [from_register]: [bool(int(status[-k]))]. *)
Definition flag (status : list ascii) (k : nat) : Py.exn + bool :=
  match Py.char_from_end status k with
  | inl e => inl e
  | inr c => match Py.int_of_char c with
             | inl e => inl e
             | inr n => inr (Py.bool_of_int n)
             end
  end.

(** [ThreeFG15Status.from_register] *)
Definition from_register (reg_value : Z) : Py.exn + ThreeFG15Status :=
  let status := Py.format_016b reg_value in
  match flag status 1, flag status 2, flag status 3, flag status 4 with
  | inr b, inr g, inr f, inr c =>
      inr {| busy := b; grip_detected := g;
             force_grip_detected := f; calibration_ok := c |}
  | inl e, _, _, _ | _, inl e, _, _ | _, _, inl e, _ | _, _, _, inl e => inl e
  end.

End Status.

(* ====================================================================== *)
(** ** GripperBase.py *)

Module GripperBase.

Inductive GripType : Set := EXTERNAL | INTERNAL.

(** [grip_type.value] *)
Definition value (g : GripType) : Z :=
  match g with EXTERNAL => 0 | INTERNAL => 1 end.

(** [GripType(v)]: lookup of an enum member by value. *)
Definition GripType_of_value (v : Z) : Py.exn + GripType :=
  if v =? 0 then inr EXTERNAL
  else if v =? 1 then inr INTERNAL
  else inl Py.ValueError.

(** Register map *)
Definition REG_TARGET_FORCE : Z := 0.
Definition REG_TARGET_DIAMETER : Z := 1.
Definition REG_GRIP_TYPE : Z := 2.
Definition REG_CONTROL : Z := 3.
Definition REG_STATUS : Z := 256.
Definition REG_RAW_DIAMETER : Z := 257.
Definition REG_DIAMETER_OFFSET : Z := 258.
Definition REG_FORCE_APPLIED : Z := 259.
Definition REG_FINGER_LENGTH : Z := 270.
Definition REG_FINGER_POSITION : Z := 272.
Definition REG_FINGERTIP_OFFSET : Z := 273.
Definition REG_MIN_DIAMETER : Z := 513.
Definition REG_MAX_DIAMETER : Z := 514.

(** Control values *)
Definition CMD_GRIP : Z := 1.
Definition CMD_MOVE : Z := 2.
Definition CMD_STOP : Z := 4.
Definition CMD_FLEXIBLE_GRIP : Z := 5.

(** The abstract methods: what a backing implementation provides. *)
Class GripperBase (G : Type) : Type := {
  open_connection : Py.M G bool;
  close_connection : Py.M G unit;
  write_register : Z -> Z -> Py.M G unit;
  write_registers : Z -> list Z -> Py.M G unit;
  read_registers : Z -> Z -> Py.M G (list Z)
}.

Section HighLevel.
Context {G : Type} `{GripperBase G}.

Definition set_target_force (force_val : Z) : Py.M G unit :=
  write_register REG_TARGET_FORCE force_val.

Definition set_target_diameter (diameter : Z) : Py.M G unit :=
  write_register REG_TARGET_DIAMETER diameter.

Definition set_grip_type (grip_type : GripType) : Py.M G unit :=
  write_register REG_GRIP_TYPE (value grip_type).

Definition set_control (cmd : Z) : Py.M G unit :=
  write_register REG_CONTROL cmd.

Definition get_status : Py.M G (option Status.ThreeFG15Status) :=
  Py.try_except
    (let* regs := read_registers REG_STATUS 1 in
     match regs with
     | [] => Py.ret None
     | r0 :: _ => let* st := Py.lift (Status.from_register r0) in Py.ret (Some st)
     end)
    Py.is_RuntimeError (fun _ => Py.ret None).

(** The three scaled telemetry getters share one shape:
    [r = read_registers(reg, 1); return r[0] / 10.0 if r else None]. *)
Definition get_scaled (reg : Z) : Py.M G (option Q) :=
  Py.try_except
    (let* r := read_registers reg 1 in
     match r with
     | [] => Py.ret None
     | r0 :: _ => Py.ret (Some (inject_Z r0 / 10)%Q)
     end)
    Py.is_RuntimeError (fun _ => Py.ret None).

Definition get_raw_diameter : Py.M G (option Q) := get_scaled REG_RAW_DIAMETER.

Definition open_gripper (force_val : Z) : Py.M G unit :=
  Py.try_except
    (let* max_d := read_registers REG_MAX_DIAMETER 1 in
     match max_d with
     | [] => Py.raise Py.RuntimeError
     | d :: _ =>
         set_target_force force_val ;;
         set_target_diameter d ;;
         set_grip_type EXTERNAL ;;
         set_control CMD_GRIP
     end)
    Py.is_RuntimeError (fun _ => Py.ret tt).

Definition close_gripper (force_val : Z) : Py.M G unit :=
  Py.try_except
    (let* min_d := read_registers REG_MIN_DIAMETER 1 in
     match min_d with
     | [] => Py.raise Py.RuntimeError
     | d :: _ =>
         set_target_force force_val ;;
         set_target_diameter d ;;
         set_grip_type EXTERNAL ;;
         set_control CMD_GRIP
     end)
    Py.is_RuntimeError (fun _ => Py.ret tt).

Definition move_gripper (diameter force_val : Z) (grip_type : GripType)
  : Py.M G unit :=
  set_target_force force_val ;;
  set_target_diameter diameter ;;
  set_grip_type grip_type ;;
  set_control CMD_GRIP.

Definition flex_grip (diameter force_val : Z) (grip_type : GripType)
  : Py.M G unit :=
  set_target_force force_val ;;
  set_target_diameter diameter ;;
  set_grip_type grip_type ;;
  set_control CMD_FLEXIBLE_GRIP.

Definition detect_object : Py.M G bool :=
  let* status := get_status in
  match status with
  | None => Py.ret false
  | Some st => Py.ret (Status.grip_detected st || Status.force_grip_detected st)
  end.

End HighLevel.

End GripperBase.

(* ====================================================================== *)
(** ** ThreeFG15Simulator.py *)

Module Simulator.
Import GripperBase.

Record ThreeFG15Simulator : Type := {
  _registers : gmap Z Z;
  _min_diameter : Z;
  _max_diameter : Z;
  _finger_length : Z;
  _simulation_speed : Q;
  _enable_noise : bool;
  _current_diameter : Z;
  _target_diameter : Z;
  _current_force : Z;
  _target_force : Z;
  _grip_type : GripType;
  _is_busy : bool;
  _grip_detected : bool;
  _force_grip_detected : bool;
  _calibration_ok : bool;
  _movement_start_time : option Q;
  _movement_duration : Q;
(* the runtime the object lives in *)
clock : Py.Clock;
rng : Py.Rng
  }.

(** Attribute assignments [self._x = v]. *)
Definition set_registers (v : gmap Z Z) (s : ThreeFG15Simulator) :=
  {| _registers := v; _min_diameter := _min_diameter s;
     _max_diameter := _max_diameter s; _finger_length := _finger_length s;
     _simulation_speed := _simulation_speed s; _enable_noise := _enable_noise s;
     _current_diameter := _current_diameter s; _target_diameter := _target_diameter s;
     _current_force := _current_force s; _target_force := _target_force s;
     _grip_type := _grip_type s; _is_busy := _is_busy s;
     _grip_detected := _grip_detected s;
     _force_grip_detected := _force_grip_detected s;
     _calibration_ok := _calibration_ok s;
     _movement_start_time := _movement_start_time s;
     _movement_duration := _movement_duration s;
     clock := clock s; rng := rng s |}.

Definition set_current_diameter (v : Z) (s : ThreeFG15Simulator) :=
  {| _registers := _registers s; _min_diameter := _min_diameter s;
     _max_diameter := _max_diameter s; _finger_length := _finger_length s;
     _simulation_speed := _simulation_speed s; _enable_noise := _enable_noise s;
     _current_diameter := v; _target_diameter := _target_diameter s;
     _current_force := _current_force s; _target_force := _target_force s;
     _grip_type := _grip_type s; _is_busy := _is_busy s;
     _grip_detected := _grip_detected s;
     _force_grip_detected := _force_grip_detected s;
     _calibration_ok := _calibration_ok s;
     _movement_start_time := _movement_start_time s;
     _movement_duration := _movement_duration s;
     clock := clock s; rng := rng s |}.

Definition set_target_diameter_attr (v : Z) (s : ThreeFG15Simulator) :=
  {| _registers := _registers s; _min_diameter := _min_diameter s;
     _max_diameter := _max_diameter s; _finger_length := _finger_length s;
     _simulation_speed := _simulation_speed s; _enable_noise := _enable_noise s;
     _current_diameter := _current_diameter s; _target_diameter := v;
     _current_force := _current_force s; _target_force := _target_force s;
     _grip_type := _grip_type s; _is_busy := _is_busy s;
     _grip_detected := _grip_detected s;
     _force_grip_detected := _force_grip_detected s;
     _calibration_ok := _calibration_ok s;
     _movement_start_time := _movement_start_time s;
     _movement_duration := _movement_duration s;
     clock := clock s; rng := rng s |}.

Definition set_current_force (v : Z) (s : ThreeFG15Simulator) :=
  {| _registers := _registers s; _min_diameter := _min_diameter s;
     _max_diameter := _max_diameter s; _finger_length := _finger_length s;
     _simulation_speed := _simulation_speed s; _enable_noise := _enable_noise s;
     _current_diameter := _current_diameter s; _target_diameter := _target_diameter s;
     _current_force := v; _target_force := _target_force s;
     _grip_type := _grip_type s; _is_busy := _is_busy s;
     _grip_detected := _grip_detected s;
     _force_grip_detected := _force_grip_detected s;
     _calibration_ok := _calibration_ok s;
     _movement_start_time := _movement_start_time s;
     _movement_duration := _movement_duration s;
     clock := clock s; rng := rng s |}.

Definition set_target_force_attr (v : Z) (s : ThreeFG15Simulator) :=
  {| _registers := _registers s; _min_diameter := _min_diameter s;
     _max_diameter := _max_diameter s; _finger_length := _finger_length s;
     _simulation_speed := _simulation_speed s; _enable_noise := _enable_noise s;
     _current_diameter := _current_diameter s; _target_diameter := _target_diameter s;
     _current_force := _current_force s; _target_force := v;
     _grip_type := _grip_type s; _is_busy := _is_busy s;
     _grip_detected := _grip_detected s;
     _force_grip_detected := _force_grip_detected s;
     _calibration_ok := _calibration_ok s;
     _movement_start_time := _movement_start_time s;
     _movement_duration := _movement_duration s;
     clock := clock s; rng := rng s |}.

Definition set_grip_type_attr (v : GripType) (s : ThreeFG15Simulator) :=
  {| _registers := _registers s; _min_diameter := _min_diameter s;
     _max_diameter := _max_diameter s; _finger_length := _finger_length s;
     _simulation_speed := _simulation_speed s; _enable_noise := _enable_noise s;
     _current_diameter := _current_diameter s; _target_diameter := _target_diameter s;
     _current_force := _current_force s; _target_force := _target_force s;
     _grip_type := v; _is_busy := _is_busy s;
     _grip_detected := _grip_detected s;
     _force_grip_detected := _force_grip_detected s;
     _calibration_ok := _calibration_ok s;
     _movement_start_time := _movement_start_time s;
     _movement_duration := _movement_duration s;
     clock := clock s; rng := rng s |}.

Definition set_is_busy (v : bool) (s : ThreeFG15Simulator) :=
  {| _registers := _registers s; _min_diameter := _min_diameter s;
     _max_diameter := _max_diameter s; _finger_length := _finger_length s;
     _simulation_speed := _simulation_speed s; _enable_noise := _enable_noise s;
     _current_diameter := _current_diameter s; _target_diameter := _target_diameter s;
     _current_force := _current_force s; _target_force := _target_force s;
     _grip_type := _grip_type s; _is_busy := v;
     _grip_detected := _grip_detected s;
     _force_grip_detected := _force_grip_detected s;
     _calibration_ok := _calibration_ok s;
     _movement_start_time := _movement_start_time s;
     _movement_duration := _movement_duration s;
     clock := clock s; rng := rng s |}.

(** [self._grip_detected = g; self._force_grip_detected = f] *)
Definition set_grip_flags (g f : bool) (s : ThreeFG15Simulator) :=
  {| _registers := _registers s; _min_diameter := _min_diameter s;
     _max_diameter := _max_diameter s; _finger_length := _finger_length s;
     _simulation_speed := _simulation_speed s; _enable_noise := _enable_noise s;
     _current_diameter := _current_diameter s; _target_diameter := _target_diameter s;
     _current_force := _current_force s; _target_force := _target_force s;
     _grip_type := _grip_type s; _is_busy := _is_busy s;
     _grip_detected := g;
     _force_grip_detected := f;
     _calibration_ok := _calibration_ok s;
     _movement_start_time := _movement_start_time s;
     _movement_duration := _movement_duration s;
     clock := clock s; rng := rng s |}.

Definition set_movement_start_time (v : option Q) (s : ThreeFG15Simulator) :=
  {| _registers := _registers s; _min_diameter := _min_diameter s;
     _max_diameter := _max_diameter s; _finger_length := _finger_length s;
     _simulation_speed := _simulation_speed s; _enable_noise := _enable_noise s;
     _current_diameter := _current_diameter s; _target_diameter := _target_diameter s;
     _current_force := _current_force s; _target_force := _target_force s;
     _grip_type := _grip_type s; _is_busy := _is_busy s;
     _grip_detected := _grip_detected s;
     _force_grip_detected := _force_grip_detected s;
     _calibration_ok := _calibration_ok s;
     _movement_start_time := v;
     _movement_duration := _movement_duration s;
     clock := clock s; rng := rng s |}.

Definition set_movement_duration (v : Q) (s : ThreeFG15Simulator) :=
  {| _registers := _registers s; _min_diameter := _min_diameter s;
     _max_diameter := _max_diameter s; _finger_length := _finger_length s;
     _simulation_speed := _simulation_speed s; _enable_noise := _enable_noise s;
     _current_diameter := _current_diameter s; _target_diameter := _target_diameter s;
     _current_force := _current_force s; _target_force := _target_force s;
     _grip_type := _grip_type s; _is_busy := _is_busy s;
     _grip_detected := _grip_detected s;
     _force_grip_detected := _force_grip_detected s;
     _calibration_ok := _calibration_ok s;
     _movement_start_time := _movement_start_time s;
     _movement_duration := v;
     clock := clock s; rng := rng s |}.

Definition set_clock (v : Py.Clock) (s : ThreeFG15Simulator) :=
  {| _registers := _registers s; _min_diameter := _min_diameter s;
     _max_diameter := _max_diameter s; _finger_length := _finger_length s;
     _simulation_speed := _simulation_speed s; _enable_noise := _enable_noise s;
     _current_diameter := _current_diameter s; _target_diameter := _target_diameter s;
     _current_force := _current_force s; _target_force := _target_force s;
     _grip_type := _grip_type s; _is_busy := _is_busy s;
     _grip_detected := _grip_detected s;
     _force_grip_detected := _force_grip_detected s;
     _calibration_ok := _calibration_ok s;
     _movement_start_time := _movement_start_time s;
     _movement_duration := _movement_duration s;
     clock := v; rng := rng s |}.

Definition set_rng (v : Py.Rng) (s : ThreeFG15Simulator) :=
  {| _registers := _registers s; _min_diameter := _min_diameter s;
     _max_diameter := _max_diameter s; _finger_length := _finger_length s;
     _simulation_speed := _simulation_speed s; _enable_noise := _enable_noise s;
     _current_diameter := _current_diameter s; _target_diameter := _target_diameter s;
     _current_force := _current_force s; _target_force := _target_force s;
     _grip_type := _grip_type s; _is_busy := _is_busy s;
     _grip_detected := _grip_detected s;
     _force_grip_detected := _force_grip_detected s;
     _calibration_ok := _calibration_ok s;
     _movement_start_time := _movement_start_time s;
     _movement_duration := _movement_duration s;
     clock := clock s; rng := v |}.

(** [self._registers[reg] = value] *)
Definition store (reg value : Z) : Py.M ThreeFG15Simulator unit :=
  Py.modify (fun s => set_registers (<[reg := value]> (_registers s)) s).

(** [time.time()] in the simulator's runtime. *)
Definition now : Py.M ThreeFG15Simulator Q :=
  fun s => let (t, c) := Py.time_time (clock s) in (inr t, set_clock c s).

(** [random.uniform(a, b)] in the simulator's runtime. *)
Definition uniform (a b : Q) : Py.M ThreeFG15Simulator Q :=
  fun s => let (x, r) := Py.random_uniform a b (rng s) in (inr x, set_rng r s).

Definition _calculate_status_register (s : ThreeFG15Simulator) : Z :=
  let status := 0 in
  let status := if _is_busy s then Z.lor status 1 else status in
  let status := if _grip_detected s then Z.lor status 2 else status in
  let status := if _force_grip_detected s then Z.lor status 4 else status in
  let status := if _calibration_ok s then Z.lor status 8 else status in
  status.

Definition _add_noise (value : Z) (noise_percent : Q)
  : Py.M ThreeFG15Simulator Z :=
  let* enabled := Py.gets _enable_noise in
  if negb enabled then Py.ret value
  else
    let* noise := uniform (- (noise_percent / 100))%Q (noise_percent / 100)%Q in
    Py.ret (Z.max 0 (Py.int_of_float (inject_Z value * (1 + noise))%Q)).

Definition _update_grip_detection : Py.M ThreeFG15Simulator unit :=
  Py.modify (fun s =>
    if Py.Qltb (inject_Z (_current_diameter s))
               (inject_Z (_max_diameter s) * (9 # 10))%Q
    then
      if Py.Qltb (inject_Z (_target_force s) * (8 # 10))%Q
                 (inject_Z (_current_force s))
      then set_grip_flags true true s
      else set_grip_flags true false s
    else set_grip_flags false false s).

(** The ease-in-out curve of [_update_movement]. *)
Definition ease (progress : Q) : Q :=
  if Py.Qltb progress (1 # 2)
  then (2 * progress * progress)%Q
  else (1 - 2 * (1 - progress) * (1 - progress))%Q.

Definition _update_movement : Py.M ThreeFG15Simulator unit :=
  let* busy := Py.gets _is_busy in
  let* started := Py.gets _movement_start_time in
  match busy, started with
  | true, Some start_time =>
      let* t_now := now in
      let elapsed := (t_now - start_time)%Q in
      let* duration := Py.gets _movement_duration in
      if Qeq_bool duration 0%Q then Py.raise Py.ZeroDivisionError
      else
        let progress := Py.fmin 1%Q (elapsed / duration)%Q in
        let t := ease progress in
(* Update current diameter *)
let* current := Py.gets _current_diameter in
let* regs := Py.gets _registers in
let start_diameter := default current (regs !! REG_RAW_DIAMETER) in
let* target := Py.gets _target_diameter in
let diameter_diff := target - start_diameter in
Py.modify (set_current_diameter
             (start_diameter
              + Py.int_of_float (inject_Z diameter_diff * t)%Q)) ;;
(* Update force based on movement *)
let* target_force := Py.gets _target_force in
(if 0 <? Z.abs diameter_diff
 then
   let force_factor := Py.fmin 1%Q (progress * 2)%Q in
   Py.modify (set_current_force
                (Py.int_of_float (inject_Z target_force * force_factor)%Q))
 else Py.modify (set_current_force target_force)) ;;
(* Check if movement is complete *)
(if Qle_bool 1%Q progress
 then
   Py.modify (set_is_busy false) ;;
   Py.modify (set_movement_start_time None) ;;
   Py.modify (set_current_diameter target) ;;
   Py.modify (set_current_force target_force) ;;
   _update_grip_detection
 else Py.ret tt) ;;
(* Update registers *)
let* d := Py.gets _current_diameter in
let* f := Py.gets _current_force in
let* raw := _add_noise d 2%Q in
store REG_RAW_DIAMETER raw ;;
let* off := _add_noise d 2%Q in
store REG_DIAMETER_OFFSET off ;;
let* app := _add_noise f 2%Q in
store REG_FORCE_APPLIED app ;;
let* st := Py.gets _calculate_status_register in
store REG_STATUS st
    | _, _ => Py.ret tt
    end.

Definition _start_movement : Py.M ThreeFG15Simulator unit :=
  Py.modify (set_is_busy true) ;;
  let* t := now in
  Py.modify (set_movement_start_time (Some t)) ;;
  let* speed := Py.gets _simulation_speed in
  if Qeq_bool speed 0%Q then Py.raise Py.ZeroDivisionError
  else Py.modify (set_movement_duration ((1 # 2) / speed)%Q).

Definition open_connection : Py.M ThreeFG15Simulator bool := Py.ret true.

Definition close_connection : Py.M ThreeFG15Simulator unit := Py.ret tt.

Definition write_register (reg value : Z) : Py.M ThreeFG15Simulator unit :=
  (if reg =? REG_TARGET_FORCE then
     Py.modify (set_target_force_attr (Z.max 0 (Z.min 1000 value)))
   else if reg =? REG_TARGET_DIAMETER then
     let* lo := Py.gets _min_diameter in
     let* hi := Py.gets _max_diameter in
     Py.modify (set_target_diameter_attr (Z.max lo (Z.min hi value)))
   else if reg =? REG_GRIP_TYPE then
     let* g := Py.lift (GripType_of_value value) in
     Py.modify (set_grip_type_attr g)
   else if reg =? REG_CONTROL then
     if (value =? CMD_GRIP) || (value =? CMD_MOVE) || (value =? CMD_FLEXIBLE_GRIP)
     then _start_movement
     else if value =? CMD_STOP then
       Py.modify (set_is_busy false) ;;
       Py.modify (set_movement_start_time None)
     else Py.ret tt
   else Py.ret tt) ;;
  store reg value ;;
(* Update movement if needed *)
_update_movement.

Definition write_registers (start_reg : Z) (values : list Z)
  : Py.M ThreeFG15Simulator unit :=
  Py.for_each (Py.enumerate values)
              (fun iv => write_register (start_reg + fst iv) (snd iv)).

Definition read_registers (reg count : Z) : Py.M ThreeFG15Simulator (list Z) :=
(* Update movement before reading *)
_update_movement ;;
let* regs := Py.gets _registers in
Py.ret (map (fun i => default 0 (regs !! (reg + i))) (Py.range count)).

(** The dict [_initialize_registers] assigns to [self._registers]. *)
Definition _initialize_registers (s : ThreeFG15Simulator) : gmap Z Z :=
  list_to_map
    [ (REG_TARGET_FORCE, 500);
      (REG_TARGET_DIAMETER, _max_diameter s);
      (REG_GRIP_TYPE, 0);
      (REG_CONTROL, 0);
      (REG_STATUS, _calculate_status_register s);
      (REG_RAW_DIAMETER, _current_diameter s);
      (REG_DIAMETER_OFFSET, _current_diameter s);
      (REG_FORCE_APPLIED, 0);
      (REG_FINGER_LENGTH, _finger_length s);
      (REG_FINGER_POSITION, 1);
      (REG_FINGERTIP_OFFSET, 0);
      (REG_MIN_DIAMETER, _min_diameter s);
      (REG_MAX_DIAMETER, _max_diameter s) ].

(** [ThreeFG15Simulator.__init__], in a runtime with the given clock and
    random generator. *)
Definition __init__ (min_diameter max_diameter finger_length : Z)
           (simulation_speed : Q) (enable_noise : bool)
           (c : Py.Clock) (r : Py.Rng) : ThreeFG15Simulator :=
  let s := {| _registers := ∅;
              _min_diameter := min_diameter;
              _max_diameter := max_diameter;
              _finger_length := finger_length;
              _simulation_speed := simulation_speed;
              _enable_noise := enable_noise;
              _current_diameter := max_diameter;
              _target_diameter := max_diameter;
              _current_force := 0;
              _target_force := 500;
              _grip_type := EXTERNAL;
              _is_busy := false;
              _grip_detected := false;
              _force_grip_detected := false;
              _calibration_ok := true;
              _movement_start_time := None;
              _movement_duration := (1 # 2)%Q;
              clock := c; rng := r |} in
  set_registers (_initialize_registers s) s.

#[global] Instance simulator_gripper : GripperBase ThreeFG15Simulator := {
  GripperBase.open_connection := open_connection;
  GripperBase.close_connection := close_connection;
  GripperBase.write_register := write_register;
  GripperBase.write_registers := write_registers;
  GripperBase.read_registers := read_registers
}.

End Simulator.

(* ====================================================================== *)
(** ** server/simple_modbus_server.py: SimpleDevice *)

Module SimpleDevice.

Record SimpleDevice : Type := {
  _coils : list bool;
  _hrs : list Z;
  _dis : list bool;
  _irs : list Z;
  _open_cmd_coil : Z;
  _status_coil : Z
}.

Definition __init__ (coils holding_registers discrete_inputs input_registers
                     open_cmd_coil status_coil : Z) : SimpleDevice :=
  {| _coils := repeat false (Z.to_nat coils);
     _hrs := repeat 0 (Z.to_nat holding_registers);
     _dis := repeat false (Z.to_nat discrete_inputs);
     _irs := repeat 0 (Z.to_nat input_registers);
     _open_cmd_coil := open_cmd_coil;
     _status_coil := status_coil |}.

Definition set_coils_attr (v : list bool) (d : SimpleDevice) :=
  {| _coils := v; _hrs := _hrs d; _dis := _dis d; _irs := _irs d;
     _open_cmd_coil := _open_cmd_coil d; _status_coil := _status_coil d |}.

Definition set_hrs_attr (v : list Z) (d : SimpleDevice) :=
  {| _coils := _coils d; _hrs := v; _dis := _dis d; _irs := _irs d;
     _open_cmd_coil := _open_cmd_coil d; _status_coil := _status_coil d |}.

(** [[l[address + i] for i in range(count)]] *)
Fixpoint slice {A} (l : list A) (idxs : list Z) : Py.exn + list A :=
  match idxs with
  | [] => inr []
  | i :: rest =>
      match Py.getitem l i with
      | inl e => inl e
      | inr a => match slice l rest with
                 | inl e => inl e
                 | inr tl => inr (a :: tl)
                 end
      end
  end.

Definition get_coils (address count : Z) : Py.M SimpleDevice (list bool) :=
  let* coils := Py.gets _coils in
  Py.lift (slice coils (map (Z.add address) (Py.range count))).

Definition get_holding_registers (address count : Z)
  : Py.M SimpleDevice (list Z) :=
  let* hrs := Py.gets _hrs in
  Py.lift (slice hrs (map (Z.add address) (Py.range count))).

Definition get_discrete_inputs (address count : Z)
  : Py.M SimpleDevice (list bool) :=
  let* dis := Py.gets _dis in
  Py.lift (slice dis (map (Z.add address) (Py.range count))).

Definition get_input_registers (address count : Z)
  : Py.M SimpleDevice (list Z) :=
  let* irs := Py.gets _irs in
  Py.lift (slice irs (map (Z.add address) (Py.range count))).

(** [self._hrs[idx] = v] *)
Definition hrs_setitem (idx v : Z) : Py.M SimpleDevice unit :=
  let* hrs := Py.gets _hrs in
  let* hrs' := Py.lift (Py.setitem hrs idx v) in
  Py.modify (set_hrs_attr hrs').

Definition set_holding_registers (address : Z) (values : list Z)
  : Py.M SimpleDevice unit :=
  Py.for_each (Py.enumerate values)
    (fun iv => hrs_setitem (address + fst iv) (Z.land (snd iv) 65535)).

Definition set_dis_attr (v : list bool) (d : SimpleDevice) :=
  {| _coils := _coils d; _hrs := _hrs d; _dis := v; _irs := _irs d;
     _open_cmd_coil := _open_cmd_coil d; _status_coil := _status_coil d |}.

Definition set_irs_attr (v : list Z) (d : SimpleDevice) :=
  {| _coils := _coils d; _hrs := _hrs d; _dis := _dis d; _irs := v;
     _open_cmd_coil := _open_cmd_coil d; _status_coil := _status_coil d |}.

(** [self._coils[idx] = v] *)
Definition coils_setitem (idx : Z) (v : bool) : Py.M SimpleDevice unit :=
  let* coils := Py.gets _coils in
  let* coils' := Py.lift (Py.setitem coils idx v) in
  Py.modify (set_coils_attr coils').

(** [SimpleDevice.set_coils]: writing [True] to the open command coil also
    sets the status coil, when that is a coil of the block. *)
Definition set_coils (address : Z) (values : list bool)
  : Py.M SimpleDevice unit :=
  Py.for_each (Py.enumerate values)
    (fun iv =>
       let idx := address + fst iv in
       coils_setitem idx (snd iv) ;;
       let* d := Py.gets (fun d => d) in
       let* now_set := Py.lift (Py.getitem (_coils d) idx) in
       if (idx =? _open_cmd_coil d) && now_set then
         if (0 <=? _status_coil d)
            && (_status_coil d <? Z.of_nat (length (_coils d)))
         then coils_setitem (_status_coil d) true
         else Py.ret tt
       else Py.ret tt).

(** [self._dis[idx] = v] and [self._irs[idx] = v] *)
Definition dis_setitem (idx : Z) (v : bool) : Py.M SimpleDevice unit :=
  let* dis := Py.gets _dis in
  let* dis' := Py.lift (Py.setitem dis idx v) in
  Py.modify (set_dis_attr dis').

Definition irs_setitem (idx v : Z) : Py.M SimpleDevice unit :=
  let* irs := Py.gets _irs in
  let* irs' := Py.lift (Py.setitem irs idx v) in
  Py.modify (set_irs_attr irs').

Definition set_discrete_inputs (address : Z) (values : list bool)
  : Py.M SimpleDevice unit :=
  Py.for_each (Py.enumerate values)
    (fun iv => dis_setitem (address + fst iv) (snd iv)).

Definition set_input_registers (address : Z) (values : list Z)
  : Py.M SimpleDevice unit :=
  Py.for_each (Py.enumerate values)
    (fun iv => irs_setitem (address + fst iv) (Z.land (snd iv) 65535)).

End SimpleDevice.

(* ====================================================================== *)
(** ** server/simple_modbus_server.py: GripperDevice *)

Module GripperDevice.
Import GripperBase.

Section Device.
Context {G : Type} `{GripperBase G}.

Record GripperDevice : Type := {
  super : SimpleDevice.SimpleDevice;
  _gripper : G;
  _connected : bool;
  _close_cmd_coil : option Z;
  _move_cmd_coil : option Z;
  _flex_cmd_coil : option Z;
  _stop_cmd_coil : option Z;
  _status_open_coil : Z;
  _status_closed_coil : Z;
  _status_grip_coil : Z;
  _hr_force_index : Z;
  _hr_diameter_index : Z;
  _hr_griptype_index : Z;
  _hr_cmd_index : Z;
  _ir_width_index : Z;
  _min_d : option Z;
  _max_d : option Z;
(* the runtime the gateway lives in *)
clock : Py.Clock
    }.

Definition set_super (v : SimpleDevice.SimpleDevice) (d : GripperDevice) :=
  {| super := v; _gripper := _gripper d; _connected := _connected d;
     _close_cmd_coil := _close_cmd_coil d; _move_cmd_coil := _move_cmd_coil d;
     _flex_cmd_coil := _flex_cmd_coil d; _stop_cmd_coil := _stop_cmd_coil d;
     _status_open_coil := _status_open_coil d;
     _status_closed_coil := _status_closed_coil d;
     _status_grip_coil := _status_grip_coil d;
     _hr_force_index := _hr_force_index d;
     _hr_diameter_index := _hr_diameter_index d;
     _hr_griptype_index := _hr_griptype_index d;
     _hr_cmd_index := _hr_cmd_index d; _ir_width_index := _ir_width_index d;
     _min_d := _min_d d; _max_d := _max_d d; clock := clock d |}.

Definition set_gripper (v : G) (d : GripperDevice) :=
  {| super := super d; _gripper := v; _connected := _connected d;
     _close_cmd_coil := _close_cmd_coil d; _move_cmd_coil := _move_cmd_coil d;
     _flex_cmd_coil := _flex_cmd_coil d; _stop_cmd_coil := _stop_cmd_coil d;
     _status_open_coil := _status_open_coil d;
     _status_closed_coil := _status_closed_coil d;
     _status_grip_coil := _status_grip_coil d;
     _hr_force_index := _hr_force_index d;
     _hr_diameter_index := _hr_diameter_index d;
     _hr_griptype_index := _hr_griptype_index d;
     _hr_cmd_index := _hr_cmd_index d; _ir_width_index := _ir_width_index d;
     _min_d := _min_d d; _max_d := _max_d d; clock := clock d |}.

Definition set_connected (v : bool) (d : GripperDevice) :=
  {| super := super d; _gripper := _gripper d; _connected := v;
     _close_cmd_coil := _close_cmd_coil d; _move_cmd_coil := _move_cmd_coil d;
     _flex_cmd_coil := _flex_cmd_coil d; _stop_cmd_coil := _stop_cmd_coil d;
     _status_open_coil := _status_open_coil d;
     _status_closed_coil := _status_closed_coil d;
     _status_grip_coil := _status_grip_coil d;
     _hr_force_index := _hr_force_index d;
     _hr_diameter_index := _hr_diameter_index d;
     _hr_griptype_index := _hr_griptype_index d;
     _hr_cmd_index := _hr_cmd_index d; _ir_width_index := _ir_width_index d;
     _min_d := _min_d d; _max_d := _max_d d; clock := clock d |}.

Definition set_min_d (v : option Z) (d : GripperDevice) :=
  {| super := super d; _gripper := _gripper d; _connected := _connected d;
     _close_cmd_coil := _close_cmd_coil d; _move_cmd_coil := _move_cmd_coil d;
     _flex_cmd_coil := _flex_cmd_coil d; _stop_cmd_coil := _stop_cmd_coil d;
     _status_open_coil := _status_open_coil d;
     _status_closed_coil := _status_closed_coil d;
     _status_grip_coil := _status_grip_coil d;
     _hr_force_index := _hr_force_index d;
     _hr_diameter_index := _hr_diameter_index d;
     _hr_griptype_index := _hr_griptype_index d;
     _hr_cmd_index := _hr_cmd_index d; _ir_width_index := _ir_width_index d;
     _min_d := v; _max_d := _max_d d; clock := clock d |}.

Definition set_max_d (v : option Z) (d : GripperDevice) :=
  {| super := super d; _gripper := _gripper d; _connected := _connected d;
     _close_cmd_coil := _close_cmd_coil d; _move_cmd_coil := _move_cmd_coil d;
     _flex_cmd_coil := _flex_cmd_coil d; _stop_cmd_coil := _stop_cmd_coil d;
     _status_open_coil := _status_open_coil d;
     _status_closed_coil := _status_closed_coil d;
     _status_grip_coil := _status_grip_coil d;
     _hr_force_index := _hr_force_index d;
     _hr_diameter_index := _hr_diameter_index d;
     _hr_griptype_index := _hr_griptype_index d;
     _hr_cmd_index := _hr_cmd_index d; _ir_width_index := _ir_width_index d;
     _min_d := _min_d d; _max_d := v; clock := clock d |}.

Definition set_clock (v : Py.Clock) (d : GripperDevice) :=
  {| super := super d; _gripper := _gripper d; _connected := _connected d;
     _close_cmd_coil := _close_cmd_coil d; _move_cmd_coil := _move_cmd_coil d;
     _flex_cmd_coil := _flex_cmd_coil d; _stop_cmd_coil := _stop_cmd_coil d;
     _status_open_coil := _status_open_coil d;
     _status_closed_coil := _status_closed_coil d;
     _status_grip_coil := _status_grip_coil d;
     _hr_force_index := _hr_force_index d;
     _hr_diameter_index := _hr_diameter_index d;
     _hr_griptype_index := _hr_griptype_index d;
     _hr_cmd_index := _hr_cmd_index d; _ir_width_index := _ir_width_index d;
     _min_d := _min_d d; _max_d := _max_d d; clock := v |}.

(** [GripperDevice.__init__]; [SimpleDevice.__init__] is called with its
    default sizes. *)
Definition __init__ (gripper : G) (open_cmd_coil status_coil : Z)
           (close_cmd_coil move_cmd_coil flex_cmd_coil stop_cmd_coil : option Z)
           (status_open_coil status_closed_coil status_grip_coil
            hr_force_index hr_diameter_index hr_griptype_index
            hr_cmd_index ir_width_index : Z) (c : Py.Clock) : GripperDevice :=
  {| super := SimpleDevice.__init__ 64 128 64 128 open_cmd_coil status_coil;
     _gripper := gripper; _connected := false;
     _close_cmd_coil := close_cmd_coil; _move_cmd_coil := move_cmd_coil;
     _flex_cmd_coil := flex_cmd_coil; _stop_cmd_coil := stop_cmd_coil;
     _status_open_coil := status_open_coil;
     _status_closed_coil := status_closed_coil;
     _status_grip_coil := status_grip_coil;
     _hr_force_index := hr_force_index;
     _hr_diameter_index := hr_diameter_index;
     _hr_griptype_index := hr_griptype_index;
     _hr_cmd_index := hr_cmd_index; _ir_width_index := ir_width_index;
     _min_d := None; _max_d := None; clock := c |}.

(** A call [super().m(...)]. *)
Definition on_super {A} (c : Py.M SimpleDevice.SimpleDevice A)
  : Py.M GripperDevice A :=
  fun d => let (r, b) := c (super d) in (r, set_super b d).

(** A call [self._gripper.m(...)]. *)
Definition on_gripper {A} (c : Py.M G A) : Py.M GripperDevice A :=
  fun d => let (r, g) := c (_gripper d) in (r, set_gripper g d).

(** [time.time()] in the gateway's runtime. *)
Definition now : Py.M GripperDevice Q :=
  fun d => let (t, c) := Py.time_time (clock d) in (inr t, set_clock c d).

(** [self._hrs] and [len(self._hrs)] *)
Definition hrs (d : GripperDevice) : list Z := SimpleDevice._hrs (super d).
Definition in_hrs (d : GripperDevice) (idx : Z) : bool :=
  (0 <=? idx) && (idx <? Z.of_nat (length (hrs d))).

(** [max(self._min_d, diameter)] then [min(self._max_d, diameter)], each
    only when the bound is known. *)
Definition clamp_diameter (d : GripperDevice) (diameter : Z) : Z :=
  let diameter := match _min_d d with
                  | Some lo => Z.max lo diameter
                  | None => diameter
                  end in
  match _max_d d with
  | Some hi => Z.min hi diameter
  | None => diameter
  end.

(** [GripType.INTERNAL if gtv == GripType.INTERNAL.value else GripType.EXTERNAL] *)
Definition grip_type_of (gtv : Z) : GripType :=
  if gtv =? value INTERNAL then INTERNAL else EXTERNAL.

Definition connect : Py.M GripperDevice bool :=
  Py.try_except
    (let* ok := on_gripper open_connection in
     Py.modify (set_connected ok) ;;
     (if ok then
        Py.try_except
          (let* md := on_gripper (read_registers REG_MIN_DIAMETER 1) in
           let* xd := on_gripper (read_registers REG_MAX_DIAMETER 1) in
           match md with
           | m :: _ => Py.modify (set_min_d (Some m))
           | [] => Py.ret tt
           end ;;
           match xd with
           | x :: _ => Py.modify (set_max_d (Some x))
           | [] => Py.ret tt
           end)
          Py.is_Exception (fun _ => Py.ret tt)
      else Py.ret tt) ;;
     Py.gets _connected)
    Py.is_Exception
    (fun _ => Py.modify (set_connected false) ;; Py.ret false).

Definition _is_busy : Py.M GripperDevice bool :=
  Py.try_except
    (let* st := on_gripper get_status in
     match st with
     | None => Py.ret false
     | Some st => Py.ret (Status.busy st)
     end)
    Py.is_Exception (fun _ => Py.ret false).

(** The [while] loop of [_wait_ready]; [fuel] bounds the number of times
    its condition is evaluated. *)
Fixpoint _wait_ready_loop (fuel : nat) (t0 timeout : Q)
  : Py.MF GripperDevice bool :=
  match fuel with
  | O => Py.unfinished
  | S fuel' =>
      (let* t := Py.liftF now in
       if Py.Qltb (t - t0) timeout then
         let* busy := Py.liftF _is_busy in
         if negb busy then Py.retF true
         else (* time.sleep(poll) *) _wait_ready_loop fuel' t0 timeout
       else Py.retF false)%pyf
  end.

Definition _wait_ready (fuel : nat) : Py.MF GripperDevice bool :=
  (let* t0 := Py.liftF now in
   _wait_ready_loop fuel t0 10%Q)%pyf.

(** One iteration of the loop of [get_coils], for position [i] of the
    local list [out]; it returns the updated [out]. *)
Definition get_coils_step (address i : Z) (out : list bool)
  : Py.M GripperDevice (list bool) :=
  let idx := address + i in
  let* connected := Py.gets _connected in
  if negb connected then Py.ret out (* continue *)
  else
    let* st := on_gripper get_status in
(* compute status bits *)
let grip := match st with
            | Some st => Status.grip_detected st
                         || Status.force_grip_detected st
            | None => false
            end in
let busy := match st with
            | Some st => Status.busy st
            | None => true
            end in
(* current diameter (0.1mm) *)
let* raw := Py.attempt (on_gripper get_raw_diameter) in
let cur_d := match raw with
             | inr (Some raw_mm) => Some (Py.round (raw_mm * 10)%Q)
             | _ => None
             end in
(* thresholds for open/closed *)
let* d := Py.gets (fun d => d) in
let open_bit := match cur_d, _max_d d with
                | Some c, Some hi => hi - 5 <=? c
                | _, _ => false
                end in
let closed_bit := match cur_d, _min_d d with
                  | Some c, Some lo => c <=? lo + 5
                  | _, _ => false
                  end in
(* Map to requested coil indices *)
let k := Z.to_nat i in
if idx =? SimpleDevice._status_coil (super d) then
  Py.ret (<[k := negb busy]> out)
else if idx =? _status_grip_coil d then Py.ret (<[k := grip]> out)
else if idx =? _status_open_coil d then Py.ret (<[k := open_bit]> out)
else if idx =? _status_closed_coil d then Py.ret (<[k := closed_bit]> out)
else Py.ret out.

(** The [for] loop of [get_coils] inside its [try]: an exception raised
    by an iteration ends the loop, and the method returns [out] as the
    iterations before it left it. *)
Fixpoint get_coils_loop (address : Z) (idxs : list Z) (out : list bool)
  : Py.M GripperDevice (list bool) :=
  match idxs with
  | [] => Py.ret out
  | i :: rest =>
      let* r := Py.attempt (get_coils_step address i out) in
      match r with
      | inl _ => Py.ret out
      | inr out1 => get_coils_loop address rest out1
      end
  end.

Definition get_coils (address count : Z) : Py.M GripperDevice (list bool) :=
  let* out := on_super (SimpleDevice.get_coils address count) in
  get_coils_loop address (Py.range count) out.

(** Inherited unchanged from [SimpleDevice]. *)
Definition get_holding_registers (address count : Z)
  : Py.M GripperDevice (list Z) :=
  on_super (SimpleDevice.get_holding_registers address count).

(** [{address + i for i in range(len(values))}] *)
Definition changed_set (address : Z) (values : list Z) : gset Z :=
  list_to_set (map (Z.add address) (Py.range (Z.of_nat (length values)))).

(** [self._hrs[idx]] *)
Definition hrs_getitem (idx : Z) : Py.M GripperDevice Z :=
  let* d := Py.gets (fun d => d) in Py.lift (Py.getitem (hrs d) idx).

(** [int(self._hrs[idx]) if 0 <= idx < len(self._hrs) else dflt] *)
Definition hrs_get_or (idx dflt : Z) : Py.M GripperDevice Z :=
  let* d := Py.gets (fun d => d) in
  if in_hrs d idx then hrs_getitem idx else Py.ret dflt.

(** Block "Apply force" of [set_holding_registers]. *)
Definition apply_force (changed : gset Z) : Py.M GripperDevice unit :=
  let* d := Py.gets (fun d => d) in
  if bool_decide (_hr_force_index d ∈ changed) && in_hrs d (_hr_force_index d)
  then
    let* force := hrs_getitem (_hr_force_index d) in
    Py.try_except (on_gripper (set_target_force force))
                  Py.is_Exception (fun _ => Py.ret tt)
  else Py.ret tt.

(** Block "Apply diameter/grip type" of [set_holding_registers]. *)
Definition apply_diameter_griptype (changed : gset Z)
  : Py.M GripperDevice unit :=
  let* d := Py.gets (fun d => d) in
  if (bool_decide (_hr_diameter_index d ∈ changed)
      || bool_decide (_hr_griptype_index d ∈ changed))
     && in_hrs d (_hr_diameter_index d)
     && in_hrs d (_hr_griptype_index d)
  then
    let* diameter := hrs_getitem (_hr_diameter_index d) in
    let diameter := clamp_diameter d diameter in
    let* gtv := hrs_getitem (_hr_griptype_index d) in
    let grip_type := grip_type_of gtv in
    Py.try_except
      (on_gripper (set_target_diameter diameter) ;;
       on_gripper (set_grip_type grip_type))
      Py.is_Exception (fun _ => Py.ret tt)
  else Py.ret tt.

(** The [try] body of the block "Handle command register": parameters
    are read from the holding registers, then the opcode is dispatched. *)
Definition dispatch_command (fuel : nat) (cmd : Z)
  : Py.MF GripperDevice unit :=
  (let* d := Py.liftF (Py.gets (fun d => d)) in
   let* force := Py.liftF (hrs_get_or (_hr_force_index d) 500) in
   let* diameter := Py.liftF (hrs_get_or (_hr_diameter_index d) 100) in
   let diameter := clamp_diameter d diameter in
   let* gtv := Py.liftF (hrs_get_or (_hr_griptype_index d) 0) in
   let grip_type := grip_type_of gtv in
   if cmd =? 1 then (* MOVE *)
     _wait_ready fuel ;;
     Py.liftF (on_gripper (move_gripper diameter force grip_type))
   else if cmd =? 2 then (* FLEX *)
     _wait_ready fuel ;;
     Py.liftF (on_gripper (flex_grip diameter force grip_type))
   else if cmd =? 3 then (* STOP *)
     Py.liftF (on_gripper (set_control CMD_STOP))
   else if cmd =? 4 then (* OPEN *)
     _wait_ready fuel ;;
     Py.liftF (on_gripper (open_gripper force))
   else if cmd =? 5 then (* CLOSE *)
     _wait_ready fuel ;;
     Py.liftF (on_gripper (close_gripper force))
   else Py.retF tt)%pyf.

(** "Clear command register to 0 after handling" *)
Definition clear_command : Py.M GripperDevice unit :=
  Py.try_except
    (let* d := Py.gets (fun d => d) in
     on_super (SimpleDevice.hrs_setitem (_hr_cmd_index d) 0) ;;
     on_super (SimpleDevice.set_holding_registers (_hr_cmd_index d) [0]))
    Py.is_Exception (fun _ => Py.ret tt).

(** Block "Handle command register to trigger actions". *)
Definition handle_command (fuel : nat) (changed : gset Z)
  : Py.MF GripperDevice unit :=
  (let* d := Py.liftF (Py.gets (fun d => d)) in
   if (0 <=? _hr_cmd_index d)
      && bool_decide (_hr_cmd_index d ∈ changed)
      && in_hrs d (_hr_cmd_index d)
   then
     let* cmd := Py.liftF (hrs_getitem (_hr_cmd_index d)) in
     Py.try_exceptF (dispatch_command fuel cmd)
                    Py.is_Exception (fun _ => Py.retF tt) ;;
     Py.liftF clear_command
   else Py.retF tt)%pyf.

Definition set_holding_registers (fuel : nat) (address : Z) (values : list Z)
  : Py.MF GripperDevice unit :=
  (Py.liftF (on_super (SimpleDevice.set_holding_registers address values)) ;;
   let* connected := Py.liftF (Py.gets _connected) in
   if negb connected then Py.retF tt
   else
     Py.try_exceptF
       (let changed := changed_set address values in
        Py.liftF (apply_force changed) ;;
        Py.liftF (apply_diameter_griptype changed) ;;
        handle_command fuel changed)
       Py.is_Exception (fun _ => Py.retF tt))%pyf.

(** [GripperDevice.close]: the [finally] clause runs whether or not
    [close_connection] raises, and an exception goes on to the
    caller. *)
Definition close : Py.M GripperDevice unit :=
  let* connected := Py.gets _connected in
  let* r := Py.attempt (if connected then on_gripper close_connection
                        else Py.ret tt) in
  Py.modify (set_connected false) ;;
  Py.lift r.

Definition get_input_registers (address count : Z)
  : Py.M GripperDevice (list Z) :=
  let* out := on_super (SimpleDevice.get_input_registers address count) in
  let* connected := Py.gets _connected in
  if negb connected then Py.ret out
  else
(* the [for] loop inside the [try]: as in [get_coils_loop], an
   exception ends the loop and [out] is returned as it is *)
(fix loop (idxs : list Z) (out : list Z) : Py.M GripperDevice (list Z) :=
   match idxs with
   | [] => Py.ret out
   | i :: rest =>
       let* d := Py.gets (fun d => d) in
       let idx := address + i in
       if idx =? _ir_width_index d then
         let* raw := Py.attempt (on_gripper get_raw_diameter) in
         match raw with
         | inl _ => Py.ret out
         | inr None => loop rest out
         | inr (Some raw_mm) =>
             let val := Py.round (raw_mm * 10)%Q in (* 0.1mm units *)
             let out1 := <[Z.to_nat i := val]> out in
(* mirror into backing so subsequent reads match *)
(if (0 <=? idx)
    && (idx <? Z.of_nat (length (SimpleDevice._irs (super d))))
 then on_super (SimpleDevice.irs_setitem idx val)
 else Py.ret tt) ;;
loop rest out1
                 end
               else loop rest out
           end) (Py.range count) out.

(** [self._coils[idx] = bool(v)] for the indices of the block, in the
    first loop of [set_coils]. *)
Definition store_coils (address : Z) (values : list bool)
  : Py.M GripperDevice unit :=
  Py.for_each (Py.enumerate values)
    (fun iv =>
       let idx := address + fst iv in
       let* d := Py.gets (fun d => d) in
       if (0 <=? idx)
          && (idx <? Z.of_nat (length (SimpleDevice._coils (super d))))
       then on_super (SimpleDevice.coils_setitem idx (snd iv))
       else Py.ret tt).

(** [int(self._hrs[idx]) if self._hrs else dflt] *)
Definition hrs_or_default (idx dflt : Z) : Py.M GripperDevice Z :=
  let* d := Py.gets (fun d => d) in
  match hrs d with
  | [] => Py.ret dflt
  | _ :: _ => hrs_getitem idx
  end.

(** [try: body  except Exception as e: log.error(...)] *)
Definition logged (body : Py.MF GripperDevice unit)
  : Py.MF GripperDevice unit :=
  Py.try_exceptF body Py.is_Exception (fun _ => Py.retF tt).

(** One iteration of the second loop of [set_coils]: the action mapped
    to coil [idx], written with value [v]. *)
Definition coil_action (fuel : nat) (idx : Z) (v : bool)
  : Py.MF GripperDevice unit :=
  (let* d := Py.liftF (Py.gets (fun d => d)) in
   if negb (_connected d) then Py.retF tt (* continue *)
   else if idx =? SimpleDevice._open_cmd_coil (super d) then
     let* force := Py.liftF (hrs_or_default (_hr_force_index d) 500) in
     logged
       (match _close_cmd_coil d with
        | None =>
(* Single coil semantics: True=open, False=close *)
if v then
  _wait_ready fuel ;;
  Py.liftF (on_gripper (open_gripper force))
else
  _wait_ready fuel ;;
  Py.liftF (on_gripper (close_gripper force))
            | Some _ =>
(* Separate coils semantics: open only on True *)
if v then
  _wait_ready fuel ;;
  Py.liftF (on_gripper (open_gripper force))
else Py.retF tt
            end)
       else if match _close_cmd_coil d with
               | Some c => (idx =? c) && v
               | None => false
               end then
         let* force := Py.liftF (hrs_or_default (_hr_force_index d) 500) in
         logged (_wait_ready fuel ;;
 Py.liftF (on_gripper (close_gripper force)))
       else if match _move_cmd_coil d with
               | Some c => (idx =? c) && v
               | None => false
               end then
(* Move to diameter using HR diameter and grip type *)
let* force := Py.liftF (hrs_or_default (_hr_force_index d) 500) in
let* diameter := Py.liftF (hrs_or_default (_hr_diameter_index d) 100) in
let* gtv := Py.liftF (hrs_or_default (_hr_griptype_index d) 0) in
let diameter := clamp_diameter d diameter in
let grip_type := grip_type_of gtv in
logged (_wait_ready fuel ;;
        Py.liftF (on_gripper (move_gripper diameter force grip_type)))
       else if match _flex_cmd_coil d with
      | Some c => (idx =? c) && v
      | None => false
      end then
(* Flex grip with diameter and grip type *)
let* force := Py.liftF (hrs_or_default (_hr_force_index d) 100) in
let* diameter := Py.liftF (hrs_or_default (_hr_diameter_index d) 100) in
let* gtv := Py.liftF (hrs_or_default (_hr_griptype_index d) 1) in
let diameter := clamp_diameter d diameter in
let grip_type := grip_type_of gtv in
logged (_wait_ready fuel ;;
        Py.liftF (on_gripper (flex_grip diameter force grip_type)))
       else if match _stop_cmd_coil d with
      | Some c => (idx =? c) && v
      | None => false
      end then
logged (Py.liftF (on_gripper (set_control CMD_STOP)))
       else Py.retF tt)%pyf.

(** [for x in xs: body x] for a body with a loop bound. *)
Fixpoint for_eachF {A} (xs : list A) (body : A -> Py.MF GripperDevice unit)
  : Py.MF GripperDevice unit :=
  match xs with
  | [] => Py.retF tt
  | x :: xs' => Py.bindF (body x) (fun _ => for_eachF xs' body)
  end.

Definition set_coils (fuel : nat) (address : Z) (values : list bool)
  : Py.MF GripperDevice unit :=
  ((* Update in-memory coils WITHOUT changing status coils automatically *)
   Py.liftF (store_coils address values) ;;
(* Map unified/separate command coils to real gripper actions *)
for_eachF (Py.enumerate values)
  (fun iv => coil_action fuel (address + fst iv) (snd iv)))%pyf.

(** Inherited unchanged from [SimpleDevice]. *)
Definition get_discrete_inputs (address count : Z)
  : Py.M GripperDevice (list bool) :=
  on_super (SimpleDevice.get_discrete_inputs address count).

End Device.

Arguments GripperDevice G : clear implicits.

End GripperDevice.

(* ====================================================================== *)
(** ** server/simple_modbus_server.py: DelegatingDataBlock *)

Module DelegatingDataBlock.
Import GripperBase.

(** The four values [block_type] takes in [run_server]. *)
Inductive block_type : Set := co | di | hr | ir.

(** What a block returns: booleans for coils and discrete inputs, 16-bit
    words for registers. *)
Inductive block_values : Set :=
| Bits (bs : list bool)
| Words (ws : list Z).

Section Block.
Context {G : Type} `{GripperBase G}.

(** [max(0, int(address) - 1)]: the 1-based address of the sequential
    datablock as a 0-based index. *)
Definition zaddr (address : Z) : Z := Z.max 0 (address - 1).

(** [getValues] of a block of type [bt] over the gateway device. *)
Definition getValues (bt : block_type) (address count : Z)
  : Py.M (GripperDevice.GripperDevice G) block_values :=
  match bt with
  | co => let* bs := GripperDevice.get_coils (zaddr address) count in
          Py.ret (Bits bs)
  | di => let* bs := GripperDevice.get_discrete_inputs (zaddr address) count in
          Py.ret (Bits bs)
  | hr => let* ws := GripperDevice.get_holding_registers (zaddr address) count in
          Py.ret (Words ws)
  | ir => let* ws := GripperDevice.get_input_registers (zaddr address) count in
          Py.ret (Words ws)
  end.

(** [v == 0xFF00 or v == 1 or v is True] *)
Definition coil_value (v : Z) : bool := (v =? 65280) || (v =? 1).

(** [setValues] of a block of type [bt]; [values] is the list the
    request carries (a scalar counts as a one-element list, [True] and
    [False] as 1 and 0).  The echo into the datablock's own store is
    not modelled: [getValues] never reads it. *)
Definition setValues (fuel : nat) (bt : block_type) (address : Z)
           (values : list Z)
  : Py.MF (GripperDevice.GripperDevice G) unit :=
  match bt with
  | co => GripperDevice.set_coils fuel (zaddr address) (map coil_value values)
  | hr => GripperDevice.set_holding_registers fuel (zaddr address)
            (map (fun v => Z.land v 65535) values)
  | di | ir => Py.retF tt (* Read-only blocks (ignore writes) *)
  end.

End Block.
End DelegatingDataBlock.


(* ====================================================================== *)
(** ** Python floats as IEEE 754 binary64 numbers *)

(** The engine of [ThreeFG15Simulator.py] computes its movement with Python
    floats.  Module [Simulator] above takes them as exact rationals; the
    modules below give the same class with the arithmetic Python runs,
    binary64 with rounding to nearest, ties to even. *)

Module Float64.

(** A Python [float]. *)
Definition float : Set := spec_float.

Definition prec : Z := 53.
Definition emax : Z := 1024.

(** [x + y], [x - y], [x * y] and [-x] on floats. *)
Definition add : float -> float -> float := SFadd prec emax.
Definition sub : float -> float -> float := SFsub prec emax.
Definition mul : float -> float -> float := SFmul prec emax.
Definition opp : float -> float := SFopp.

(** [x < y], [x <= y] and [x == y] on floats; all are [False] on a NaN. *)
Definition ltb : float -> float -> bool := SFltb.
Definition leb : float -> float -> bool := SFleb.
Definition eqb : float -> float -> bool := SFeqb.

Definition is_zero (x : float) : bool :=
  match x with S754_zero _ => true | _ => false end.

(** [x / y] on floats: [ZeroDivisionError] when [y] is zero. *)
Definition div (x y : float) : Py.exn + float :=
  if is_zero y then inl Py.ZeroDivisionError
  else inr (SFdiv prec emax x y).

(** The float nearest to an integer. *)
Definition of_Z (n : Z) : float := binary_normalize prec emax n 0 false.

(** The conversion an int undergoes when it meets a float in an arithmetic
    operation: [OverflowError] when the int is out of the floats' range. *)
Definition of_int (n : Z) : Py.exn + float :=
  match of_Z n with
  | S754_infinity _ => inl Py.OtherException
  | x => inr x
  end.

(** [n * x] for an int [n] and a float [x]. *)
Definition int_mul (n : Z) (x : float) : Py.exn + float :=
  match of_int n with
  | inl e => inl e
  | inr y => inr (mul y x)
  end.

(** The float a decimal literal [n / d] denotes, for [n] and [d] below
    [2^53]: the float nearest to the quotient. *)
Definition literal (n d : Z) : float := SFdiv prec emax (of_Z n) (of_Z d).

Definition zero : float := of_Z 0.
Definition one : float := of_Z 1.
Definition two : float := of_Z 2.
Definition half : float := literal 1 2.

(** [int(x)] on a float: truncation toward zero; [ValueError] on a NaN,
    [OverflowError] on an infinity. *)
Definition to_int (x : float) : Py.exn + Z :=
  match x with
  | S754_zero _ => inr 0
  | S754_infinity _ => inl Py.OtherException
  | S754_nan => inl Py.ValueError
  | S754_finite s m e =>
      let magnitude := match e with
                       | Zneg p => Z.shiftr (Zpos m) (Zpos p)
                       | _ => Z.shiftl (Zpos m) e
                       end in
      inr (if s then - magnitude else magnitude)
  end.

(** [round(x)] on a float: the nearest integer, ties to the even one;
    [ValueError] on a NaN, [OverflowError] on an infinity. *)
Definition round (x : float) : Py.exn + Z :=
  match x with
  | S754_zero _ => inr 0
  | S754_infinity _ => inl Py.OtherException
  | S754_nan => inl Py.ValueError
  | S754_finite s m e =>
      let magnitude :=
        match e with
        | Zneg p =>
            let whole := Z.shiftr (Zpos m) (Zpos p) in
            let rest := Z.land (Zpos m) (Z.ones (Zpos p)) in
            match rest ?= Z.shiftl 1 (Zpos p - 1) with
            | Lt => whole
            | Gt => whole + 1
            | Eq => if Z.even whole then whole else whole + 1
            end
        | _ => Z.shiftl (Zpos m) e
        end in
      inr (if s then - magnitude else magnitude)
  end.

(** Comparison of an int with a float, exact as in Python; [None] on a
    NaN. *)
Definition compare_int (n : Z) (x : float) : option comparison :=
  match x with
  | S754_nan => None
  | S754_infinity s => Some (if s then Gt else Lt)
  | S754_zero _ => Some (n ?= 0)
  | S754_finite s m e =>
      let v := if s then Zneg m else Zpos m in
      match e with
      | Zneg p => Some (Z.shiftl n (Zpos p) ?= v)
      | _ => Some (n ?= Z.shiftl v e)
      end
  end.

(** [n < x] and [n > x] for an int [n] and a float [x]. *)
Definition int_ltb (n : Z) (x : float) : bool :=
  match compare_int n x with Some Lt => true | _ => false end.
Definition int_gtb (n : Z) (x : float) : bool :=
  match compare_int n x with Some Gt => true | _ => false end.

(** [min(a, b)] on floats: the first argument unless the second is
    strictly smaller. *)
Definition fmin (a b : float) : float := if ltb b a then b else a.

(** The wall clock: the stream of values successive calls of
    [time.time()] return, and how many were consumed. *)
Record Clock : Type := { readings : nat -> float; ticks : nat }.

(** [time.time()] *)
Definition time_time (c : Clock) : float * Clock :=
  (readings c (ticks c), {| readings := readings c; ticks := S (ticks c) |}).

(** The random generator: the stream of values of [random.random()]. *)
Record Rng : Type := { samples : nat -> float; rolls : nat }.

(** [random.uniform(a, b)], that is [a + (b - a) * random.random()]. *)
Definition random_uniform (a b : float) (r : Rng) : float * Rng :=
  (add a (mul (sub b a) (samples r (rolls r))),
   {| samples := samples r; rolls := S (rolls r) |}).

End Float64.

(* ====================================================================== *)
(** ** ThreeFG15Simulator.py, in double precision *)

Module Simulator64.
Import GripperBase.

Record ThreeFG15Simulator : Type := {
  _registers : gmap Z Z;
  _min_diameter : Z;
  _max_diameter : Z;
  _finger_length : Z;
  _simulation_speed : Float64.float;
  _enable_noise : bool;
  _current_diameter : Z;
  _target_diameter : Z;
  _current_force : Z;
  _target_force : Z;
  _grip_type : GripType;
  _is_busy : bool;
  _grip_detected : bool;
  _force_grip_detected : bool;
  _calibration_ok : bool;
  _movement_start_time : option Float64.float;
  _movement_duration : Float64.float;
  clock : Float64.Clock;
  rng : Float64.Rng
}.

(** Attribute assignments [self._x = v]. *)
Definition set_registers (v : gmap Z Z) (s : ThreeFG15Simulator) :=
  {| _registers := v; _min_diameter := _min_diameter s;
     _max_diameter := _max_diameter s; _finger_length := _finger_length s;
     _simulation_speed := _simulation_speed s; _enable_noise := _enable_noise s;
     _current_diameter := _current_diameter s;
     _target_diameter := _target_diameter s; _current_force := _current_force s;
     _target_force := _target_force s; _grip_type := _grip_type s;
     _is_busy := _is_busy s; _grip_detected := _grip_detected s;
     _force_grip_detected := _force_grip_detected s;
     _calibration_ok := _calibration_ok s;
     _movement_start_time := _movement_start_time s;
     _movement_duration := _movement_duration s; clock := clock s;
     rng := rng s |}.

Definition set_current_diameter (v : Z) (s : ThreeFG15Simulator) :=
  {| _registers := _registers s; _min_diameter := _min_diameter s;
     _max_diameter := _max_diameter s; _finger_length := _finger_length s;
     _simulation_speed := _simulation_speed s; _enable_noise := _enable_noise s;
     _current_diameter := v; _target_diameter := _target_diameter s;
     _current_force := _current_force s; _target_force := _target_force s;
     _grip_type := _grip_type s; _is_busy := _is_busy s;
     _grip_detected := _grip_detected s;
     _force_grip_detected := _force_grip_detected s;
     _calibration_ok := _calibration_ok s;
     _movement_start_time := _movement_start_time s;
     _movement_duration := _movement_duration s; clock := clock s;
     rng := rng s |}.

Definition set_target_diameter_attr (v : Z) (s : ThreeFG15Simulator) :=
  {| _registers := _registers s; _min_diameter := _min_diameter s;
     _max_diameter := _max_diameter s; _finger_length := _finger_length s;
     _simulation_speed := _simulation_speed s; _enable_noise := _enable_noise s;
     _current_diameter := _current_diameter s; _target_diameter := v;
     _current_force := _current_force s; _target_force := _target_force s;
     _grip_type := _grip_type s; _is_busy := _is_busy s;
     _grip_detected := _grip_detected s;
     _force_grip_detected := _force_grip_detected s;
     _calibration_ok := _calibration_ok s;
     _movement_start_time := _movement_start_time s;
     _movement_duration := _movement_duration s; clock := clock s;
     rng := rng s |}.

Definition set_current_force (v : Z) (s : ThreeFG15Simulator) :=
  {| _registers := _registers s; _min_diameter := _min_diameter s;
     _max_diameter := _max_diameter s; _finger_length := _finger_length s;
     _simulation_speed := _simulation_speed s; _enable_noise := _enable_noise s;
     _current_diameter := _current_diameter s;
     _target_diameter := _target_diameter s; _current_force := v;
     _target_force := _target_force s; _grip_type := _grip_type s;
     _is_busy := _is_busy s; _grip_detected := _grip_detected s;
     _force_grip_detected := _force_grip_detected s;
     _calibration_ok := _calibration_ok s;
     _movement_start_time := _movement_start_time s;
     _movement_duration := _movement_duration s; clock := clock s;
     rng := rng s |}.

Definition set_target_force_attr (v : Z) (s : ThreeFG15Simulator) :=
  {| _registers := _registers s; _min_diameter := _min_diameter s;
     _max_diameter := _max_diameter s; _finger_length := _finger_length s;
     _simulation_speed := _simulation_speed s; _enable_noise := _enable_noise s;
     _current_diameter := _current_diameter s;
     _target_diameter := _target_diameter s; _current_force := _current_force s;
     _target_force := v; _grip_type := _grip_type s; _is_busy := _is_busy s;
     _grip_detected := _grip_detected s;
     _force_grip_detected := _force_grip_detected s;
     _calibration_ok := _calibration_ok s;
     _movement_start_time := _movement_start_time s;
     _movement_duration := _movement_duration s; clock := clock s;
     rng := rng s |}.

Definition set_grip_type_attr (v : GripType) (s : ThreeFG15Simulator) :=
  {| _registers := _registers s; _min_diameter := _min_diameter s;
     _max_diameter := _max_diameter s; _finger_length := _finger_length s;
     _simulation_speed := _simulation_speed s; _enable_noise := _enable_noise s;
     _current_diameter := _current_diameter s;
     _target_diameter := _target_diameter s; _current_force := _current_force s;
     _target_force := _target_force s; _grip_type := v; _is_busy := _is_busy s;
     _grip_detected := _grip_detected s;
     _force_grip_detected := _force_grip_detected s;
     _calibration_ok := _calibration_ok s;
     _movement_start_time := _movement_start_time s;
     _movement_duration := _movement_duration s; clock := clock s;
     rng := rng s |}.

Definition set_is_busy (v : bool) (s : ThreeFG15Simulator) :=
  {| _registers := _registers s; _min_diameter := _min_diameter s;
     _max_diameter := _max_diameter s; _finger_length := _finger_length s;
     _simulation_speed := _simulation_speed s; _enable_noise := _enable_noise s;
     _current_diameter := _current_diameter s;
     _target_diameter := _target_diameter s; _current_force := _current_force s;
     _target_force := _target_force s; _grip_type := _grip_type s; _is_busy := v;
     _grip_detected := _grip_detected s;
     _force_grip_detected := _force_grip_detected s;
     _calibration_ok := _calibration_ok s;
     _movement_start_time := _movement_start_time s;
     _movement_duration := _movement_duration s; clock := clock s;
     rng := rng s |}.

(** [self._grip_detected = g; self._force_grip_detected = f] *)
Definition set_grip_flags (g f : bool) (s : ThreeFG15Simulator) :=
  {| _registers := _registers s; _min_diameter := _min_diameter s;
     _max_diameter := _max_diameter s; _finger_length := _finger_length s;
     _simulation_speed := _simulation_speed s; _enable_noise := _enable_noise s;
     _current_diameter := _current_diameter s;
     _target_diameter := _target_diameter s; _current_force := _current_force s;
     _target_force := _target_force s; _grip_type := _grip_type s;
     _is_busy := _is_busy s; _grip_detected := g; _force_grip_detected := f;
     _calibration_ok := _calibration_ok s;
     _movement_start_time := _movement_start_time s;
     _movement_duration := _movement_duration s; clock := clock s;
     rng := rng s |}.

Definition set_movement_start_time (v : option Float64.float) (s : ThreeFG15Simulator) :=
  {| _registers := _registers s; _min_diameter := _min_diameter s;
     _max_diameter := _max_diameter s; _finger_length := _finger_length s;
     _simulation_speed := _simulation_speed s; _enable_noise := _enable_noise s;
     _current_diameter := _current_diameter s;
     _target_diameter := _target_diameter s; _current_force := _current_force s;
     _target_force := _target_force s; _grip_type := _grip_type s;
     _is_busy := _is_busy s; _grip_detected := _grip_detected s;
     _force_grip_detected := _force_grip_detected s;
     _calibration_ok := _calibration_ok s; _movement_start_time := v;
     _movement_duration := _movement_duration s; clock := clock s;
     rng := rng s |}.

Definition set_movement_duration (v : Float64.float) (s : ThreeFG15Simulator) :=
  {| _registers := _registers s; _min_diameter := _min_diameter s;
     _max_diameter := _max_diameter s; _finger_length := _finger_length s;
     _simulation_speed := _simulation_speed s; _enable_noise := _enable_noise s;
     _current_diameter := _current_diameter s;
     _target_diameter := _target_diameter s; _current_force := _current_force s;
     _target_force := _target_force s; _grip_type := _grip_type s;
     _is_busy := _is_busy s; _grip_detected := _grip_detected s;
     _force_grip_detected := _force_grip_detected s;
     _calibration_ok := _calibration_ok s;
     _movement_start_time := _movement_start_time s; _movement_duration := v;
     clock := clock s; rng := rng s |}.

Definition set_clock (v : Float64.Clock) (s : ThreeFG15Simulator) :=
  {| _registers := _registers s; _min_diameter := _min_diameter s;
     _max_diameter := _max_diameter s; _finger_length := _finger_length s;
     _simulation_speed := _simulation_speed s; _enable_noise := _enable_noise s;
     _current_diameter := _current_diameter s;
     _target_diameter := _target_diameter s; _current_force := _current_force s;
     _target_force := _target_force s; _grip_type := _grip_type s;
     _is_busy := _is_busy s; _grip_detected := _grip_detected s;
     _force_grip_detected := _force_grip_detected s;
     _calibration_ok := _calibration_ok s;
     _movement_start_time := _movement_start_time s;
     _movement_duration := _movement_duration s; clock := v; rng := rng s |}.

Definition set_rng (v : Float64.Rng) (s : ThreeFG15Simulator) :=
  {| _registers := _registers s; _min_diameter := _min_diameter s;
     _max_diameter := _max_diameter s; _finger_length := _finger_length s;
     _simulation_speed := _simulation_speed s; _enable_noise := _enable_noise s;
     _current_diameter := _current_diameter s;
     _target_diameter := _target_diameter s; _current_force := _current_force s;
     _target_force := _target_force s; _grip_type := _grip_type s;
     _is_busy := _is_busy s; _grip_detected := _grip_detected s;
     _force_grip_detected := _force_grip_detected s;
     _calibration_ok := _calibration_ok s;
     _movement_start_time := _movement_start_time s;
     _movement_duration := _movement_duration s; clock := clock s; rng := v |}.


(** [self._registers[reg] = value] *)
Definition store (reg value : Z) : Py.M ThreeFG15Simulator unit :=
  Py.modify (fun s => set_registers (<[reg := value]> (_registers s)) s).

(** [time.time()] in the simulator's runtime. *)
Definition now : Py.M ThreeFG15Simulator Float64.float :=
  fun s => let (t, c) := Float64.time_time (clock s) in (inr t, set_clock c s).

(** [random.uniform(a, b)] in the simulator's runtime. *)
Definition uniform (a b : Float64.float) : Py.M ThreeFG15Simulator Float64.float :=
  fun s => let (x, r) := Float64.random_uniform a b (rng s) in
           (inr x, set_rng r s).

Definition _calculate_status_register (s : ThreeFG15Simulator) : Z :=
  let status := 0 in
  let status := if _is_busy s then Z.lor status 1 else status in
  let status := if _grip_detected s then Z.lor status 2 else status in
  let status := if _force_grip_detected s then Z.lor status 4 else status in
  let status := if _calibration_ok s then Z.lor status 8 else status in
  status.

Definition _add_noise (value : Z) (noise_percent : Float64.float)
  : Py.M ThreeFG15Simulator Z :=
  let* enabled := Py.gets _enable_noise in
  if negb enabled then Py.ret value
  else
    let* lo := Py.lift (Float64.div (Float64.opp noise_percent)
                                    (Float64.of_Z 100)) in
    let* hi := Py.lift (Float64.div noise_percent (Float64.of_Z 100)) in
    let* noise := uniform lo hi in
    let* noisy := Py.lift (Float64.int_mul value
                             (Float64.add Float64.one noise)) in
    let* n := Py.lift (Float64.to_int noisy) in
    Py.ret (Z.max 0 n).

Definition _update_grip_detection : Py.M ThreeFG15Simulator unit :=
  let* current := Py.gets _current_diameter in
  let* hi := Py.gets _max_diameter in
  let* limit := Py.lift (Float64.int_mul hi (Float64.literal 9 10)) in
  if Float64.int_ltb current limit
  then
    Py.modify (fun s => set_grip_flags true (_force_grip_detected s) s) ;;
    let* force := Py.gets _current_force in
    let* target_force := Py.gets _target_force in
    let* threshold := Py.lift (Float64.int_mul target_force
                                 (Float64.literal 8 10)) in
    if Float64.int_gtb force threshold
    then Py.modify (fun s => set_grip_flags (_grip_detected s) true s)
    else Py.modify (fun s => set_grip_flags (_grip_detected s) false s)
  else Py.modify (set_grip_flags false false).

(** The ease-in-out curve of [_update_movement]. *)
Definition ease (progress : Float64.float) : Float64.float :=
  if Float64.ltb progress Float64.half
  then Float64.mul (Float64.mul Float64.two progress) progress
  else Float64.sub Float64.one
         (Float64.mul
            (Float64.mul Float64.two (Float64.sub Float64.one progress))
            (Float64.sub Float64.one progress)).

Definition _update_movement : Py.M ThreeFG15Simulator unit :=
  let* busy := Py.gets _is_busy in
  let* started := Py.gets _movement_start_time in
  match busy, started with
  | true, Some start_time =>
      let* t_now := now in
      let elapsed := Float64.sub t_now start_time in
      let* duration := Py.gets _movement_duration in
      let* ratio := Py.lift (Float64.div elapsed duration) in
      let progress := Float64.fmin Float64.one ratio in
      let t := ease progress in
(* Update current diameter *)
let* current := Py.gets _current_diameter in
let* regs := Py.gets _registers in
let start_diameter := default current (regs !! REG_RAW_DIAMETER) in
let* target := Py.gets _target_diameter in
let diameter_diff := target - start_diameter in
let* travelled := Py.lift (Float64.int_mul diameter_diff t) in
let* step := Py.lift (Float64.to_int travelled) in
Py.modify (set_current_diameter (start_diameter + step)) ;;
(* Update force based on movement *)
let* target_force := Py.gets _target_force in
(if 0 <? Z.abs diameter_diff
 then
   let force_factor :=
     Float64.fmin Float64.one (Float64.mul progress Float64.two) in
   let* scaled := Py.lift (Float64.int_mul target_force force_factor) in
   let* force := Py.lift (Float64.to_int scaled) in
   Py.modify (set_current_force force)
 else Py.modify (set_current_force target_force)) ;;
(* Check if movement is complete *)
(if Float64.leb Float64.one progress
 then
   Py.modify (set_is_busy false) ;;
   Py.modify (set_movement_start_time None) ;;
   Py.modify (set_current_diameter target) ;;
   Py.modify (set_current_force target_force) ;;
   _update_grip_detection
 else Py.ret tt) ;;
(* Update registers *)
let* d := Py.gets _current_diameter in
let* raw := _add_noise d Float64.two in
store REG_RAW_DIAMETER raw ;;
let* d := Py.gets _current_diameter in
let* off := _add_noise d Float64.two in
store REG_DIAMETER_OFFSET off ;;
let* f := Py.gets _current_force in
let* app := _add_noise f Float64.two in
store REG_FORCE_APPLIED app ;;
let* st := Py.gets _calculate_status_register in
store REG_STATUS st
    | _, _ => Py.ret tt
    end.

Definition _start_movement : Py.M ThreeFG15Simulator unit :=
  Py.modify (set_is_busy true) ;;
  let* t := now in
  Py.modify (set_movement_start_time (Some t)) ;;
  let* speed := Py.gets _simulation_speed in
  let* duration := Py.lift (Float64.div Float64.half speed) in
  Py.modify (set_movement_duration duration).

Definition open_connection : Py.M ThreeFG15Simulator bool := Py.ret true.

Definition close_connection : Py.M ThreeFG15Simulator unit := Py.ret tt.

Definition write_register (reg value : Z) : Py.M ThreeFG15Simulator unit :=
  (if reg =? REG_TARGET_FORCE then
     Py.modify (set_target_force_attr (Z.max 0 (Z.min 1000 value)))
   else if reg =? REG_TARGET_DIAMETER then
     let* lo := Py.gets _min_diameter in
     let* hi := Py.gets _max_diameter in
     Py.modify (set_target_diameter_attr (Z.max lo (Z.min hi value)))
   else if reg =? REG_GRIP_TYPE then
     let* g := Py.lift (GripType_of_value value) in
     Py.modify (set_grip_type_attr g)
   else if reg =? REG_CONTROL then
     if (value =? CMD_GRIP) || (value =? CMD_MOVE) || (value =? CMD_FLEXIBLE_GRIP)
     then _start_movement
     else if value =? CMD_STOP then
       Py.modify (set_is_busy false) ;;
       Py.modify (set_movement_start_time None)
     else Py.ret tt
   else Py.ret tt) ;;
  store reg value ;;
(* Update movement if needed *)
_update_movement.

Definition write_registers (start_reg : Z) (values : list Z)
  : Py.M ThreeFG15Simulator unit :=
  Py.for_each (Py.enumerate values)
              (fun iv => write_register (start_reg + fst iv) (snd iv)).

Definition read_registers (reg count : Z) : Py.M ThreeFG15Simulator (list Z) :=
(* Update movement before reading *)
_update_movement ;;
let* regs := Py.gets _registers in
Py.ret (map (fun i => default 0 (regs !! (reg + i))) (Py.range count)).

(** The dict [_initialize_registers] assigns to [self._registers]. *)
Definition _initialize_registers (s : ThreeFG15Simulator) : gmap Z Z :=
  list_to_map
    [ (REG_TARGET_FORCE, 500);
      (REG_TARGET_DIAMETER, _max_diameter s);
      (REG_GRIP_TYPE, 0);
      (REG_CONTROL, 0);
      (REG_STATUS, _calculate_status_register s);
      (REG_RAW_DIAMETER, _current_diameter s);
      (REG_DIAMETER_OFFSET, _current_diameter s);
      (REG_FORCE_APPLIED, 0);
      (REG_FINGER_LENGTH, _finger_length s);
      (REG_FINGER_POSITION, 1);
      (REG_FINGERTIP_OFFSET, 0);
      (REG_MIN_DIAMETER, _min_diameter s);
      (REG_MAX_DIAMETER, _max_diameter s) ].

(** [ThreeFG15Simulator.__init__], in a runtime with the given clock and
    random generator. *)
Definition __init__ (min_diameter max_diameter finger_length : Z)
           (simulation_speed : Float64.float) (enable_noise : bool)
           (c : Float64.Clock) (r : Float64.Rng) : ThreeFG15Simulator :=
  let s := {| _registers := ∅;
              _min_diameter := min_diameter;
              _max_diameter := max_diameter;
              _finger_length := finger_length;
              _simulation_speed := simulation_speed;
              _enable_noise := enable_noise;
              _current_diameter := max_diameter;
              _target_diameter := max_diameter;
              _current_force := 0;
              _target_force := 500;
              _grip_type := EXTERNAL;
              _is_busy := false;
              _grip_detected := false;
              _force_grip_detected := false;
              _calibration_ok := true;
              _movement_start_time := None;
              _movement_duration := Float64.half;
              clock := c; rng := r |} in
  set_registers (_initialize_registers s) s.

#[global] Instance simulator64_gripper : GripperBase ThreeFG15Simulator := {
  GripperBase.open_connection := open_connection;
  GripperBase.close_connection := close_connection;
  GripperBase.write_register := write_register;
  GripperBase.write_registers := write_registers;
  GripperBase.read_registers := read_registers
}.

End Simulator64.

(* ====================================================================== *)
(** * Vocabulary of the statements *)

(** [wp c Q s]: run from [s], method [c] ends with an outcome and an object
    that satisfy [Q].  Methods in [Py.M] are total, so this is a total
    correctness statement. *)
Definition wp {S A} (c : Py.M S A) (Q : Py.exn + A -> S -> Prop) (s : S) : Prop :=
  Q (fst (c s)) (snd (c s)).

Definition bit_char (b : bool) : ascii := if b then "1"%char else "0"%char.

Section EngineVocabulary.
Import GripperBase Simulator.

(** Attributes no update step assigns. *)
Definition same_setup (s s' : ThreeFG15Simulator) : Prop :=
  _min_diameter s' = _min_diameter s
  /\ _max_diameter s' = _max_diameter s
  /\ _finger_length s' = _finger_length s
  /\ _simulation_speed s' = _simulation_speed s
  /\ _enable_noise s' = _enable_noise s
  /\ _target_diameter s' = _target_diameter s
  /\ _target_force s' = _target_force s
  /\ _grip_type s' = _grip_type s
  /\ _calibration_ok s' = _calibration_ok s
  /\ _movement_duration s' = _movement_duration s.

(** Progress of the movement of [s] when the clock reads [t]. *)
Definition progress_at (s : ThreeFG15Simulator) (start_time t : Q) : Q :=
  Py.fmin 1 ((t - start_time) / _movement_duration s)%Q.

(** The diameter an update step takes as the start of the movement. *)
Definition start_diameter (s : ThreeFG15Simulator) : Z :=
  default (_current_diameter s) (_registers s !! REG_RAW_DIAMETER).

(** What one update step of a moving engine does, [p] being the progress
    it computed. *)
Record moved (s s' : ThreeFG15Simulator) (p : Q) : Prop := {
  moved_setup : same_setup s s';
  moved_ticks : Py.ticks (clock s') = S (Py.ticks (clock s));
  moved_readings : Py.readings (clock s') = Py.readings (clock s);
  moved_done :
    Qle_bool 1 p = true ->
    _is_busy s' = false /\ _movement_start_time s' = None
    /\ _current_diameter s' = _target_diameter s
    /\ _current_force s' = _target_force s
    /\ _grip_detected s' =
         Py.Qltb (inject_Z (_target_diameter s))
                 (inject_Z (_max_diameter s) * (9 # 10))%Q
    /\ _force_grip_detected s' =
         _grip_detected s'
         && Py.Qltb (inject_Z (_target_force s) * (8 # 10))%Q
                    (inject_Z (_target_force s));
  moved_on :
    Qle_bool 1 p = false ->
    _is_busy s' = true
    /\ _movement_start_time s' = _movement_start_time s
    /\ _current_diameter s' =
         start_diameter s
         + Py.int_of_float
             (inject_Z (_target_diameter s - start_diameter s) * ease p)%Q
    /\ _grip_detected s' = _grip_detected s
    /\ _force_grip_detected s' = _force_grip_detected s;
  moved_other_registers :
    forall k, k <> REG_STATUS -> k <> REG_RAW_DIAMETER ->
              k <> REG_DIAMETER_OFFSET -> k <> REG_FORCE_APPLIED ->
              _registers s' !! k = _registers s !! k;
  moved_status :
    _registers s' !! REG_STATUS = Some (_calculate_status_register s');
  moved_noiseless :
    _enable_noise s = false ->
    _registers s' !! REG_RAW_DIAMETER = Some (_current_diameter s')
    /\ _registers s' !! REG_DIAMETER_OFFSET = Some (_current_diameter s')
    /\ _registers s' !! REG_FORCE_APPLIED = Some (_current_force s')
    /\ rng s' = rng s
}.


(** Registers an update step may assign. *)
Definition reported (k : Z) : Prop :=
  k = REG_STATUS \/ k = REG_RAW_DIAMETER
  \/ k = REG_DIAMETER_OFFSET \/ k = REG_FORCE_APPLIED.

(** The engine never divides by a zero duration. *)
Definition timed (s : ThreeFG15Simulator) : Prop :=
  Qeq_bool (_movement_duration s) 0 = false.

(** A clock that advances by [step] seconds between two readings, and a
    generator that always returns the middle of its range (no noise). *)
Definition steady_clock (step : Q) : Py.Clock :=
  {| Py.readings := fun n => (inject_Z (Z.of_nat n) * step)%Q; Py.ticks := 0 |}.

Definition centred_rng : Py.Rng :=
  {| Py.samples := fun _ => (1 # 2)%Q; Py.rolls := 0 |}.

(** [ThreeFG15Simulator()] with its default arguments, and
    [ThreeFG15Simulator(enable_noise=False)], in a runtime whose clock
    advances by 100 ms per reading. *)
Definition default_simulator : ThreeFG15Simulator :=
  __init__ 0 1000 500 1 true (steady_clock (1 # 10)) centred_rng.

Definition noiseless_simulator : ThreeFG15Simulator :=
  __init__ 0 1000 500 1 false (steady_clock (1 # 10)) centred_rng.






(** The engine after a client has issued the register reads [reads], each a
    pair of an address and a count, in turn.  Every read runs one update
    step. *)
Definition after_reads (reads : list (Z * Z)) (s : ThreeFG15Simulator)
  : ThreeFG15Simulator :=
  fold_left (fun s rc => snd (read_registers (fst rc) (snd rc) s)) reads s.

End EngineVocabulary.

(** ** A recording double for the primitives *)

(** Primitive calls a backing device receives. *)
Inductive call : Set :=
| OpenConnection
| CloseConnection
| Write (reg value : Z)
| WriteMany (start_reg : Z) (values : list Z)
| Read (reg count : Z).

(** A device together with the log of the primitive calls made on it. *)
Record Spied (G : Type) : Type := { inner : G; calls : list call }.
Arguments inner {G} _.
Arguments calls {G} _.

(** Forward a primitive to the inner device and record the call. *)
Definition spy {G A} (c : call) (m : Py.M G A) : Py.M (Spied G) A :=
  fun s => let (r, g) := m (inner s) in
           (r, {| inner := g; calls := calls s ++ [c] |}).

#[global] Instance spied_gripper {G} `{GripperBase.GripperBase G}
  : GripperBase.GripperBase (Spied G) := {
  GripperBase.open_connection := spy OpenConnection GripperBase.open_connection;
  GripperBase.close_connection := spy CloseConnection GripperBase.close_connection;
  GripperBase.write_register reg v :=
    spy (Write reg v) (GripperBase.write_register reg v);
  GripperBase.write_registers reg vs :=
    spy (WriteMany reg vs) (GripperBase.write_registers reg vs);
  GripperBase.read_registers reg count :=
    spy (Read reg count) (GripperBase.read_registers reg count)
}.

(** A fresh recording of device [g]. *)
Definition watch {G} (g : G) : Spied G := {| inner := g; calls := [] |}.

Section Issued.
Context {G : Type} `{GripperBase.GripperBase G}.

(** The single-register writes a device receives when [ws] are issued in
    turn and the first rejected write ends the sequence. *)
Fixpoint issued (ws : list (Z * Z)) (g : G) : list call :=
  match ws with
  | [] => []
  | (reg, v) :: rest =>
      Write reg v ::
      match GripperBase.write_register reg v g with
      | (inr _, g') => issued rest g'
      | (inl _, _) => []
      end
  end.

(** The writes of [open_gripper] and [close_gripper], in the order the
    specification gives: target force, target diameter, grip type EXTERNAL,
    control opcode GRIP. *)
Definition spec_grip_writes (force_val diameter : Z) : list (Z * Z) :=
  [ (GripperBase.REG_TARGET_FORCE, force_val);
    (GripperBase.REG_TARGET_DIAMETER, diameter);
    (GripperBase.REG_GRIP_TYPE, 0);
    (GripperBase.REG_CONTROL, GripperBase.CMD_GRIP) ].

(** What one of the two operations does on a recorded device, given the
    register [reg] it reads first. *)
Definition reads_then_writes (reg force_val : Z) (g : G) (s : Spied G) : Prop :=
  match GripperBase.read_registers reg 1 g with
  | (inr (d :: _), g') =>
      calls s = Read reg 1 :: issued (spec_grip_writes force_val d) g'
  | (_, g') => calls s = [Read reg 1] /\ inner s = g'
  end.

End Issued.

(** ** The gateway *)

(** The wall clock eventually shows ten seconds more than at any reading:
    what the timeout of [_wait_ready] relies on. *)
Definition clock_advances (readings : nat -> Q) : Prop :=
  forall n, exists m, (n <= m)%nat /\ (readings n + 10 <= readings m)%Q.

Section GatewayVocabulary.
Import GripperBase GripperDevice.
Context {G : Type} `{GripperBase G}.

(** [d'] is [d] except for the state of the backing gripper and the number
    of clock readings consumed. *)
Definition polled (d d' : GripperDevice G) : Prop :=
  exists g k,
    d' = set_clock {| Py.readings := Py.readings (clock d); Py.ticks := k |}
           (set_gripper g d).

(** The value of holding register [idx], or [dflt] when [idx] is not an
    index of the register block. *)
Definition register_or (d : GripperDevice G) (idx dflt : Z) : Z :=
  if in_hrs d idx then default dflt (hrs d !! Z.to_nat idx) else dflt.

(** The high-level operation the specification assigns to an opcode of the
    command register: 1 = MOVE, 2 = FLEX, 3 = STOP, 4 = OPEN, 5 = CLOSE,
    with force, diameter and grip type taken from the holding registers. *)
Definition spec_command_operation (d : GripperDevice G) (opcode : Z)
  : Py.M G unit :=
  let force := register_or d (_hr_force_index d) 500 in
  let diameter := clamp_diameter d (register_or d (_hr_diameter_index d) 100) in
  let grip_type := grip_type_of (register_or d (_hr_griptype_index d) 0) in
  match opcode with
  | 1 => move_gripper diameter force grip_type
  | 2 => flex_grip diameter force grip_type
  | 3 => set_control CMD_STOP
  | 4 => open_gripper force
  | 5 => close_gripper force
  | _ => Py.ret tt
  end.

(** Opcode 3 (STOP) is issued at once; the others first wait for the
    gripper to be ready. *)
Definition waits_first (opcode : Z) : bool := negb (opcode =? 3).

End GatewayVocabulary.

(** ** Concrete gateways *)

(** A backing device reduced to its link: when the link is down the
    connection is refused and every read and write raises [RuntimeError],
    as the Modbus implementation does on a failed transfer; when it is up
    reads return zeros. *)
Record Line : Set := { up : bool }.

#[global] Instance line_gripper : GripperBase.GripperBase Line := {
  GripperBase.open_connection := Py.gets up;
  GripperBase.close_connection := Py.ret tt;
  GripperBase.write_register _ _ :=
    fun l => if up l then Py.ret tt l else Py.raise Py.RuntimeError l;
  GripperBase.write_registers _ _ :=
    fun l => if up l then Py.ret tt l else Py.raise Py.RuntimeError l;
  GripperBase.read_registers _ count :=
    fun l => if up l then Py.ret (repeat 0 (Z.to_nat count)) l
             else Py.raise Py.RuntimeError l
}.

(** [GripperDevice(gripper, ...)] with the mapping of the default
    configuration (command register at holding register 3), in a runtime
    whose clock advances by one second per reading. *)
Definition gateway_over {G} (gripper : G) : GripperDevice.GripperDevice G :=
  GripperDevice.__init__ gripper 0 2 None None None None 3 4 5 0 1 2 3 0
    (steady_clock 1).

(** The gateway of the simulator after [connect()]. *)
Definition simulator_gateway
  : GripperDevice.GripperDevice Simulator.ThreeFG15Simulator :=
  snd (GripperDevice.connect (gateway_over noiseless_simulator)).

(** A gateway whose [connect()] was refused. *)
Definition unconnected_gateway : GripperDevice.GripperDevice Line :=
  snd (GripperDevice.connect (gateway_over {| up := false |})).

(** A gateway that connected, and whose link went down afterwards. *)
Definition gateway_link_lost : GripperDevice.GripperDevice Line :=
  GripperDevice.set_gripper {| up := false |}
    (snd (GripperDevice.connect (gateway_over {| up := true |}))).

(** ** Operating the engine *)

Section EngineOperation.
Import GripperBase Simulator.

(** Engines reached from [s0] by any register reads and writes. *)
Inductive operated (s0 : ThreeFG15Simulator) : ThreeFG15Simulator -> Prop :=
| operated_start : operated s0 s0
| operated_write s reg v :
    operated s0 s -> operated s0 (snd (write_register reg v s))
| operated_write_many s reg vs :
    operated s0 s -> operated s0 (snd (write_registers reg vs s))
| operated_read s reg count :
    operated s0 s -> operated s0 (snd (read_registers reg count s)).

(** The clamp of [write_register], as the code computes it. *)
Definition clamped (lo hi v : Z) : Z := Z.max lo (Z.min hi v).

(** The targets lie in the ranges the clamps of [write_register] keep
    them in. *)
Definition within_limits (lo hi : Z) (s : ThreeFG15Simulator) : Prop :=
  _min_diameter s = lo /\ _max_diameter s = hi
  /\ 0 <= _target_force s <= 1000
  /\ lo <= _target_diameter s <= hi.



End EngineOperation.

(** ** Outcomes of a sequence of writes *)

Section Outcome.
Context {G : Type} `{GripperBase.GripperBase G}.

(** What the caller of a sequence of single-register writes sees: the
    exception of the first write the device rejects, if there is one. *)
Fixpoint outcome (ws : list (Z * Z)) (g : G) : Py.exn + unit :=
  match ws with
  | [] => inr tt
  | (reg, v) :: rest =>
      match GripperBase.write_register reg v g with
      | (inr _, g') => outcome rest g'
      | (inl e, _) => inl e
      end
  end.

(** The writes of [move_gripper] and [flex_grip], ending with the control
    opcode [cmd]. *)
Definition parameter_writes (diameter force_val : Z)
           (grip_type : GripperBase.GripType) (cmd : Z) : list (Z * Z) :=
  [ (GripperBase.REG_TARGET_FORCE, force_val);
    (GripperBase.REG_TARGET_DIAMETER, diameter);
    (GripperBase.REG_GRIP_TYPE, GripperBase.value grip_type);
    (GripperBase.REG_CONTROL, cmd) ].

End Outcome.

(** ** A backing device that fails with a given exception *)

(** A device that accepts the connection and then raises [fault] on every
    read and write, as a client library does when its transport breaks. *)
Record Faulty : Set := { fault : Py.exn }.

#[global] Instance faulty_gripper : GripperBase.GripperBase Faulty := {
  GripperBase.open_connection := Py.ret true;
  GripperBase.close_connection := Py.ret tt;
  GripperBase.write_register _ _ := fun l => Py.raise (fault l) l;
  GripperBase.write_registers _ _ := fun l => Py.raise (fault l) l;
  GripperBase.read_registers _ _ := fun l => Py.raise (fault l) l
}.

(** The gateway of such a device after [connect()]. *)
Definition faulty_gateway (e : Py.exn) : GripperDevice.GripperDevice Faulty :=
  snd (GripperDevice.connect (gateway_over {| fault := e |})).

(** ** The engine in double precision *)

Section Engine64Vocabulary.
Import GripperBase Simulator64.

(** A clock whose successive readings are the times [ts], and a generator
    that always returns the middle of its range. *)
Definition timeline (ts : list Float64.float) : Float64.Clock :=
  {| Float64.readings := fun n => nth n ts Float64.zero; Float64.ticks := 0 |}.

Definition centred_rng64 : Float64.Rng :=
  {| Float64.samples := fun _ => Float64.half; Float64.rolls := 0 |}.

(** [ThreeFG15Simulator(enable_noise=False)] in a runtime whose clock reads
    the times [ts]. *)
Definition noiseless_simulator64 (ts : list Float64.float) : ThreeFG15Simulator :=
  __init__ 0 1000 500 Float64.one false (timeline ts) centred_rng64.

(** [int(round(r / 10.0 * 10))], the conversion of a register value to
    millimetres by [get_raw_diameter] and back by the gateway. *)
Definition scaled_and_back (r : Z) : Py.exn + Z :=
  match Float64.of_int r with
  | inl e => inl e
  | inr x =>
      match Float64.div x (Float64.of_Z 10) with
      | inl e => inl e
      | inr mm => Float64.round (Float64.mul mm (Float64.of_Z 10))
      end
  end.

End Engine64Vocabulary.

(* ====================================================================== *)
(** * Properties *)

(** ** The status decoder *)

Section StatusDecoder.
Import Status.

Lemma rev_repeat {A} (a : A) n : rev (repeat a n) = repeat a n.
Proof.
  induction n as [|n IH]; [reflexivity|].
  simpl. rewrite IH. symmetry. apply repeat_cons.
Qed.

Lemma lookup_repeat_lt {A} (a : A) n k :
  (k < n)%nat -> repeat a n !! k = Some a.
Proof.
  revert k; induction n; intros [|k] Hk; simpl; try lia; auto.
  apply IHn; lia.
Qed.

(** Read from the end, the digits of [p] are its bits, least significant
    first. *)
Lemma rev_bin_digits_lookup p k :
  rev (Py.bin_digits p) !! k =
  if Z.testbit (Zpos p) (Z.of_nat k) then Some "1"%char
  else if (k <? length (Py.bin_digits p))%nat then Some "0"%char
  else None.
Proof.
  revert k; induction p as [q IH|q IH|]; intros k.
  - cbn [Py.bin_digits]. rewrite rev_app_distr, length_app.
    replace (length (Py.bin_digits q) + length ["1"%char])%nat
      with (S (length (Py.bin_digits q))) by (simpl; lia).
    destruct k as [|k]; [reflexivity|].
    rewrite Nat2Z.inj_succ, Pos2Z.inj_xI, Z.testbit_odd_succ by lia.
    simpl rev. simpl app. rewrite lookup_cons_ne_0 by lia. simpl pred.
    rewrite IH. reflexivity.
  - cbn [Py.bin_digits]. rewrite rev_app_distr, length_app.
    replace (length (Py.bin_digits q) + length ["0"%char])%nat
      with (S (length (Py.bin_digits q))) by (simpl; lia).
    destruct k as [|k]; [reflexivity|].
    rewrite Nat2Z.inj_succ, Pos2Z.inj_xO, Z.testbit_even_succ by lia.
    simpl rev. simpl app. rewrite lookup_cons_ne_0 by lia. simpl pred.
    rewrite IH. reflexivity.
  - destruct k as [|k]; reflexivity.
Qed.

(** Character [k] from the end of [format(v, '016b')], for the sixteen
    lowest positions of a non-negative [v]. *)
Lemma format_016b_from_end v k :
  0 <= v -> (k < 16)%nat ->
  rev (Py.format_016b v) !! k = Some (bit_char (Z.testbit v (Z.of_nat k))).
Proof.
  intros Hv Hk. unfold Py.format_016b.
  destruct v as [|p|p]; [| |lia].
  - simpl. rewrite Z.testbit_0_l. simpl.
    do 16 (destruct k as [|k]; [reflexivity|]). lia.
  - simpl app at 1. simpl length at 1.
    rewrite rev_app_distr, rev_repeat.
    pose proof (rev_bin_digits_lookup p k) as HL.
    destruct (Z.testbit (Z.pos p) (Z.of_nat k)) eqn:Hb.
    + rewrite lookup_app_l; [exact HL|].
      apply lookup_lt_is_Some. eauto.
    + destruct (k <? length (Py.bin_digits p))%nat eqn:Hlt.
      * rewrite lookup_app_l; [exact HL|].
        apply lookup_lt_is_Some. eauto.
      * apply Nat.ltb_ge in Hlt.
        rewrite lookup_app_r by (rewrite length_rev; lia).
        simpl. apply lookup_repeat_lt. rewrite length_rev. lia.
Qed.

Lemma flag_testbit v k :
  0 <= v -> (k < 16)%nat ->
  flag (Py.format_016b v) (S k) = inr (Z.testbit v (Z.of_nat k)).
Proof.
  intros Hv Hk. unfold flag, Py.char_from_end.
  rewrite (format_016b_from_end v k Hv Hk).
  destruct (Z.testbit v (Z.of_nat k)); reflexivity.
Qed.

(** The decoder is purely positional on every non-negative value. *)
Lemma from_register_nonneg v :
  0 <= v ->
  from_register v =
  inr {| busy := Z.testbit v 0; grip_detected := Z.testbit v 1;
         force_grip_detected := Z.testbit v 2;
         calibration_ok := Z.testbit v 3 |}.
Proof.
  intros Hv. unfold from_register.
  rewrite (flag_testbit v 0), (flag_testbit v 1), (flag_testbit v 2),
    (flag_testbit v 3) by (assumption || lia).
  reflexivity.
Qed.

(** C5. For every 16-bit register value [v], [from_register] sets [busy] to
    bit 0 of [v], [grip_detected] to bit 1, [force_grip_detected] to bit 2
    and [calibration_ok] to bit 3, whatever the higher bits; [0b0011]
    decodes to busy and grip detected only, [0b1100] to force grip detected
    and calibration ok only. *)
Theorem from_register_bits v :
  0 <= v < 2 ^ 16 ->
  from_register v =
    inr {| busy := Z.testbit v 0; grip_detected := Z.testbit v 1;
           force_grip_detected := Z.testbit v 2;
           calibration_ok := Z.testbit v 3 |}
  /\ from_register 3 =
     inr {| busy := true; grip_detected := true;
            force_grip_detected := false; calibration_ok := false |}
  /\ from_register 12 =
     inr {| busy := false; grip_detected := false;
            force_grip_detected := true; calibration_ok := true |}.
Proof.
  intros [Hv _]. split; [|split; reflexivity].
  apply from_register_nonneg, Hv.
Qed.

Lemma from_register_bits_witness :
  0 <= 43690 < 2 ^ 16
  /\ from_register 43690 =
     inr {| busy := false; grip_detected := true;
            force_grip_detected := false; calibration_ok := true |}.
Proof.
  split; [lia|].
  exact (proj1 (from_register_bits 43690 ltac:(lia))).
Defined.

End StatusDecoder.

Ltac py_unfold :=
unfold Py.bind, Py.ret, Py.gets, Py.modify, Py.raise, Py.lift,
  Py.try_except, Py.attempt in *.

(* ====================================================================== *)
(** ** Reasoning about methods: postconditions *)

Section WpRules.
Context {S : Type}.

Lemma wp_ret {A} (a : A) (Q : Py.exn + A -> S -> Prop) s :
  Q (inr a) s -> wp (Py.ret a) Q s.
Proof. exact (fun H => H). Qed.

Lemma wp_raise {A} e (Q : Py.exn + A -> S -> Prop) s :
  Q (inl e) s -> wp (Py.raise e) Q s.
Proof. exact (fun H => H). Qed.

Lemma wp_lift {A} (r : Py.exn + A) (Q : Py.exn + A -> S -> Prop) s :
  Q r s -> wp (Py.lift r) Q s.
Proof. exact (fun H => H). Qed.

Lemma wp_gets {A} (f : S -> A) (Q : Py.exn + A -> S -> Prop) s :
  Q (inr (f s)) s -> wp (Py.gets f) Q s.
Proof. exact (fun H => H). Qed.

Lemma wp_modify (f : S -> S) (Q : Py.exn + unit -> S -> Prop) s :
  Q (inr tt) (f s) -> wp (Py.modify f) Q s.
Proof. exact (fun H => H). Qed.

Lemma wp_bind {A B} (c : Py.M S A) (k : A -> Py.M S B)
      (Q : Py.exn + B -> S -> Prop) s :
  wp c (fun r s' => match r with
                    | inl e => Q (inl e) s'
                    | inr a => wp (k a) Q s'
                    end) s ->
  wp (Py.bind c k) Q s.
Proof.
  unfold wp, Py.bind. destruct (c s) as [[e|a] s']; simpl; auto.
Qed.

Lemma wp_try_except {A} (c : Py.M S A) (catches : Py.exn -> bool)
      (h : Py.exn -> Py.M S A) (Q : Py.exn + A -> S -> Prop) s :
  wp c (fun r s' => match r with
                    | inl e => if catches e then wp (h e) Q s'
                               else Q (inl e) s'
                    | inr a => Q (inr a) s'
                    end) s ->
  wp (Py.try_except c catches h) Q s.
Proof.
  unfold wp, Py.try_except. destruct (c s) as [[e|a] s']; simpl; auto.
  destruct (catches e); auto.
Qed.

Lemma wp_attempt {A} (c : Py.M S A) (Q : Py.exn + (Py.exn + A) -> S -> Prop) s :
  wp c (fun r s' => Q (inr r) s') s -> wp (Py.attempt c) Q s.
Proof. unfold wp, Py.attempt. destruct (c s); auto. Qed.

Lemma wp_if {A} (b : bool) (c1 c2 : Py.M S A) (Q : Py.exn + A -> S -> Prop) s :
  (b = true -> wp c1 Q s) -> (b = false -> wp c2 Q s) ->
  wp (if b then c1 else c2) Q s.
Proof. destruct b; auto. Qed.

Lemma wp_conseq {A} (c : Py.M S A) (Q Q' : Py.exn + A -> S -> Prop) s :
  wp c Q s -> (forall r s', Q r s' -> Q' r s') -> wp c Q' s.
Proof. unfold wp; auto. Qed.

Lemma wp_run {A} (c : Py.M S A) (Q : Py.exn + A -> S -> Prop) s r s' :
  c s = (r, s') -> wp c Q s -> Q r s'.
Proof. unfold wp. intros ->. auto. Qed.

Lemma wp_known {A} (c : Py.M S A) (Q : Py.exn + A -> S -> Prop) s r :
  fst (c s) = r -> Q r (snd (c s)) -> wp c Q s.
Proof. unfold wp. intros ->. auto. Qed.

Lemma wp_any {A} (c : Py.M S A) (Q : Py.exn + A -> S -> Prop) s :
  (forall r s', Q r s') -> wp c Q s.
Proof. unfold wp. auto. Qed.

End WpRules.

(** One syntax-directed step of symbolic execution. *)
Ltac wp_step :=
lazymatch goal with
| |- wp (Py.bind _ _) _ _ => apply wp_bind
| |- wp (Py.ret _) _ _ => apply wp_ret
| |- wp (Py.raise _) _ _ => apply wp_raise
| |- wp (Py.lift _) _ _ => apply wp_lift
| |- wp (Py.gets _) _ _ => apply wp_gets
| |- wp (Py.modify _) _ _ => apply wp_modify
| |- wp (Py.try_except _ _ _) _ _ => apply wp_try_except
| |- wp (Py.attempt _) _ _ => apply wp_attempt
| |- wp (if _ then _ else _) _ _ => apply wp_if; intros ?
| |- wp (match ?x with _ => _ end) _ _ => destruct x eqn:?
end.

Ltac wp_go := repeat (wp_step; cbn beta iota).

(* ====================================================================== *)
(** ** The simulated engine *)

Section Engine.
Import GripperBase Simulator.

Lemma wp_now (K : Py.exn + Q -> ThreeFG15Simulator -> Prop) s :
  K (inr (Py.readings (clock s) (Py.ticks (clock s))))
    (set_clock {| Py.readings := Py.readings (clock s);
                  Py.ticks := S (Py.ticks (clock s)) |} s) ->
  wp now K s.
Proof. exact (fun H => H). Qed.

Lemma wp_store reg v (K : Py.exn + unit -> ThreeFG15Simulator -> Prop) s :
  K (inr tt) (set_registers (<[reg := v]> (_registers s)) s) ->
  wp (store reg v) K s.
Proof. exact (fun H => H). Qed.

(** What [_add_noise] may return: the value itself without noise, some
    non-negative integer with noise.  Only the generator is advanced. *)
Lemma wp_add_noise v p (K : Py.exn + Z -> ThreeFG15Simulator -> Prop) s :
  (_enable_noise s = false -> K (inr v) s) ->
  (_enable_noise s = true ->
   forall n r, 0 <= n -> K (inr n) (set_rng r s)) ->
  wp (_add_noise v p) K s.
Proof.
  intros H1 H2. unfold _add_noise. wp_go.
  - apply H1. destruct (_enable_noise s); simpl in *; congruence.
  - unfold wp, uniform. simpl. apply H2; [|lia].
    destruct (_enable_noise s); simpl in *; congruence.
Qed.

Lemma update_idle s :
  _is_busy s = false \/ _movement_start_time s = None ->
  _update_movement s = (inr tt, s).
Proof.
  intros [Hb|Hn]; unfold _update_movement; py_unfold; simpl.
  - rewrite Hb. reflexivity.
  - rewrite Hn. destruct (_is_busy s); reflexivity.
Qed.

Lemma wp_update_grip_detection
      (K : Py.exn + unit -> ThreeFG15Simulator -> Prop) s :
  (forall g f,
      g = Py.Qltb (inject_Z (_current_diameter s))
                  (inject_Z (_max_diameter s) * (9 # 10))%Q ->
      f = g && Py.Qltb (inject_Z (_target_force s) * (8 # 10))%Q
                       (inject_Z (_current_force s)) ->
      K (inr tt) (set_grip_flags g f s)) ->
  wp _update_grip_detection K s.
Proof.
  intros HK. unfold _update_grip_detection. apply wp_modify.
  destruct (Py.Qltb (inject_Z (_current_diameter s)) _) eqn:Hg;
    [destruct (Py.Qltb _ (inject_Z (_current_force s))) eqn:Hf|];
    apply HK; rewrite ?Hg, ?Hf; reflexivity.
Qed.

Ltac unfold_regs :=
  unfold REG_TARGET_FORCE, REG_TARGET_DIAMETER, REG_GRIP_TYPE, REG_CONTROL,
    REG_STATUS, REG_RAW_DIAMETER, REG_DIAMETER_OFFSET, REG_FORCE_APPLIED,
    REG_FINGER_LENGTH, REG_FINGER_POSITION, REG_FINGERTIP_OFFSET,
    REG_MIN_DIAMETER, REG_MAX_DIAMETER in *.

Ltac sim_step :=
  first
    [ wp_step
    | apply wp_now
    | apply wp_store
    | apply wp_update_grip_detection; intros ? ? ? ?
    | apply wp_add_noise; [intros ?|intros ? ? ? ?] ].

(** The two ways an update step can go. *)
Lemma wp_update_movement (K : Py.exn + unit -> ThreeFG15Simulator -> Prop) s :
  (_is_busy s = false \/ _movement_start_time s = None -> K (inr tt) s) ->
  (forall t0 s',
      _is_busy s = true -> _movement_start_time s = Some t0 ->
      Qeq_bool (_movement_duration s) 0 = false ->
      moved s s' (progress_at s t0 (Py.readings (clock s) (Py.ticks (clock s)))) ->
      K (inr tt) s') ->
  (forall t0,
      _is_busy s = true -> _movement_start_time s = Some t0 ->
      Qeq_bool (_movement_duration s) 0 = true ->
      K (inl Py.ZeroDivisionError)
        (set_clock {| Py.readings := Py.readings (clock s);
                      Py.ticks := S (Py.ticks (clock s)) |} s)) ->
  wp _update_movement K s.
Proof.
  intros Hidle Hmove Hzero. unfold _update_movement.
  repeat (sim_step; cbn beta iota); cbn in *.
  all: try (apply Hidle; auto; fail).
  all: try (eapply Hzero; eauto; fail).
  all: try congruence.
  all: eapply Hmove; eauto; unfold progress_at, start_diameter.
  all: constructor; cbn.
  all: try (unfold same_setup; cbn; tauto).
  all: try reflexivity.
  all: try (intros Hp; try congruence; subst; cbn; tauto).
  all: try (intros k ? ? ? ?; rewrite !lookup_insert_ne by congruence;
            reflexivity).
  all: try (apply lookup_insert_eq).
  all: intros Hn; try congruence; unfold_regs.
  all: rewrite !lookup_insert_ne by lia; rewrite lookup_insert_eq.
  all: rewrite !lookup_insert_ne by lia; rewrite lookup_insert_eq.
  all: rewrite !lookup_insert_ne by lia; rewrite lookup_insert_eq.
  all: repeat split; reflexivity.
Qed.

(** A few runs, as in the repository's tests. *)
Example fresh_status_register :
  fst (read_registers REG_STATUS 3 default_simulator) = inr [8; 1000; 1000].
Proof. vm_compute. reflexivity. Qed.

Example grip_type_two_rejected :
  write_register REG_GRIP_TYPE 2 default_simulator
  = (inl Py.ValueError, default_simulator).
Proof. vm_compute. reflexivity. Qed.

Example custom_range_clamps :
  let s := __init__ 100 800 400 2 false (steady_clock (1 # 10)) centred_rng in
  _target_diameter (snd (write_register REG_TARGET_DIAMETER 1500 s)) = 800
  /\ _target_diameter (snd (write_register REG_TARGET_DIAMETER (-100) s)) = 100
  /\ _target_force (snd (write_register REG_TARGET_FORCE (-100) s)) = 0.
Proof. vm_compute. repeat split. Qed.

(** *** Register writes *)

(** C7. Writing [v] to the grip-type register makes the grip type EXTERNAL
    when [v] is 0 and INTERNAL when [v] is 1; for any other [v] the write
    raises [ValueError] (the invalid-argument error) and leaves the engine,
    its grip type included, exactly as it was. *)
Theorem write_grip_type_register s v :
  let (r, s') := write_register REG_GRIP_TYPE v s in
  if v =? 0 then _grip_type s' = EXTERNAL
  else if v =? 1 then _grip_type s' = INTERNAL
  else r = inl Py.ValueError /\ s' = s.
Proof.
  destruct (write_register REG_GRIP_TYPE v s) as [r s'] eqn:Hrun.
  revert Hrun. unfold write_register, GripType_of_value. cbn [Z.eqb REG_GRIP_TYPE
    REG_TARGET_FORCE REG_TARGET_DIAMETER Pos.eqb].
  intros Hrun. apply (wp_run _ (fun r s' =>
    if v =? 0 then _grip_type s' = EXTERNAL
    else if v =? 1 then _grip_type s' = INTERNAL
    else r = inl Py.ValueError /\ s' = s) _ _ _ Hrun). clear Hrun.
  destruct (v =? 0) eqn:H0; [|destruct (v =? 1) eqn:H1].
  - repeat (sim_step; cbn beta iota).
    apply wp_update_movement; cbn.
    + auto.
    + intros t0 s2 _ _ _ [Hs _ _ _ _ _ _ _].
      unfold same_setup in Hs; cbn in Hs. tauto.
    + auto.
  - repeat (sim_step; cbn beta iota).
    apply wp_update_movement; cbn.
    + auto.
    + intros t0 s2 _ _ _ [Hs _ _ _ _ _ _ _].
      unfold same_setup in Hs; cbn in Hs. tauto.
    + auto.
  - repeat (sim_step; cbn beta iota). auto.
Qed.

Lemma same_setup_refl s : same_setup s s.
Proof. unfold same_setup; tauto. Qed.

(** An update step assigns nothing but the motion state and the four
    reported registers, and raises only on a zero duration. *)
Lemma update_keeps s :
  wp _update_movement
     (fun r s' => same_setup s s'
                  /\ (forall k, ~ reported k -> _registers s' !! k = _registers s !! k)
                  /\ (timed s -> r = inr tt)) s.
Proof.
  apply wp_update_movement.
  - intros _. split; [apply same_setup_refl|]. auto.
  - intros t0 s' _ _ _ Hm. split; [apply (moved_setup _ _ _ Hm)|].
    split; [|auto]. intros k Hk. unfold reported in Hk.
    apply (moved_other_registers _ _ _ Hm); tauto.
  - intros t0 _ _ Hz. split; [unfold same_setup; cbn; tauto|].
    split; [auto|]. unfold timed. congruence.
Qed.

Lemma read_registers_keeps reg count s :
  wp (read_registers reg count)
     (fun r s' => same_setup s s'
                  /\ (forall k, ~ reported k -> _registers s' !! k = _registers s !! k)
                  /\ (timed s ->
                      r = inr (map (fun i => default 0 (_registers s' !! (reg + i)))
                                   (Py.range count)))) s.
Proof.
  unfold read_registers. wp_step.
  eapply wp_conseq; [apply update_keeps|]. cbn beta.
  intros r s' (Hs & Hk & Hr). destruct r as [e|[]].
  - split; [auto|]. split; [auto|]. intros Ht. discriminate (Hr Ht).
  - wp_go. auto.
Qed.











(** *** Telemetry without noise *)






Lemma range_1 : Py.range 1 = [0].
Proof. reflexivity. Qed.

Lemma read_registers_idle reg count s :
  _is_busy s = false ->
  read_registers reg count s
  = (inr (map (fun i => default 0 (_registers s !! (reg + i))) (Py.range count)), s).
Proof.
  intros Hi. unfold read_registers, Py.bind. rewrite update_idle by auto.
  reflexivity.
Qed.




(** *** Closing with force 700 *)


(** The movement does end: an update step that runs once the duration has
    elapsed leaves the engine idle. *)
Lemma movement_completes reg count s t0 :
  _is_busy s = true -> _movement_start_time s = Some t0 ->
  (0 < _movement_duration s)%Q ->
  (t0 + _movement_duration s
   <= Py.readings (clock s) (Py.ticks (clock s)))%Q ->
  _is_busy (snd (read_registers reg count s)) = false.
Proof.
  intros Hb Hs Hd Ht.
  change (wp (read_registers reg count) (fun _ s' => _is_busy s' = false) s).
  unfold read_registers. wp_step.
  apply wp_update_movement.
  - intros [H|H]; congruence.
  - intros t1 s' _ Ht1 _ Hm. wp_go.
    assert (Ht1' : t1 = t0) by congruence. subst t1.
    apply (moved_done _ _ _ Hm).
    unfold progress_at, Py.fmin, Py.Qltb.
    assert (Hge : Qle_bool 1 ((Py.readings (clock s) (Py.ticks (clock s)) - t0)
                              / _movement_duration s) = true).
    { apply Qle_bool_iff, Qle_shift_div_l; [exact Hd|]. lra. }
    rewrite Hge. reflexivity.
  - intros t1 _ _ Hz. apply Qeq_bool_iff in Hz. rewrite Hz in Hd.
    exfalso. revert Hd. apply Qlt_irrefl.
Qed.

End Engine.

(* ====================================================================== *)
(** ** The high-level operations over any backing device *)

Section AnyDevice.
Import GripperBase.
Context {G : Type} `{GripperBase G}.

(** A recorded device goes through the states of the device it records. *)
Lemma spy_run {A} (c : call) (m : Py.M G A) (s : Spied G) :
  spy c m s = (fst (m (inner s)),
               {| inner := snd (m (inner s)); calls := calls s ++ [c] |}).
Proof. unfold spy. destruct (m (inner s)); reflexivity. Qed.

Ltac grip_sequence reg :=
  unfold reads_then_writes, watch, Py.try_except, Py.bind, Py.raise, Py.ret,
    set_target_force, set_target_diameter, set_grip_type, set_control,
    spec_grip_writes;
  cbn [GripperBase.read_registers GripperBase.write_register spied_gripper];
  rewrite spy_run; cbn [inner calls fst snd app];
  destruct (read_registers reg 1 _) as [[e|[|d l]] g1]; cbn [fst snd];
  [ destruct (Py.is_RuntimeError e); cbn; auto
  | cbn; auto
  | repeat (rewrite spy_run; cbn [inner calls fst snd app issued value];
            match goal with
            | |- context [write_register ?r ?v ?g] =>
                destruct (write_register r v g) as [[?e|[]] ?g]; cbn [fst snd]
            end;
            [ match goal with
              | |- context [Py.is_RuntimeError ?e] =>
                  destruct (Py.is_RuntimeError e)
              end; cbn; reflexivity
            | ]);
    cbn; reflexivity ].

(** C6. If the diameter read of [open_gripper] (of the max-diameter
    register) or of [close_gripper] (of the min-diameter register) raises or
    returns no value, the device receives that read and no write, and is
    left as the read left it; if the read returns a value [d], the device
    receives the writes target force, target diameter [d], grip type
    EXTERNAL (0), control opcode GRIP, in that order and nothing else, a
    write the device rejects being the last one issued. *)
Theorem open_close_write_order (force_val : Z) (g : G) :
  reads_then_writes REG_MAX_DIAMETER force_val g
    (snd (open_gripper force_val (watch g)))
  /\ reads_then_writes REG_MIN_DIAMETER force_val g
       (snd (close_gripper force_val (watch g))).
Proof.
  split.
  - unfold open_gripper. grip_sequence REG_MAX_DIAMETER.
  - unfold close_gripper. grip_sequence REG_MIN_DIAMETER.
Qed.

End AnyDevice.

Section AnyDeviceFaithful.
Import GripperBase.
Context {G : Type} `{GripperBase G}.

Ltac same_run reg :=
  unfold watch, Py.try_except, Py.bind, Py.raise, Py.ret,
    set_target_force, set_target_diameter, set_grip_type, set_control;
  cbn [GripperBase.read_registers GripperBase.write_register spied_gripper];
  rewrite spy_run; cbn [inner calls fst snd app];
  destruct (read_registers reg 1 _) as [[e|[|d l]] g1]; cbn [fst snd];
  [ destruct (Py.is_RuntimeError e); cbn; auto
  | cbn; auto
  | repeat (rewrite spy_run; cbn [inner calls fst snd app value];
            match goal with
            | |- context [write_register ?r ?v ?g] =>
                destruct (write_register r v g) as [[?e|[]] ?g]; cbn [fst snd]
            end;
            [ match goal with
              | |- context [Py.is_RuntimeError ?e] =>
                  destruct (Py.is_RuntimeError e)
              end; cbn; auto
            | ]);
    cbn; auto ].

(** Recording changes neither the outcome of the two operations nor the
    state they leave the device in. *)
Lemma open_close_recorded_faithfully (force_val : Z) (g : G) :
  (fst (open_gripper force_val (watch g)) = fst (open_gripper force_val g)
   /\ inner (snd (open_gripper force_val (watch g)))
      = snd (open_gripper force_val g))
  /\ (fst (close_gripper force_val (watch g)) = fst (close_gripper force_val g)
      /\ inner (snd (close_gripper force_val (watch g)))
         = snd (close_gripper force_val g)).
Proof.
  split.
  - unfold open_gripper. same_run REG_MAX_DIAMETER.
  - unfold close_gripper. same_run REG_MIN_DIAMETER.
Qed.

End AnyDeviceFaithful.

(** On the simulator no write of [open_gripper] is rejected: all four are
    issued. *)
Example open_gripper_on_simulator :
  calls (snd (GripperBase.open_gripper 600 (watch default_simulator)))
  = [Read 514 1; Write 0 600; Write 1 1000; Write 2 0; Write 3 1].
Proof. vm_compute. reflexivity. Qed.

(* ====================================================================== *)
(** ** The gateway *)

Lemma getitem_in_range {A} (l : list A) (i : Z) :
  0 <= i < Z.of_nat (length l) ->
  exists a, Py.getitem l i = inr a /\ l !! Z.to_nat i = Some a.
Proof.
  intros [H0 H1]. unfold Py.getitem, Py.position.
  destruct (0 <=? i) eqn:E0; [|apply Z.leb_gt in E0; lia].
  destruct (i <? Z.of_nat (length l)) eqn:E1; [|apply Z.ltb_ge in E1; lia].
  destruct (l !! Z.to_nat i) as [a|] eqn:El.
  - exists a. auto.
  - apply lookup_ge_None in El. lia.
Qed.

Lemma setitem_in_range {A} (l : list A) (i : Z) (a : A) :
  0 <= i < Z.of_nat (length l) ->
  Py.setitem l i a = inr (<[Z.to_nat i := a]> l).
Proof.
  intros [H0 H1]. unfold Py.setitem, Py.position.
  destruct (0 <=? i) eqn:E0; [|apply Z.leb_gt in E0; lia].
  destruct (i <? Z.of_nat (length l)) eqn:E1; [|apply Z.ltb_ge in E1; lia].
  reflexivity.
Qed.

Section Gateway.
Import GripperBase GripperDevice.
Context {G : Type} `{GripperBase G}.

Lemma wp_on_gripper {A} (c : Py.M G A)
      (K : Py.exn + A -> GripperDevice G -> Prop) d :
  wp c (fun r g => K r (set_gripper g d)) (_gripper d) -> wp (on_gripper c) K d.
Proof. unfold wp, on_gripper. destruct (c (_gripper d)); auto. Qed.

Lemma wp_on_super {A} (c : Py.M SimpleDevice.SimpleDevice A)
      (K : Py.exn + A -> GripperDevice G -> Prop) d :
  wp c (fun r b => K r (set_super b d)) (super d) -> wp (on_super c) K d.
Proof. unfold wp, on_super. destruct (c (super d)); auto. Qed.

(** C10, as the code has it. On a connected gateway, when the status read
    of the backing gripper fails ([get_status()] returns no value), a read of
    the ready status coil returns [False]: an unknown status counts as
    busy. *)
Theorem unknown_status_reads_not_ready (d : GripperDevice G) :
  _connected d = true ->
  0 <= SimpleDevice._status_coil (super d)
    < Z.of_nat (length (SimpleDevice._coils (super d))) ->
  fst (get_status (_gripper d)) = inr None ->
  fst (get_coils (SimpleDevice._status_coil (super d)) 1 d) = inr [false].
Proof.
  intros Hconn Hidx Hst.
  change (wp (get_coils (SimpleDevice._status_coil (super d)) 1)
             (fun r _ => r = inr [false]) d).
  destruct (getitem_in_range _ _ Hidx) as (c0 & Hget & _).
  unfold get_coils, SimpleDevice.get_coils.
  apply wp_bind, wp_on_super.
  rewrite range_1. cbn [map SimpleDevice.slice]. rewrite Z.add_0_r.
  wp_go. rewrite Hget. cbn [get_coils_loop].
  apply wp_bind, wp_attempt. unfold get_coils_step.
  wp_go.
  { cbn in *. rewrite Hconn in *. discriminate. }
  apply wp_on_gripper. eapply wp_known; [exact Hst|]. cbn beta iota.
  wp_go. apply wp_on_gripper, wp_any. intros raw g2.
  wp_go; cbn in *.
  all: rewrite ?Z.add_0_r, ?Z.eqb_refl in *; try discriminate; reflexivity.
Qed.

(** *** Waiting for the gripper *)

Lemma polled_refl (d : GripperDevice G) : polled d d.
Proof.
  exists (_gripper d), (Py.ticks (clock d)). destruct d as [? ? ? ? ? ? ? ? ? ? ? ? ? ? ? ? ? []].
  reflexivity.
Qed.

Lemma polled_trans (d1 d2 d3 : GripperDevice G) :
  polled d1 d2 -> polled d2 d3 -> polled d1 d3.
Proof.
  intros (g & k & ->) (g' & k' & ->). exists g', k'. reflexivity.
Qed.

Lemma polled_gripper g (d : GripperDevice G) : polled d (set_gripper g d).
Proof.
  exists g, (Py.ticks (clock d)). destruct d as [? ? ? ? ? ? ? ? ? ? ? ? ? ? ? ? ? []].
  reflexivity.
Qed.

Lemma polled_tick (d : GripperDevice G) :
  polled d (set_clock {| Py.readings := Py.readings (clock d);
                         Py.ticks := S (Py.ticks (clock d)) |} d).
Proof.
  exists (_gripper d), (S (Py.ticks (clock d))).
  destruct d as [? ? ? ? ? ? ? ? ? ? ? ? ? ? ? ? ? []]. reflexivity.
Qed.

Lemma polled_readings (d d' : GripperDevice G) :
  polled d d' -> Py.readings (clock d') = Py.readings (clock d).
Proof. intros (g & k & ->). reflexivity. Qed.

(** [_is_busy] never raises and touches the gripper only. *)
Lemma is_busy_total (d : GripperDevice G) :
  exists b g, _is_busy d = (inr b, set_gripper g d).
Proof.
  unfold _is_busy, Py.try_except, Py.bind, on_gripper, Py.ret.
  destruct (get_status (_gripper d)) as [[e|[st|]] g]; cbn; eauto.
Qed.

Lemma Qltb_ge x y : (y <= x)%Q -> Py.Qltb x y = false.
Proof.
  intros Hle. unfold Py.Qltb. apply Qle_bool_iff in Hle. rewrite Hle. reflexivity.
Qed.

(** The loop ends by the reading that shows the timeout has elapsed. *)
Lemma wait_ready_loop_terminates n :
  forall (d : GripperDevice G) t0 fuel,
    (t0 + 10 <= Py.readings (clock d) (Py.ticks (clock d) + n))%Q ->
    (n < fuel)%nat ->
    exists b d', _wait_ready_loop fuel t0 10 d = Some (inr b, d') /\ polled d d'.
Proof.
  induction n as [|n IH]; intros d t0 fuel Ht Hfuel;
    (destruct fuel as [|fuel]; [lia|]);
    cbn [_wait_ready_loop]; unfold Py.bindF, Py.liftF, now, Py.time_time, Py.retF.
  - rewrite Nat.add_0_r in Ht. rewrite Qltb_ge by lra.
    eexists _, _. split; [reflexivity|]. apply polled_tick.
  - destruct (Py.Qltb _ 10).
    + destruct (is_busy_total
                  (set_clock {| Py.readings := Py.readings (clock d);
                                Py.ticks := S (Py.ticks (clock d)) |} d))
        as (b & g & ->).
      destruct b; cbn [negb].
      * destruct (IH (set_gripper g
                        (set_clock {| Py.readings := Py.readings (clock d);
                                      Py.ticks := S (Py.ticks (clock d)) |} d))
                     t0 fuel) as (b' & d' & Hrun & Hp).
        { cbn. rewrite <- Nat.add_succ_r. exact Ht. }
        { lia. }
        exists b', d'. split; [exact Hrun|].
        eapply polled_trans; [|exact Hp].
        eapply polled_trans; [apply polled_tick|apply polled_gripper].
      * eexists _, _. split; [reflexivity|].
        eapply polled_trans; [apply polled_tick|apply polled_gripper].
    + eexists _, _. split; [reflexivity|]. apply polled_tick.
Qed.

(** [_wait_ready] returns, given enough iterations, on any clock that
    advances. *)
Lemma wait_ready_terminates (d : GripperDevice G) :
  clock_advances (Py.readings (clock d)) ->
  exists fuel0, forall fuel, (fuel0 <= fuel)%nat ->
    exists b d', _wait_ready fuel d = Some (inr b, d') /\ polled d d'.
Proof.
  intros Hclock. destruct (Hclock (Py.ticks (clock d))) as (m & Hm & Ht).
  assert (Hne : m <> Py.ticks (clock d)).
  { intros ->. lra. }
  exists (m - Py.ticks (clock d))%nat. intros fuel Hfuel.
  unfold _wait_ready, Py.bindF, Py.liftF, now, Py.time_time.
  destruct (wait_ready_loop_terminates (m - S (Py.ticks (clock d)))
              (set_clock {| Py.readings := Py.readings (clock d);
                            Py.ticks := S (Py.ticks (clock d)) |} d)
              (Py.readings (clock d) (Py.ticks (clock d))) fuel)
    as (b & d' & Hrun & Hp).
  - cbn [clock set_clock Py.readings Py.ticks].
    replace (S (Py.ticks (clock d)) + (m - S (Py.ticks (clock d))))%nat
      with m by lia. exact Ht.
  - lia.
  - exists b, d'. split; [exact Hrun|].
    eapply polled_trans; [apply polled_tick|exact Hp].
Qed.

(** *** Status coils over a window *)

(** The same over any window of coils, for a gripper whose status read
    fails whenever it is attempted. *)
Lemma get_coils_step_silent (d : GripperDevice G) address i out :
  (forall g, fst (get_status g) = inr None) ->
  _connected d = true ->
  wp (get_coils_step address i out)
     (fun r d' =>
        polled d d'
        /\ exists out1,
             r = inr out1 /\ length out1 = length out
             /\ (address + i = SimpleDevice._status_coil (super d) ->
                 (Z.to_nat i < length out)%nat ->
                 out1 !! Z.to_nat i = Some false)
             /\ (forall k, k <> Z.to_nat i -> out1 !! k = out !! k)) d.
Proof.
  intros Hsilent Hconn. unfold get_coils_step.
  wp_go.
  { cbn in *. rewrite Hconn in *. discriminate. }
  apply wp_on_gripper. eapply wp_known; [apply Hsilent|]. cbn beta iota.
  wp_go. apply wp_on_gripper, wp_any. intros raw g2.
  wp_go; cbn in *.
  all: (split; [eapply polled_trans; apply polled_gripper|]).
  all: eexists; split; [reflexivity|].
  all: rewrite ?length_insert; split; [reflexivity|].
  all: split;
    [ intros Hsc Hlt; try (apply list_lookup_insert_eq; exact Hlt);
      apply Z.eqb_neq in H1; congruence
    | intros k Hk; try reflexivity;
      apply list_lookup_insert_ne; congruence ].
Qed.

Lemma get_coils_loop_silent idxs :
  forall (d : GripperDevice G) address out k0,
    (forall g, fst (get_status g) = inr None) ->
    _connected d = true ->
    (forall i, i ∈ idxs -> 0 <= i) ->
    0 <= k0 -> (Z.to_nat k0 < length out)%nat ->
    address + k0 = SimpleDevice._status_coil (super d) ->
    k0 ∈ idxs \/ out !! Z.to_nat k0 = Some false ->
    exists out',
      fst (get_coils_loop address idxs out d) = inr out'
      /\ out' !! Z.to_nat k0 = Some false.
Proof.
  induction idxs as [|i rest IH];
    intros d address out k0 Hsilent Hconn Hpos Hk0 Hlen Hsc Hin.
  - cbn. destruct Hin as [Hin|Hin]; [inversion Hin|eauto].
  - cbn [get_coils_loop]. unfold Py.bind, Py.attempt.
    pose proof (get_coils_step_silent d address i out Hsilent Hconn) as Hstep.
    unfold wp in Hstep.
    destruct (get_coils_step address i out d) as [r d1].
    cbn [fst snd] in Hstep.
    destruct Hstep as ((g1 & k1 & ->) & out1 & -> & Hl1 & Hset & Hkeep).
    cbn iota.
    apply IH; try assumption.
    + intros j Hj. apply Hpos. right. exact Hj.
    + rewrite Hl1. exact Hlen.
    + destruct (Z.eq_dec i k0) as [->|Hne].
      * right. apply Hset; assumption.
      * destruct Hin as [Hin|Hin].
        -- apply elem_of_cons in Hin. destruct Hin as [Hin|Hin];
             [congruence|left; exact Hin].
        -- right. rewrite Hkeep; [exact Hin|].
           intros Heq. apply Hne. apply Z2Nat.inj; try lia.
           apply Hpos. left.
Qed.

Lemma slice_in_range {A} (l : list A) idxs :
  (forall i, i ∈ idxs -> 0 <= i < Z.of_nat (length l)) ->
  exists out, SimpleDevice.slice l idxs = inr out /\ length out = length idxs.
Proof.
  induction idxs as [|i rest IH]; intros Hr; [exists []; auto|].
  cbn [SimpleDevice.slice].
  destruct (getitem_in_range l i (Hr i ltac:(left))) as (a & -> & _).
  destruct IH as (tl & -> & Hl); [intros j Hj; apply Hr; right; exact Hj|].
  exists (a :: tl). cbn. auto.
Qed.

Lemma elem_of_range (n i : Z) : i ∈ Py.range n <-> 0 <= i < n.
Proof.
  unfold Py.range. rewrite list_elem_of_In, in_map_iff. split.
  - intros (k & <- & Hk). apply in_seq in Hk. lia.
  - intros Hi. exists (Z.to_nat i). split; [lia|]. apply in_seq. lia.
Qed.

Lemma silent_gripper_reads_not_ready (d : GripperDevice G) address count :
  (forall g, fst (get_status g) = inr None) ->
  _connected d = true ->
  0 <= address ->
  address + count <= Z.of_nat (length (SimpleDevice._coils (super d))) ->
  address <= SimpleDevice._status_coil (super d) < address + count ->
  exists out,
    fst (get_coils address count d) = inr out
    /\ out !! Z.to_nat (SimpleDevice._status_coil (super d) - address)
       = Some false.
Proof.
  intros Hsilent Hconn Ha Hend Hsc.
  destruct (slice_in_range (SimpleDevice._coils (super d))
              (map (Z.add address) (Py.range count))) as (out0 & Hslice & Hl0).
  { intros i Hi. apply list_elem_of_In, in_map_iff in Hi.
    destruct Hi as (j & <- & Hj). apply list_elem_of_In, elem_of_range in Hj.
    lia. }
  rewrite length_map in Hl0.
  assert (Hbase : on_super (SimpleDevice.get_coils address count) d
                  = (inr out0, set_super (super d) d)).
  { unfold on_super, SimpleDevice.get_coils, Py.bind, Py.gets, Py.lift.
    rewrite Hslice. reflexivity. }
  unfold get_coils, Py.bind. rewrite Hbase.
  apply get_coils_loop_silent; try assumption.
  - intros i Hi. apply elem_of_range in Hi. lia.
  - lia.
  - rewrite Hl0. unfold Py.range. rewrite length_map, length_seq. lia.
  - cbn. lia.
  - left. apply elem_of_range. lia.
Qed.

(** *** The command register *)

Lemma in_hrs_range (d : GripperDevice G) idx :
  in_hrs d idx = true <-> 0 <= idx < Z.of_nat (length (hrs d)).
Proof.
  unfold in_hrs. rewrite andb_true_iff, Z.leb_le, Z.ltb_lt. tauto.
Qed.

Lemma hrs_getitem_in_range (d : GripperDevice G) idx :
  0 <= idx < Z.of_nat (length (hrs d)) ->
  exists v, hrs_getitem idx d = (inr v, d) /\ hrs d !! Z.to_nat idx = Some v.
Proof.
  intros Hr. destruct (getitem_in_range (hrs d) idx Hr) as (v & Hg & Hl).
  exists v. split; [|exact Hl].
  unfold hrs_getitem, Py.bind, Py.gets, Py.lift. rewrite Hg. reflexivity.
Qed.

Lemma hrs_get_or_value (d : GripperDevice G) idx dflt :
  hrs_get_or idx dflt d = (inr (register_or d idx dflt), d).
Proof.
  unfold hrs_get_or, register_or, Py.bind, Py.gets.
  destruct (in_hrs d idx) eqn:Hin; [|reflexivity].
  apply in_hrs_range in Hin.
  destruct (hrs_getitem_in_range d idx Hin) as (v & -> & ->). reflexivity.
Qed.

Lemma changed_single (i v x : Z) : x ∈ changed_set i [v] <-> x = i.
Proof.
  unfold changed_set. change (Py.range (Z.of_nat (length [v]))) with [0].
  cbn [map]. rewrite Z.add_0_r, elem_of_list_to_set.
  apply list_elem_of_singleton.
Qed.

(** The inherited write of one register. *)
Lemma base_write_one (d : GripperDevice G) i v :
  0 <= i < Z.of_nat (length (hrs d)) ->
  on_super (SimpleDevice.set_holding_registers i [v]) d
  = (inr tt,
     set_super (SimpleDevice.set_hrs_attr
                  (<[Z.to_nat i := Z.land v 65535]> (hrs d)) (super d)) d).
Proof.
  intros Hr. unfold on_super, SimpleDevice.set_holding_registers.
  change (Py.enumerate [v]) with [(0, v)]. cbn [Py.for_each fst snd].
  unfold SimpleDevice.hrs_setitem, Py.bind, Py.gets, Py.lift, Py.modify, Py.ret.
  rewrite Z.add_0_r. unfold hrs in Hr. rewrite (setitem_in_range _ _ _ Hr).
  reflexivity.
Qed.

Lemma clear_command_clears (d : GripperDevice G) :
  0 <= _hr_cmd_index d < Z.of_nat (length (hrs d)) ->
  exists b,
    clear_command d = (inr tt, set_super b d)
    /\ SimpleDevice._hrs b !! Z.to_nat (_hr_cmd_index d) = Some 0
    /\ length (SimpleDevice._hrs b) = length (hrs d).
Proof.
  intros Hr. unfold clear_command, Py.try_except, Py.bind, Py.gets.
  unfold on_super at 1. unfold SimpleDevice.hrs_setitem at 1.
  unfold Py.bind, Py.gets, Py.lift, Py.modify.
  unfold hrs in Hr. rewrite (setitem_in_range _ _ _ Hr). cbn [fst snd].
  rewrite base_write_one
    by (unfold hrs; cbn; rewrite length_insert; exact Hr).
  eexists. split; [reflexivity|]. cbn.
  rewrite !length_insert. split; [|reflexivity].
  apply list_lookup_insert_eq. rewrite length_insert. lia.
Qed.

Lemma read_holding_register (d : GripperDevice G) i v :
  0 <= i -> hrs d !! Z.to_nat i = Some v ->
  fst (get_holding_registers i 1 d) = inr [v].
Proof.
  intros Hi Hl. unfold get_holding_registers, on_super,
    SimpleDevice.get_holding_registers, Py.bind, Py.gets, Py.lift.
  rewrite range_1. cbn [map SimpleDevice.slice]. rewrite Z.add_0_r.
  pose proof (lookup_lt_Some _ _ _ Hl) as Hlt.
  destruct (getitem_in_range (hrs d) i ltac:(lia)) as (a & Hg & Ha).
  unfold hrs in *. rewrite Hg. cbn. congruence.
Qed.

(** The dispatch of a recognized opcode, inside its [try]: whatever the
    operation raises is caught; the gripper is left as the operation left
    it, after the wait for readiness if the opcode has one. *)
Lemma dispatch_recognized (d : GripperDevice G) opcode :
  1 <= opcode <= 5 ->
  clock_advances (Py.readings (clock d)) ->
  exists fuel0, forall fuel, (fuel0 <= fuel)%nat ->
    exists dw,
      (if waits_first opcode
       then exists b, _wait_ready fuel d = Some (inr b, dw)
       else dw = d)
      /\ polled d dw
      /\ Py.try_exceptF (dispatch_command fuel opcode)
                        Py.is_Exception (fun _ => Py.retF tt) d
         = Some (inr tt,
                 set_gripper (snd (spec_command_operation d opcode (_gripper dw))) dw).
Proof.
  intros Hop Hclock.
  destruct (wait_ready_terminates d Hclock) as (fuel0 & Hwait).
  exists fuel0. intros fuel Hfuel.
  destruct (Hwait fuel Hfuel) as (b & dw & Hrun & Hp).
  assert (Hcases : opcode = 1 \/ opcode = 2 \/ opcode = 3 \/ opcode = 4
                   \/ opcode = 5) by lia.
  unfold Py.try_exceptF, dispatch_command, Py.bindF, Py.liftF, Py.gets.
  rewrite !hrs_get_or_value.
  destruct Hcases as [-> | [-> | [-> | [-> | ->]]]];
    cbn [Z.eqb Pos.eqb waits_first negb spec_command_operation].
  all: try (exists dw; split; [exists b; exact Hrun|]; split; [exact Hp|];
            rewrite Hrun;
            match goal with
            | |- context [on_gripper ?c ?x] =>
                unfold on_gripper; destruct (c (_gripper x)) as [[?|[]] ?]
            end; reflexivity).
  exists d. split; [reflexivity|]. split; [apply polled_refl|].
  unfold on_gripper.
  destruct (set_control CMD_STOP (_gripper d)) as [[e|[]] g]; reflexivity.
Qed.

Lemma land_opcode opcode : 1 <= opcode <= 5 -> Z.land opcode 65535 = opcode.
Proof.
  intros Hop.
  assert (Hcases : opcode = 1 \/ opcode = 2 \/ opcode = 3 \/ opcode = 4
                   \/ opcode = 5) by lia.
  destruct Hcases as [-> | [-> | [-> | [-> | ->]]]]; reflexivity.
Qed.

(** The two parameter blocks never raise and touch the gripper only. *)
Lemma apply_force_polled ch (d : GripperDevice G) :
  fst (apply_force ch d) = inr tt /\ polled d (snd (apply_force ch d)).
Proof.
  unfold apply_force, Py.bind, Py.gets.
  destruct (bool_decide _ && in_hrs d (_hr_force_index d)) eqn:Hc;
    [|split; [reflexivity|apply polled_refl]].
  apply andb_true_iff in Hc. destruct Hc as [_ Hin]. apply in_hrs_range in Hin.
  destruct (hrs_getitem_in_range d _ Hin) as (v & -> & _).
  unfold Py.try_except, on_gripper, Py.ret.
  destruct (set_target_force v (_gripper d)) as [[e|[]] g]; cbn;
    (split; [reflexivity|apply polled_gripper]).
Qed.

Lemma apply_diameter_griptype_polled ch (d : GripperDevice G) :
  fst (apply_diameter_griptype ch d) = inr tt
  /\ polled d (snd (apply_diameter_griptype ch d)).
Proof.
  unfold apply_diameter_griptype, Py.bind, Py.gets.
  destruct (_ && in_hrs d (_hr_diameter_index d)
              && in_hrs d (_hr_griptype_index d)) eqn:Hc;
    [|split; [reflexivity|apply polled_refl]].
  apply andb_true_iff in Hc. destruct Hc as [Hc Hgt].
  apply andb_true_iff in Hc. destruct Hc as [_ Hdi].
  apply in_hrs_range in Hgt, Hdi.
  destruct (hrs_getitem_in_range d _ Hdi) as (v1 & -> & _).
  destruct (hrs_getitem_in_range d _ Hgt) as (v2 & -> & _).
  unfold Py.try_except, Py.bind, on_gripper, Py.ret.
  destruct (set_target_diameter _ (_gripper d)) as [[e|[]] g]; cbn;
    [split; [reflexivity|apply polled_gripper]|].
  destruct (set_grip_type _ g) as [[e|[]] g']; cbn;
    (split; [reflexivity|]);
    (eapply polled_trans; [apply polled_gripper|apply polled_gripper]).
Qed.

(** When the command register is none of the parameter registers, a write
    to it alone triggers no parameter write. *)
Lemma command_write_skips_parameters (d : GripperDevice G) v :
  _hr_force_index d <> _hr_cmd_index d ->
  _hr_diameter_index d <> _hr_cmd_index d ->
  _hr_griptype_index d <> _hr_cmd_index d ->
  let ch := changed_set (_hr_cmd_index d) [v] in
  apply_force ch d = (inr tt, d) /\ apply_diameter_griptype ch d = (inr tt, d).
Proof.
  intros Hf Hd Hg. cbv zeta. split.
  - unfold apply_force, Py.bind, Py.gets.
    rewrite (bool_decide_eq_false_2 (_hr_force_index d ∈ _))
      by (rewrite changed_single; exact Hf).
    reflexivity.
  - unfold apply_diameter_griptype, Py.bind, Py.gets.
    rewrite (bool_decide_eq_false_2 (_hr_diameter_index d ∈ _))
      by (rewrite changed_single; exact Hd).
    rewrite (bool_decide_eq_false_2 (_hr_griptype_index d ∈ _))
      by (rewrite changed_single; exact Hg).
    reflexivity.
Qed.

(** C3, as the code has it. On a connected gateway, writing a recognized
    opcode (1 = MOVE, 2 = FLEX, 3 = STOP, 4 = OPEN, 5 = CLOSE) to the
    command register makes the gateway perform the corresponding operation
    on the gripper (after the wait for readiness, except for STOP) and then
    reset the register to 0, whether the operation returns or raises: the
    write itself returns normally and a read of the command register right
    after it returns 0.  [d1] is the gateway once the value is stored, [d2]
    once the parameter writes the same register write triggers, if any, are
    done, [dw] when the wait is over. *)
Theorem command_register_one_shot (d : GripperDevice G) opcode :
  _connected d = true ->
  0 <= _hr_cmd_index d < Z.of_nat (length (hrs d)) ->
  1 <= opcode <= 5 ->
  clock_advances (Py.readings (clock d)) ->
  let ch := changed_set (_hr_cmd_index d) [opcode] in
  let d1 := snd (on_super (SimpleDevice.set_holding_registers
                             (_hr_cmd_index d) [opcode]) d) in
  let d2 := snd (apply_diameter_griptype ch (snd (apply_force ch d1))) in
  exists fuel0, forall fuel, (fuel0 <= fuel)%nat ->
    exists dw d',
      set_holding_registers fuel (_hr_cmd_index d) [opcode] d = Some (inr tt, d')
      /\ fst (get_holding_registers (_hr_cmd_index d) 1 d') = inr [0]
      /\ (if waits_first opcode
          then exists b, _wait_ready fuel d2 = Some (inr b, dw)
          else dw = d2)
      /\ _gripper d' = snd (spec_command_operation d2 opcode (_gripper dw)).
Proof.
  intros Hconn Hidx Hop Hclock. cbv zeta.
  rewrite (base_write_one d _ opcode Hidx), (land_opcode _ Hop). cbn [snd].
  set (d1 := set_super _ d).
  set (ch := changed_set (_hr_cmd_index d) [opcode]).
  destruct (apply_force_polled ch d1) as (Hfr & Hfp).
  destruct (apply_diameter_griptype_polled ch (snd (apply_force ch d1)))
    as (Hdr & Hdp).
  set (d2 := snd (apply_diameter_griptype ch (snd (apply_force ch d1)))) in *.
  destruct (polled_trans _ _ _ Hfp Hdp) as (g2 & k2 & Hd2).
  assert (Hidx2 : 0 <= _hr_cmd_index d2 < Z.of_nat (length (hrs d2))).
  { rewrite Hd2. unfold d1, hrs; cbn. rewrite length_insert. exact Hidx. }
  assert (Hclock2 : clock_advances (Py.readings (clock d2))).
  { rewrite Hd2. exact Hclock. }
  destruct (dispatch_recognized d2 opcode Hop Hclock2) as (fuel0 & Hdispatch).
  exists fuel0. intros fuel Hfuel.
  destruct (Hdispatch fuel Hfuel) as (dw & Hwait & Hpolled & Hrun).
  destruct Hpolled as (gw & kw & Hdw).
  set (d3 := set_gripper (snd (spec_command_operation d2 opcode (_gripper dw))) dw)
    in *.
  assert (Hidx3 : 0 <= _hr_cmd_index d3 < Z.of_nat (length (hrs d3))).
  { unfold d3. rewrite Hdw. exact Hidx2. }
  destruct (clear_command_clears d3 Hidx3) as (b3 & Hclear & Hzero & Hlen).
  exists dw, (set_super b3 d3). split; [|split; [|split]].
  - assert (Hcmd : handle_command fuel ch d2 = Some (inr tt, set_super b3 d3)).
    { unfold handle_command, Py.bindF, Py.liftF, Py.gets.
      assert (Hsame : _hr_cmd_index d2 = _hr_cmd_index d)
        by (rewrite Hd2; reflexivity).
      rewrite (bool_decide_eq_true_2 (_hr_cmd_index d2 ∈ _))
        by (unfold ch; rewrite changed_single; exact Hsame).
      rewrite (proj2 (in_hrs_range d2 _) Hidx2).
      rewrite (proj2 (Z.leb_le 0 _) (proj1 Hidx2)). cbn [andb].
      destruct (hrs_getitem_in_range d2 _ Hidx2) as (v & Hget & Hv).
      rewrite Hget.
      assert (Hvop : v = opcode).
      { rewrite Hd2 in Hv. unfold d1, hrs in Hv; cbn in Hv.
        rewrite list_lookup_insert_eq in Hv by (unfold hrs in Hidx; lia).
        congruence. }
      subst v. rewrite Hrun. fold d3. rewrite Hclear. reflexivity. }
    unfold set_holding_registers, Py.bindF, Py.liftF.
    rewrite (base_write_one d _ opcode Hidx), (land_opcode _ Hop).
    fold d1. unfold Py.gets. cbn [negb _connected d1 set_super].
    rewrite Hconn. cbn [negb].
    unfold Py.try_exceptF. fold ch.
    cbn beta. clear Hdispatch Hwait Hrun Hclear Hidx2 Hclock2 Hd2 Hfp Hdp.
    assert (Ed2 : d2 = snd (apply_diameter_griptype ch (snd (apply_force ch d1))))
      by reflexivity.
    clearbody d2.
    destruct (apply_force ch d1) as [rf df]. cbn [fst snd] in *. subst rf.
    destruct (apply_diameter_griptype ch df) as [rd dd]. cbn [fst snd] in *.
    subst rd dd. rewrite Hcmd. reflexivity.
  - apply read_holding_register; [lia|].
    assert (Hsame : _hr_cmd_index d3 = _hr_cmd_index d)
      by (unfold d3; rewrite Hdw, Hd2; reflexivity).
    rewrite Hsame in Hzero. exact Hzero.
  - exact Hwait.
  - reflexivity.
Qed.

End Gateway.

(** *** Concrete gateways *)

Lemma steady_clock_advances : clock_advances (Py.readings (steady_clock 1)).
Proof.
  intros n. exists (n + 10)%nat. split; [lia|].
  unfold steady_clock. cbn [Py.readings].
  rewrite Nat2Z.inj_add, inject_Z_plus.
  change (inject_Z (Z.of_nat 10)) with 10%Q. lra.
Qed.

Lemma unknown_status_reads_not_ready_witness :
  GripperDevice._connected gateway_link_lost = true
  /\ 0 <= SimpleDevice._status_coil (GripperDevice.super gateway_link_lost)
       < Z.of_nat (length (SimpleDevice._coils
                             (GripperDevice.super gateway_link_lost)))
  /\ fst (GripperBase.get_status (GripperDevice._gripper gateway_link_lost))
     = inr None
  /\ fst (GripperDevice.get_coils
            (SimpleDevice._status_coil (GripperDevice.super gateway_link_lost))
            1 gateway_link_lost) = inr [false].
Proof.
  split; [reflexivity|]. split; [vm_compute; split; [discriminate|reflexivity]|].
  split; [reflexivity|].
  apply (unknown_status_reads_not_ready gateway_link_lost);
    [reflexivity | vm_compute; split; [discriminate|reflexivity] | reflexivity].
Defined.

(** C10, as stated, fails on a gateway that is not connected: a coil read
    does not ask the gripper there, it returns the stored coils.  The
    gateway below was refused its connection; a client has written [True] to
    the ready status coil.  The status read of its gripper fails, and the
    ready status coil reads [True]. *)
Lemma unconnected_status_coil_reads_stored :
  let coil := SimpleDevice._status_coil (GripperDevice.super unconnected_gateway) in
  exists d,
    GripperDevice.set_coils 0 coil [true] unconnected_gateway = Some (inr tt, d)
    /\ GripperDevice._connected d = false
    /\ SimpleDevice._status_coil (GripperDevice.super d) = coil
    /\ 0 <= coil < Z.of_nat (length (SimpleDevice._coils (GripperDevice.super d)))
    /\ fst (GripperBase.get_status (GripperDevice._gripper d)) = inr None
    /\ fst (GripperDevice.get_coils coil 1 d) = inr [true].
Proof.
  eexists. split; [vm_compute; reflexivity|].
  vm_compute. repeat split; discriminate.
Qed.

Lemma command_register_one_shot_witness :
  GripperDevice._connected simulator_gateway = true
  /\ 0 <= GripperDevice._hr_cmd_index simulator_gateway
       < Z.of_nat (length (GripperDevice.hrs simulator_gateway))
  /\ 1 <= 5 <= 5
  /\ clock_advances (Py.readings (GripperDevice.clock simulator_gateway))
  /\ exists fuel0, forall fuel, (fuel0 <= fuel)%nat ->
       exists d',
         GripperDevice.set_holding_registers fuel 3 [5] simulator_gateway
         = Some (inr tt, d')
         /\ fst (GripperDevice.get_holding_registers 3 1 d') = inr [0].
Proof.
  assert (Hc : GripperDevice._connected simulator_gateway = true) by reflexivity.
  assert (Hi : 0 <= GripperDevice._hr_cmd_index simulator_gateway
               < Z.of_nat (length (GripperDevice.hrs simulator_gateway)))
    by (vm_compute; split; [discriminate|reflexivity]).
  assert (Ho : 1 <= 5 <= 5) by lia.
  assert (Hk : clock_advances
                 (Py.readings (GripperDevice.clock simulator_gateway)))
    by exact steady_clock_advances.
  repeat (split; [assumption|]).
  destruct (command_register_one_shot simulator_gateway 5 Hc Hi Ho Hk)
    as (fuel0 & Hrun).
  exists fuel0. intros fuel Hfuel.
  destruct (Hrun fuel Hfuel) as (dw & d' & H1 & H2 & _).
  exists d'. split; assumption.
Defined.

(** C3, as stated, fails on a gateway that is not connected: the write is
    stored, nothing is triggered, and the command register keeps the
    opcode. *)
Lemma unconnected_gateway_keeps_opcode :
  GripperDevice._connected unconnected_gateway = false
  /\ exists d',
       GripperDevice.set_holding_registers 100 3 [1] unconnected_gateway
       = Some (inr tt, d')
       /\ GripperDevice._gripper d' = GripperDevice._gripper unconnected_gateway
       /\ fst (GripperDevice.get_holding_registers 3 1 d') = inr [1]
       /\ fst (GripperDevice.get_holding_registers 3 1 d') <> inr [0].
Proof.
  split; [reflexivity|]. eexists. split; [vm_compute; reflexivity|].
  vm_compute. repeat split. discriminate.
Qed.

(** The one-shot behaviour on the simulator: opcode 5 (CLOSE) starts the
    movement and the register reads 0 afterwards. *)
Example close_opcode_on_simulator :
  match GripperDevice.set_holding_registers 20 3 [5] simulator_gateway with
  | Some (r, d') =>
      r = inr tt
      /\ fst (GripperDevice.get_holding_registers 3 1 d') = inr [0]
      /\ Simulator._is_busy (GripperDevice._gripper d') = true
      /\ Simulator._target_diameter (GripperDevice._gripper d') = 0
  | None => False
  end.
Proof. vm_compute. repeat split. Qed.

(** An operation that raises: with [simulation_speed=0] the control write of
    [close_gripper] raises [ZeroDivisionError], which [close_gripper] does
    not catch; the gateway does, and resets the register. *)
Example close_opcode_when_operation_raises :
  let s := Simulator.__init__ 0 1000 500 0 false (steady_clock (1 # 10))
             centred_rng in
  let d := snd (GripperDevice.connect (gateway_over s)) in
  fst (GripperBase.close_gripper 500 s) = inl Py.ZeroDivisionError
  /\ match GripperDevice.set_holding_registers 20 3 [5] d with
     | Some (r, d') =>
         r = inr tt
         /\ fst (GripperDevice.get_holding_registers 3 1 d') = inr [0]
     | None => False
     end.
Proof. vm_compute. repeat split. Qed.

(* ====================================================================== *)
(** ** The simulated engine in double precision *)

Section Engine64.
Import GripperBase Simulator64.

(** Binary64 arithmetic on values whose Python results are well known:
    [0.1 + 0.2] is not [0.3]; [float(2**53 + 1)] is [2.0**53];
    [int(500 * (1 - 0.07))] is 464; [float(2**1024)] overflows;
    [int(-0.2)] is 0; [3 < 3.5] and [4 > 3.5] hold. *)
Example binary64_arithmetic :
  Float64.eqb (Float64.add (Float64.literal 1 10) (Float64.literal 2 10))
              (Float64.literal 3 10) = false
  /\ Float64.of_Z (2 ^ 53 + 1) = Float64.of_Z (2 ^ 53)
  /\ Float64.to_int (Float64.mul (Float64.of_Z 500)
                        (Float64.sub Float64.one (Float64.literal 7 100)))
     = inr 464
  /\ Float64.of_int (2 ^ 1024) = inl Py.OtherException
  /\ Float64.to_int (Float64.literal (-2) 10) = inr 0
  /\ Float64.int_ltb 3 (Float64.literal 7 2) = true
  /\ Float64.int_gtb 4 (Float64.literal 7 2) = true.
Proof. vm_compute. repeat split. Qed.

Lemma wp_now64 (K : Py.exn + Float64.float -> ThreeFG15Simulator -> Prop) s :
  K (inr (Float64.readings (clock s) (Float64.ticks (clock s))))
    (set_clock {| Float64.readings := Float64.readings (clock s);
                  Float64.ticks := S (Float64.ticks (clock s)) |} s) ->
  wp now K s.
Proof. exact (fun H => H). Qed.

Lemma wp_store64 reg v (K : Py.exn + unit -> ThreeFG15Simulator -> Prop) s :
  K (inr tt) (set_registers (<[reg := v]> (_registers s)) s) ->
  wp (store reg v) K s.
Proof. exact (fun H => H). Qed.

(** A float operation that may raise, in a method. *)
Lemma wp_lift_bind {S A B} (x : Py.exn + A) (k : A -> Py.M S B)
      (K : Py.exn + B -> S -> Prop) s :
  (forall e, x = inl e -> K (inl e) s) ->
  (forall a, x = inr a -> wp (k a) K s) ->
  wp (Py.bind (Py.lift x) k) K s.
Proof.
  intros He Ha. apply wp_bind, wp_lift. destruct x as [e|a]; auto.
Qed.

(** [_add_noise] and [_update_grip_detection] leave the diameter alone. *)
Lemma add_noise_keeps_diameter v p s :
  wp (_add_noise v p) (fun _ s' => _current_diameter s' = _current_diameter s) s.
Proof.
  unfold _add_noise. apply wp_bind, wp_gets.
  destruct (negb (_enable_noise s)); [reflexivity|].
  apply wp_lift_bind; [reflexivity|intros lo _].
  apply wp_lift_bind; [reflexivity|intros hi _].
  apply wp_bind. unfold wp at 1, uniform. cbn.
  apply wp_lift_bind; [reflexivity|intros noisy _].
  apply wp_lift_bind; [reflexivity|intros n _]. reflexivity.
Qed.

Lemma update_grip_detection_keeps_diameter s :
  wp _update_grip_detection
     (fun _ s' => _current_diameter s' = _current_diameter s) s.
Proof.
  unfold _update_grip_detection. do 2 (apply wp_bind, wp_gets).
  apply wp_lift_bind; [reflexivity|intros limit _].
  destruct (Float64.int_ltb _ _); [|reflexivity].
  apply wp_bind, wp_modify. do 2 (apply wp_bind, wp_gets).
  apply wp_lift_bind; [reflexivity|intros threshold _].
  destruct (Float64.int_gtb _ _); reflexivity.
Qed.

(** The register updates that end an update step. *)
Lemma report_keeps_diameter s :
  wp (let* d := Py.gets _current_diameter in
      let* raw := _add_noise d Float64.two in
      store REG_RAW_DIAMETER raw ;;
      let* d := Py.gets _current_diameter in
      let* off := _add_noise d Float64.two in
      store REG_DIAMETER_OFFSET off ;;
      let* f := Py.gets _current_force in
      let* app := _add_noise f Float64.two in
      store REG_FORCE_APPLIED app ;;
      let* st := Py.gets _calculate_status_register in
      store REG_STATUS st)
     (fun _ s' => _current_diameter s' = _current_diameter s) s.
Proof.
  apply wp_bind, wp_gets.
  apply wp_bind. eapply wp_conseq; [apply add_noise_keeps_diameter|].
  cbn beta. intros [e|raw] s1 H1; [exact H1|].
  apply wp_bind, wp_store64. apply wp_bind, wp_gets.
  apply wp_bind. eapply wp_conseq; [apply add_noise_keeps_diameter|].
  cbn beta. intros [e|off] s2 H2; cbn in H2; [congruence|].
  apply wp_bind, wp_store64. apply wp_bind, wp_gets.
  apply wp_bind. eapply wp_conseq; [apply add_noise_keeps_diameter|].
  cbn beta. intros [e|app] s3 H3; cbn in H3; [congruence|].
  apply wp_bind, wp_store64. apply wp_bind, wp_gets. apply wp_store64.
  cbn in *. congruence.
Qed.

(** C4, as the code has it. A control write that starts a movement runs the
    first update step of that movement.  With the raw-diameter register
    holding the engine's diameter (as it does without noise), if the write
    returns then the duration [0.5 / speed], the ratio
    [elapsed / duration], the product [(target_diameter - start) * t] and
    its truncation [step] toward zero are all defined, where [start] is the
    diameter at the start of the movement, [elapsed] the difference of the
    two clock readings, [progress = min(1.0, elapsed / duration)],
    [t = 2 * progress * progress] for [progress < 0.5] and
    [t = 1 - 2 * (1 - progress) * (1 - progress)] otherwise, every operation
    rounded as binary64 arithmetic rounds it; and the step leaves
    [current_diameter] at [start + step], or at [target_diameter] when
    [progress >= 1.0]. *)
Theorem first_update_interpolates s cmd :
  cmd = CMD_GRIP \/ cmd = CMD_MOVE \/ cmd = CMD_FLEXIBLE_GRIP ->
  _registers s !! REG_RAW_DIAMETER = Some (_current_diameter s) ->
  fst (write_register REG_CONTROL cmd s) = inr tt ->
  let t_start := Float64.readings (clock s) (Float64.ticks (clock s)) in
  let t_update := Float64.readings (clock s) (S (Float64.ticks (clock s))) in
  let start := _current_diameter s in
  exists duration ratio travelled step,
    Float64.div Float64.half (_simulation_speed s) = inr duration
    /\ Float64.div (Float64.sub t_update t_start) duration = inr ratio
    /\ let progress := Float64.fmin Float64.one ratio in
       let t := if Float64.ltb progress Float64.half
                then Float64.mul (Float64.mul Float64.two progress) progress
                else Float64.sub Float64.one
                       (Float64.mul
                          (Float64.mul Float64.two
                                       (Float64.sub Float64.one progress))
                          (Float64.sub Float64.one progress)) in
       Float64.int_mul (_target_diameter s - start) t = inr travelled
       /\ Float64.to_int travelled = inr step
       /\ _current_diameter (snd (write_register REG_CONTROL cmd s))
          = if Float64.leb Float64.one progress then _target_diameter s
            else start + step.
Proof.
  intros Hcmd Hreg. cbv zeta.
  change (wp (write_register REG_CONTROL cmd)
            (fun r s' =>
               r = inr tt ->
               exists duration ratio travelled step,
                 Float64.div Float64.half (_simulation_speed s) = inr duration
                 /\ Float64.div
                      (Float64.sub
                         (Float64.readings (clock s) (S (Float64.ticks (clock s))))
                         (Float64.readings (clock s) (Float64.ticks (clock s))))
                      duration = inr ratio
                 /\ Float64.int_mul (_target_diameter s - _current_diameter s)
                      (ease (Float64.fmin Float64.one ratio)) = inr travelled
                 /\ Float64.to_int travelled = inr step
                 /\ _current_diameter s'
                    = if Float64.leb Float64.one (Float64.fmin Float64.one ratio)
                      then _target_diameter s
                      else _current_diameter s + step) s).
  assert (Hc : (cmd =? CMD_GRIP) || (cmd =? CMD_MOVE) || (cmd =? CMD_FLEXIBLE_GRIP)
               = true).
  { destruct Hcmd as [-> | [-> | ->]]; reflexivity. }
  unfold write_register, _start_movement.
  cbn [Z.eqb REG_CONTROL REG_TARGET_FORCE REG_TARGET_DIAMETER REG_GRIP_TYPE Pos.eqb].
  rewrite Hc.
  apply wp_bind, wp_bind, wp_modify, wp_bind, wp_now64, wp_bind, wp_modify.
  apply wp_bind, wp_gets.
  apply wp_lift_bind; [discriminate|intros duration Hdur].
  apply wp_modify, wp_bind, wp_store64.
  unfold _update_movement.
  do 2 (apply wp_bind, wp_gets). cbn [_is_busy _movement_start_time
    set_registers set_movement_duration set_movement_start_time set_clock
    set_is_busy].
  apply wp_bind, wp_now64. apply wp_bind, wp_gets.
  cbn [_movement_duration clock set_registers set_movement_duration
       set_movement_start_time set_clock set_is_busy Float64.readings
       Float64.ticks].
  apply wp_lift_bind; [discriminate|intros ratio Hratio].
  do 3 (apply wp_bind, wp_gets).
  cbn [_current_diameter _registers _target_diameter set_registers
       set_movement_duration set_movement_start_time set_clock set_is_busy].
  rewrite lookup_insert_ne by discriminate. rewrite Hreg. cbn [default from_option].
  unfold id.
  apply wp_lift_bind; [discriminate|intros travelled Htr].
  apply wp_lift_bind; [discriminate|intros step Hstep].
  apply (wp_conseq _
           (fun r s' =>
              r = inr tt ->
              _current_diameter s'
              = if Float64.leb Float64.one (Float64.fmin Float64.one ratio)
                then _target_diameter s else _current_diameter s + step)).
  2: { intros r s' Hpost Hr. exists duration, ratio, travelled, step.
       cbn in Hdur. repeat split; auto. }
  apply wp_bind, wp_modify. apply wp_bind, wp_gets.
  apply wp_bind.
  apply (wp_conseq _
           (fun _ s' => _current_diameter s' = _current_diameter s + step)).
  { destruct (0 <? Z.abs (_target_diameter s - _current_diameter s)).
    - apply wp_lift_bind; [reflexivity|intros scaled _].
      apply wp_lift_bind; [reflexivity|intros force _]. reflexivity.
    - reflexivity. }
  intros [e|[]] s2 H2; [discriminate|].
  apply wp_bind.
  destruct (Float64.leb Float64.one (Float64.fmin Float64.one ratio)).
  - do 4 (apply wp_bind, wp_modify).
    eapply wp_conseq; [apply update_grip_detection_keeps_diameter|].
    cbn beta. intros [e|[]] s3 H3; [discriminate|].
    eapply wp_conseq; [apply report_keeps_diameter|].
    cbn beta. intros r s4 H4 _. rewrite H4, H3. reflexivity.
  - apply wp_ret.
    eapply wp_conseq; [apply report_keeps_diameter|].
    cbn beta. intros r s4 H4 _. rewrite H4, H2. reflexivity.
Qed.



Lemma first_update_interpolates_witness :
  let s := snd (write_register REG_TARGET_DIAMETER 0
                  (noiseless_simulator64
                     [Float64.zero; Float64.literal 175 1000])) in
  (CMD_GRIP = CMD_GRIP \/ CMD_GRIP = CMD_MOVE \/ CMD_GRIP = CMD_FLEXIBLE_GRIP)
  /\ _registers s !! REG_RAW_DIAMETER = Some (_current_diameter s)
  /\ fst (write_register REG_CONTROL CMD_GRIP s) = inr tt
  /\ _current_diameter (snd (write_register REG_CONTROL CMD_GRIP s)) = 756.
Proof.
  cbv zeta.
  set (s := snd (write_register REG_TARGET_DIAMETER 0
                   (noiseless_simulator64
                      [Float64.zero; Float64.literal 175 1000]))).
  assert (H1 : CMD_GRIP = CMD_GRIP \/ CMD_GRIP = CMD_MOVE
               \/ CMD_GRIP = CMD_FLEXIBLE_GRIP) by (left; reflexivity).
  assert (H2 : _registers s !! REG_RAW_DIAMETER = Some (_current_diameter s))
    by (vm_compute; reflexivity).
  assert (H3 : fst (write_register REG_CONTROL CMD_GRIP s) = inr tt)
    by (vm_compute; reflexivity).
  split; [exact H1|]. split; [exact H2|]. split; [exact H3|].
  destruct (first_update_interpolates s CMD_GRIP H1 H2 H3)
    as (duration & ratio & travelled & step & Hd & Hr & Ht & Hs & Hc).
  vm_compute in Hd. injection Hd as <-.
  vm_compute in Hr. injection Hr as <-.
  vm_compute in Ht. injection Ht as <-.
  vm_compute in Hs. injection Hs as <-.
  rewrite Hc. vm_compute. reflexivity.
Defined.

(** C4, as stated, fails: the interpolated diameter is truncated to an
    integer.  A fresh noiseless engine is sent to diameter 0; the update step
    that follows the start of the movement runs 5 ms after it, so
    [progress = 0.01] and [t] is about 0.0002; the engine keeps diameter
    1000, where [start + (target - start) * t] lies strictly between 999 and
    1000. *)
Lemma interpolation_is_truncated :
  let s := snd (write_register REG_TARGET_DIAMETER 0
                  (noiseless_simulator64
                     [Float64.zero; Float64.literal 5 1000])) in
  let s' := snd (write_register REG_CONTROL CMD_GRIP s) in
  let elapsed := Float64.sub (Float64.literal 5 1000) Float64.zero in
  let progress := Float64.fmin Float64.one (Float64.literal 1 100) in
  let t := if Float64.ltb progress Float64.half
           then Float64.mul (Float64.mul Float64.two progress) progress
           else Float64.sub Float64.one
                  (Float64.mul
                     (Float64.mul Float64.two
                                  (Float64.sub Float64.one progress))
                     (Float64.sub Float64.one progress)) in
  let claimed :=
    Float64.add (Float64.of_Z (_current_diameter s))
      (Float64.mul (Float64.of_Z (_target_diameter s - _current_diameter s)) t) in
  fst (write_register REG_CONTROL CMD_GRIP s) = inr tt
  /\ _is_busy s' = true
  /\ _movement_start_time s' = Some Float64.zero
  /\ _current_diameter s = 1000 /\ _target_diameter s = 0
  /\ Float64.div elapsed (_movement_duration s') = inr (Float64.literal 1 100)
  /\ _current_diameter s' = 1000
  /\ Float64.int_ltb 999 claimed = true
  /\ Float64.int_gtb 1000 claimed = true
  /\ Float64.eqb (Float64.of_Z (_current_diameter s')) claimed = false.
Proof. vm_compute. repeat split. Qed.

(** The diameter an update step starts from is read from the raw-diameter
    register, which every update step overwrites: from the second update
    step of a movement on, the interpolation no longer starts from the
    diameter at the start of the movement.  Here the engine goes from 1000
    to 0 and is updated 125 ms and 250 ms after the start: the second
    update, at [progress = 0.5], starts from 875 and yields 438, where
    interpolating from 1000 gives 500. *)
Lemma later_update_starts_from_reported_diameter :
  let s := snd (write_register REG_TARGET_DIAMETER 0
                  (noiseless_simulator64
                     [Float64.zero; Float64.literal 1 8; Float64.literal 2 8])) in
  let s1 := snd (write_register REG_CONTROL CMD_GRIP s) in
  let s2 := snd (read_registers REG_STATUS 1 s1) in
  _current_diameter s1 = 875
  /\ _is_busy s2 = true
  /\ Float64.div (Float64.sub (Float64.literal 2 8) Float64.zero)
                 (_movement_duration s1) = inr Float64.half
  /\ _current_diameter s2 = 438
  /\ match Float64.int_mul (0 - 1000) (ease Float64.half) with
     | inr travelled => Float64.to_int travelled
     | inl e => inl e
     end = inr (-500).
Proof. vm_compute. repeat split. Qed.

(** *** Runs in double precision *)

(** The closing scenario in double precision: a noiseless engine
    receives [close_gripper(f)] at time 0.0 and is polled every 100 ms.  At
    the poll that finds the movement complete, with [f = 700] the force 700
    exceeds 0.8 * 700 and [force_grip_detected] is true; with [f = 0] force
    and threshold are both 0 and it is false. *)
Example close_gripper_in_doubles :
  let ts := map (fun k => Float64.literal k 10) [0; 1; 2; 3; 4; 5; 6; 7] in
  let polled f :=
    fold_left (fun s _ => snd (read_registers REG_STATUS 1 s)) [1; 2; 3; 4; 5]
              (snd (close_gripper f (noiseless_simulator64 ts))) in
  (_is_busy (polled 700) = false /\ _current_diameter (polled 700) = 0
   /\ _current_force (polled 700) = 700 /\ _grip_detected (polled 700) = true
   /\ _force_grip_detected (polled 700) = true)
  /\ (_is_busy (polled 0) = false /\ _current_diameter (polled 0) = 0
      /\ _current_force (polled 0) = 0 /\ _grip_detected (polled 0) = true
      /\ _force_grip_detected (polled 0) = false).
Proof. vm_compute. repeat split. Qed.

(** Noise in double precision: with the sample 0.0 the noise of 7 percent is
    at its lowest; [500 * (1 - 0.07)] rounds to 464.99999999999994 and is
    truncated to 464. *)
Example add_noise_in_doubles :
  let s := __init__ 0 1000 500 Float64.one true (timeline [])
             {| Float64.samples := fun _ => Float64.zero; Float64.rolls := 0 |} in
  fst (_add_noise 500 (Float64.of_Z 7) s) = inr 464.
Proof. vm_compute. reflexivity. Qed.

(** *** Scaled values in double precision *)

(** Register values come back unchanged, up to the bounds [2^31] and
    [-2^31] and beyond; past [2^53] the conversion to a float loses the
    value. *)
Example scaled_and_back_values :
  map scaled_and_back [0; 1; 3; 7; 999; 1000; 65535; 2 ^ 31; - 2 ^ 31]
  = map inr [0; 1; 3; 7; 999; 1000; 65535; 2 ^ 31; - 2 ^ 31]
  /\ scaled_and_back (2 ^ 53 + 1) = inr (2 ^ 53).
Proof. vm_compute. split; reflexivity. Qed.

End Engine64.


(* ====================================================================== *)
(** * Further properties of the code *)

(** ** Loops over [enumerate] *)

Section Loops.
Context {S : Type}.

Lemma bind_ext {A B} (c : Py.M S A) (k1 k2 : A -> Py.M S B) s :
  (forall a s', k1 a s' = k2 a s') -> Py.bind c k1 s = Py.bind c k2 s.
Proof.
  intros Hk. unfold Py.bind. destruct (c s) as [[e|a] s']; [reflexivity|apply Hk].
Qed.

Lemma bind_assoc {A B C} (c : Py.M S A) (k : A -> Py.M S B)
      (h : B -> Py.M S C) s :
  Py.bind (Py.bind c k) h s = Py.bind c (fun a => Py.bind (k a) h) s.
Proof.
  unfold Py.bind. destruct (c s) as [[e|a] s']; reflexivity.
Qed.

Lemma bind_run {A B} (c1 c2 : Py.M S A) (k : A -> Py.M S B) s :
  c1 s = c2 s -> Py.bind c1 k s = Py.bind c2 k s.
Proof. unfold Py.bind. intros ->. reflexivity. Qed.

Lemma bind_ret_unit (c : Py.M S unit) s :
  Py.bind c (fun _ => Py.ret tt) s = c s.
Proof.
  unfold Py.bind, Py.ret. destruct (c s) as [[e|[]] s']; reflexivity.
Qed.

Lemma for_each_ext {A} (xs : list A) (f g : A -> Py.M S unit) s :
  (forall x s', f x s' = g x s') -> Py.for_each xs f s = Py.for_each xs g s.
Proof.
  intros Hfg. revert s. induction xs as [|x xs IH]; intros s; [reflexivity|].
  cbn [Py.for_each]. unfold Py.bind. rewrite Hfg.
  destruct (g x s) as [[e|[]] s']; [reflexivity|apply IH].
Qed.

(** The indices of [enumerate], counted from [k]. *)
Lemma for_each_from {A} (body : Z -> A -> Py.M S unit) a k (vs : list A) s :
  Py.for_each (combine (map Z.of_nat (seq (Datatypes.S k) (length vs))) vs)
              (fun iv => body (a + fst iv) (snd iv)) s
  = Py.for_each (combine (map Z.of_nat (seq k (length vs))) vs)
                (fun iv => body (a + 1 + fst iv) (snd iv)) s.
Proof.
  revert k s. induction vs as [|v vs IH]; intros k s; [reflexivity|].
  cbn [length seq map combine Py.for_each fst snd].
  replace (a + Z.of_nat (Datatypes.S k)) with (a + 1 + Z.of_nat k) by lia.
  apply bind_ext. intros _ s'. apply IH.
Qed.

(** [for i, v in enumerate(v0 :: vs)] runs the body at offset 0, then the
    loop over [vs] one address further. *)
Lemma for_each_enumerate_cons {A} (body : Z -> A -> Py.M S unit) a v
      (vs : list A) s :
  Py.for_each (Py.enumerate (v :: vs)) (fun iv => body (a + fst iv) (snd iv)) s
  = Py.bind (body a v)
      (fun _ => Py.for_each (Py.enumerate vs)
                  (fun iv => body (a + 1 + fst iv) (snd iv))) s.
Proof.
  unfold Py.enumerate. cbn [length seq map combine Py.for_each fst snd].
  change (Z.of_nat 0) with 0. rewrite Z.add_0_r.
  apply bind_ext. intros _ s'. apply for_each_from.
Qed.

Lemma for_each_enumerate_app {A} (body : Z -> A -> Py.M S unit) a
      (vs1 vs2 : list A) s :
  Py.for_each (Py.enumerate (vs1 ++ vs2))
              (fun iv => body (a + fst iv) (snd iv)) s
  = Py.bind (Py.for_each (Py.enumerate vs1)
               (fun iv => body (a + fst iv) (snd iv)))
      (fun _ => Py.for_each (Py.enumerate vs2)
                  (fun iv => body (a + Z.of_nat (length vs1) + fst iv)
                                  (snd iv))) s.
Proof.
  revert a s. induction vs1 as [|v vs1 IH]; intros a s.
  - cbn [app length]. change (Z.of_nat 0) with 0.
    unfold Py.bind at 1. cbn [Py.enumerate length seq map combine Py.for_each].
    unfold Py.ret. apply for_each_ext. intros x s'.
    rewrite Z.add_0_r. reflexivity.
  - cbn [app]. rewrite for_each_enumerate_cons.
    rewrite (bind_run _ _ _ _ (for_each_enumerate_cons body a v vs1 s)).
    rewrite bind_assoc. apply bind_ext. intros _ s'. rewrite IH.
    apply bind_ext. intros _ s''. apply for_each_ext. intros x s3.
    replace (a + 1 + Z.of_nat (length vs1))
      with (a + Z.of_nat (length (v :: vs1))) by (cbn [length]; lia).
    reflexivity.
Qed.

End Loops.

(** ** The simulated engine: status, noise, stop *)

Section EngineExtras.
Import GripperBase Simulator.

Ltac unfold_regs :=
  unfold REG_TARGET_FORCE, REG_TARGET_DIAMETER, REG_GRIP_TYPE, REG_CONTROL,
    REG_STATUS, REG_RAW_DIAMETER, REG_DIAMETER_OFFSET, REG_FORCE_APPLIED,
    REG_FINGER_LENGTH, REG_FINGER_POSITION, REG_FINGERTIP_OFFSET,
    REG_MIN_DIAMETER, REG_MAX_DIAMETER in *.

Ltac sim_step :=
  first
    [ wp_step
    | apply wp_now
    | apply wp_store
    | apply wp_update_grip_detection; intros ? ? ? ?
    | apply wp_add_noise; [intros ?|intros ? ? ? ?] ].

(** The status word the engine computes decodes to the engine's flags. *)
Lemma calculate_status_decodes s :
  Status.from_register (_calculate_status_register s)
  = inr {| Status.busy := _is_busy s;
           Status.grip_detected := _grip_detected s;
           Status.force_grip_detected := _force_grip_detected s;
           Status.calibration_ok := _calibration_ok s |}.
Proof.
  unfold _calculate_status_register.
  destruct (_is_busy s), (_grip_detected s), (_force_grip_detected s),
    (_calibration_ok s); vm_compute; reflexivity.
Qed.

Lemma after_reads_idle reads s : _is_busy s = false -> after_reads reads s = s.
Proof.
  induction reads as [|rc reads IH]; intros Hi; [reflexivity|].
  cbn. rewrite read_registers_idle by assumption. cbn. apply IH, Hi.
Qed.








(** X3. A STOP command on a moving engine ends the movement where it is:
    the engine is idle, and its diameter and force stay as they were, over
    any later reads.  The status register is not rewritten (the update step
    returns at once on an idle engine), so [get_status] goes on reporting
    the flags from before the stop, [busy] included. *)
Theorem stop_keeps_reporting_busy s reads :
  _is_busy s = true ->
  _registers s !! REG_STATUS = Some (_calculate_status_register s) ->
  let sf := after_reads reads (snd (write_register REG_CONTROL CMD_STOP s)) in
  fst (write_register REG_CONTROL CMD_STOP s) = inr tt
  /\ _is_busy sf = false
  /\ _current_diameter sf = _current_diameter s
  /\ _current_force sf = _current_force s
  /\ get_status sf
     = (inr (Some {| Status.busy := true;
                     Status.grip_detected := _grip_detected s;
                     Status.force_grip_detected := _force_grip_detected s;
                     Status.calibration_ok := _calibration_ok s |}), sf).
Proof.
  intros Hb Hreg.
  assert (E : write_register REG_CONTROL CMD_STOP s
              = (inr tt, set_registers (<[REG_CONTROL := CMD_STOP]> (_registers s))
                           (set_movement_start_time None (set_is_busy false s)))).
  { unfold write_register.
    cbn [Z.eqb REG_CONTROL REG_TARGET_FORCE REG_TARGET_DIAMETER REG_GRIP_TYPE
         Pos.eqb CMD_GRIP CMD_MOVE CMD_FLEXIBLE_GRIP CMD_STOP orb].
    unfold Py.bind at 1. unfold Py.bind at 2.
    cbn [Py.modify Py.bind fst snd store].
    unfold Py.bind. cbn [Py.modify store fst snd].
    rewrite update_idle by (left; reflexivity). reflexivity. }
  cbv zeta. rewrite E. cbn [fst snd].
  rewrite after_reads_idle by reflexivity.
  repeat split.
  unfold get_status. cbn [GripperBase.read_registers simulator_gripper].
  unfold Py.try_except, Py.bind.
  rewrite read_registers_idle by reflexivity.
  rewrite range_1. cbn [map fst snd]. rewrite Z.add_0_r.
  cbn [_registers set_registers].
  rewrite lookup_insert_ne by discriminate.
  cbn [set_movement_start_time set_is_busy _registers]. rewrite Hreg.
  cbn [default from_option]. unfold id, Py.lift.
  rewrite calculate_status_decodes, Hb. reflexivity.
Qed.

Lemma stop_keeps_reporting_busy_witness :
  let s := snd (write_register REG_CONTROL CMD_GRIP
                  (snd (write_register REG_TARGET_DIAMETER 0 default_simulator))) in
  let sf := after_reads [(REG_STATUS, 1); (REG_RAW_DIAMETER, 3)]
              (snd (write_register REG_CONTROL CMD_STOP s)) in
  _is_busy s = true
  /\ _registers s !! REG_STATUS = Some (_calculate_status_register s)
  /\ _is_busy sf = false
  /\ _current_diameter sf = _current_diameter s
  /\ fst (get_status sf)
     = inr (Some {| Status.busy := true; Status.grip_detected := false;
                    Status.force_grip_detected := false;
                    Status.calibration_ok := true |}).
Proof.
  cbv zeta.
  split; [vm_compute; reflexivity|].
  split; [vm_compute; reflexivity|].
  destruct (stop_keeps_reporting_busy
              (snd (write_register REG_CONTROL CMD_GRIP
                      (snd (write_register REG_TARGET_DIAMETER 0 default_simulator))))
              [(REG_STATUS, 1); (REG_RAW_DIAMETER, 3)])
    as (_ & Hi & Hd & _ & Hs).
  - vm_compute; reflexivity.
  - vm_compute; reflexivity.
  - split; [exact Hi|]. split; [exact Hd|]. rewrite Hs. reflexivity.
Defined.

(** *** Block writes *)

Lemma write_registers_cons start v vs s :
  write_registers start (v :: vs) s
  = Py.bind (write_register start v)
            (fun _ => write_registers (start + 1) vs) s.
Proof.
  unfold write_registers.
  apply (for_each_enumerate_cons (fun a x => write_register a x)).
Qed.

(** X4. [write_registers] is the sequence of the single writes in address
    order: a one-value block is [write_register], and a block [vs1 ++ vs2]
    is the block [vs1] followed, if no write of it raised, by the block
    [vs2] at the next address; the first write that raises ends the
    block, the earlier writes staying in effect. *)
Theorem write_registers_sequential start vs1 vs2 v s :
  write_registers start [v] s = write_register start v s
  /\ write_registers start (vs1 ++ vs2) s
     = Py.bind (write_registers start vs1)
         (fun _ => write_registers (start + Z.of_nat (length vs1)) vs2) s.
Proof.
  split.
  - rewrite write_registers_cons. apply bind_ret_unit.
  - revert start s. induction vs1 as [|v1 vs1 IH]; intros start s.
    + cbn [app length]. change (Z.of_nat 0) with 0. rewrite Z.add_0_r.
      reflexivity.
    + cbn [app]. rewrite write_registers_cons.
      rewrite (bind_run _ _ _ _ (write_registers_cons start v1 vs1 s)).
      rewrite bind_assoc. apply bind_ext. intros _ s'. rewrite IH.
      replace (start + 1 + Z.of_nat (length vs1))
        with (start + Z.of_nat (length (v1 :: vs1)))
        by (cbn [length]; lia).
      reflexivity.
Qed.

(** *** What a write keeps and what it sets *)

(** The part of [write_register] before the register is stored. *)
Lemma write_register_frame reg v s :
  wp (write_register reg v)
     (fun r s' =>
        _min_diameter s' = _min_diameter s
        /\ _max_diameter s' = _max_diameter s
        /\ _target_force s' =
             (if reg =? REG_TARGET_FORCE then clamped 0 1000 v
              else _target_force s)
        /\ _target_diameter s' =
             (if reg =? REG_TARGET_DIAMETER
              then clamped (_min_diameter s) (_max_diameter s) v
              else _target_diameter s)
        /\ (reg <> REG_CONTROL ->
            _movement_duration s' = _movement_duration s
            /\ (reg <> REG_GRIP_TYPE -> _grip_type s' = _grip_type s)
            /\ (timed s -> (reg = REG_GRIP_TYPE -> v = 0 \/ v = 1) ->
                r = inr tt
                /\ (reg = REG_GRIP_TYPE ->
                    GripType_of_value v = inr (_grip_type s'))))) s.
Proof.
  unfold write_register, _start_movement. apply wp_bind.
  destruct (reg =? REG_TARGET_FORCE) eqn:E0;
    [|destruct (reg =? REG_TARGET_DIAMETER) eqn:E1;
      [|destruct (reg =? REG_GRIP_TYPE) eqn:E2;
        [|destruct (reg =? REG_CONTROL) eqn:E3]]].
  all: repeat (first [ sim_step
                     | match goal with
                       | |- match ?x with _ => _ end => destruct x eqn:?
                       end ];
               cbn beta iota).
  all: try (eapply wp_conseq; [apply update_keeps|]; cbn beta;
            intros r s' (Hs & _ & Hr); unfold same_setup, timed in *;
            cbn in Hs, Hr;
            destruct Hs as (Hmin & Hmax & _ & _ & _ & Htd & Htf & Hgt & _ & Hdur)).
  all: unfold clamped; cbn [_min_diameter _max_diameter _target_force
                            _target_diameter _movement_duration _grip_type
                            set_clock set_is_busy set_movement_start_time
                            set_movement_duration].
  all: repeat split; try assumption; try reflexivity; try congruence.
  all: intros; rewrite ?Z.eqb_eq, ?Z.eqb_neq in *.
  all: try (apply Hr; assumption).
  all: try congruence.
  all: try (subst reg; first [exact Htd | exact Htf | discriminate]).
  all: exfalso; destruct (H1 E2) as [-> | ->]; discriminate.
Qed.

(** *** Targets stay within their limits *)

Lemma write_register_within lo hi reg v s :
  lo <= hi -> within_limits lo hi s ->
  within_limits lo hi (snd (write_register reg v s)).
Proof.
  intros Hlh (Hmin & Hmax & Hf & Hd).
  change (wp (write_register reg v) (fun _ s' => within_limits lo hi s') s).
  eapply wp_conseq; [apply write_register_frame|]. cbn beta.
  intros r s' (Hmin' & Hmax' & Htf & Htd & _).
  unfold within_limits, clamped in *.
  rewrite Hmin', Hmax', Htf, Htd, Hmin, Hmax.
  destruct (reg =? REG_TARGET_FORCE), (reg =? REG_TARGET_DIAMETER); lia.
Qed.

Lemma write_registers_within lo hi reg vs s :
  lo <= hi -> within_limits lo hi s ->
  within_limits lo hi (snd (write_registers reg vs s)).
Proof.
  intros Hlh. revert reg s. induction vs as [|v vs IH]; intros reg s Hs.
  - exact Hs.
  - rewrite write_registers_cons. unfold Py.bind.
    pose proof (write_register_within lo hi reg v s Hlh Hs) as H1.
    destruct (write_register reg v s) as [[e|[]] s1]; cbn [snd] in *.
    + exact H1.
    + apply IH, H1.
Qed.

Lemma read_registers_within lo hi reg count s :
  within_limits lo hi s -> within_limits lo hi (snd (read_registers reg count s)).
Proof.
  intros (Hmin & Hmax & Hf & Hd).
  change (wp (read_registers reg count) (fun _ s' => within_limits lo hi s') s).
  eapply wp_conseq; [apply read_registers_keeps|]. cbn beta.
  intros r s' (Hs & _). unfold same_setup in Hs.
  destruct Hs as (Hmin' & Hmax' & _ & _ & _ & Htd & Htf & _).
  unfold within_limits. rewrite Hmin', Hmax', Htd, Htf. auto.
Qed.

(** X5. On an engine constructed with [min_diameter <= max_diameter], no
    sequence of register reads, single writes and block writes, to any
    addresses and with any values, takes the target force out of 0..1000 or
    the target diameter out of the configured range, or changes that
    range. *)
Theorem targets_stay_within_limits lo hi fl speed noise c r s :
  lo <= hi ->
  operated (__init__ lo hi fl speed noise c r) s ->
  _min_diameter s = lo /\ _max_diameter s = hi
  /\ 0 <= _target_force s <= 1000
  /\ lo <= _target_diameter s <= hi.
Proof.
  intros Hlh Hop. change (within_limits lo hi s).
  induction Hop as [|s reg v _ IH|s reg vs _ IH|s reg count _ IH].
  - unfold within_limits. cbn. lia.
  - apply write_register_within; assumption.
  - apply write_registers_within; assumption.
  - apply read_registers_within; assumption.
Qed.

Lemma targets_stay_within_limits_witness :
  let s := snd (write_registers REG_TARGET_FORCE [5000; -70; 1; 1]
                  default_simulator) in
  0 <= 1000
  /\ operated default_simulator s
  /\ _target_force s = 1000 /\ _target_diameter s = 0
  /\ (_min_diameter s = 0 /\ _max_diameter s = 1000
      /\ 0 <= _target_force s <= 1000
      /\ 0 <= _target_diameter s <= 1000).
Proof.
  cbv zeta.
  split; [lia|].
  split; [apply operated_write_many, operated_start|].
  split; [vm_compute; reflexivity|].
  split; [vm_compute; reflexivity|].
  apply (targets_stay_within_limits 0 1000 500 1 true
           (steady_clock (1 # 10)) centred_rng).
  - lia.
  - apply operated_write_many, operated_start.
Defined.

(** *** When a movement ends *)



(** *** The register file *)



(** *** Where a movement ends *)










(** *** Closing *)





(** *** A simulation speed of zero *)

(** X25. On a simulator constructed with [simulation_speed = 0], a control
    write that starts a movement (GRIP, MOVE or FLEXIBLE_GRIP) raises
    [ZeroDivisionError] when it computes the duration.  By then the engine
    has been marked busy and given a start time, so it is left moving, with
    the duration it had before; the command is not stored in the control
    register and no update step is run. *)
Theorem start_with_zero_speed s cmd :
  cmd = CMD_GRIP \/ cmd = CMD_MOVE \/ cmd = CMD_FLEXIBLE_GRIP ->
  Qeq_bool (_simulation_speed s) 0 = true ->
  let (r, s') := write_register REG_CONTROL cmd s in
  r = inl Py.ZeroDivisionError
  /\ _is_busy s' = true
  /\ _movement_start_time s'
     = Some (Py.readings (clock s) (Py.ticks (clock s)))
  /\ Py.ticks (clock s') = S (Py.ticks (clock s))
  /\ _registers s' = _registers s
  /\ _movement_duration s' = _movement_duration s
  /\ _current_diameter s' = _current_diameter s
  /\ _target_diameter s' = _target_diameter s
  /\ _target_force s' = _target_force s.
Proof.
  intros Hcmd Hz.
  unfold write_register, _start_movement.
  destruct Hcmd as [-> | [-> | ->]].
  all: cbn [Z.eqb REG_CONTROL REG_TARGET_FORCE REG_TARGET_DIAMETER
            REG_GRIP_TYPE Pos.eqb CMD_GRIP CMD_MOVE CMD_FLEXIBLE_GRIP orb].
  all: unfold Py.bind, Py.modify, now, Py.time_time, Py.gets, Py.raise;
    cbn [fst snd _simulation_speed set_is_busy set_clock
         set_movement_start_time].
  all: rewrite Hz; cbn; repeat split; reflexivity.
Qed.

Lemma start_with_zero_speed_witness :
  let s := __init__ 0 1000 500 0 false (steady_clock (1 # 10)) centred_rng in
  (CMD_GRIP = CMD_GRIP \/ CMD_GRIP = CMD_MOVE \/ CMD_GRIP = CMD_FLEXIBLE_GRIP)
  /\ Qeq_bool (_simulation_speed s) 0 = true
  /\ fst (write_register REG_CONTROL CMD_GRIP s) = inl Py.ZeroDivisionError
  /\ _is_busy (snd (write_register REG_CONTROL CMD_GRIP s)) = true
  /\ _registers (snd (write_register REG_CONTROL CMD_GRIP s)) !! REG_CONTROL
     = Some 0.
Proof.
  cbv zeta.
  split; [left; reflexivity|]. split; [reflexivity|].
  generalize (start_with_zero_speed
                (__init__ 0 1000 500 0 false (steady_clock (1 # 10)) centred_rng)
                CMD_GRIP (or_introl eq_refl) eq_refl).
  destruct (write_register REG_CONTROL CMD_GRIP
              (__init__ 0 1000 500 0 false (steady_clock (1 # 10)) centred_rng))
    as [r s'].
  intros (Hr & Hb & _ & _ & Hreg & _). cbn [fst snd].
  split; [exact Hr|]. split; [exact Hb|]. rewrite Hreg. reflexivity.
Defined.

(** *** Telemetry getters without noise *)





End EngineExtras.

(* ====================================================================== *)
(** ** The status decoder on any integer *)

Section StatusExtras.
Import Status.

(** Character [k] from the end of [format(v, '016b')] for a negative [v]:
    the sign comes first, fifteen positions or more from the end. *)
Lemma format_016b_from_end_neg p k :
  (k < 15)%nat ->
  rev (Py.format_016b (Zneg p)) !! k
  = Some (bit_char (Z.testbit (Zpos p) (Z.of_nat k))).
Proof.
  intros Hk. unfold Py.format_016b.
  cbn [app length rev]. rewrite rev_app_distr, rev_repeat.
  set (n := length (Py.bin_digits p)).
  assert (Hlen : (k < length (rev (Py.bin_digits p)
                          ++ repeat "0"%char (16 - 1 - n)))%nat).
  { rewrite length_app, length_rev, repeat_length. fold n. lia. }
  rewrite lookup_app_l by exact Hlen.
  pose proof (rev_bin_digits_lookup p k) as HL. fold n in HL.
  destruct (Z.testbit (Z.pos p) (Z.of_nat k)) eqn:Hb.
  - rewrite lookup_app_l; [exact HL|].
    apply lookup_lt_is_Some. eauto.
  - destruct (k <? n)%nat eqn:Hlt.
    + rewrite lookup_app_l; [exact HL|].
      apply lookup_lt_is_Some. eauto.
    + apply Nat.ltb_ge in Hlt.
      rewrite lookup_app_r by (rewrite length_rev; fold n; lia).
      cbn [bit_char]. apply lookup_repeat_lt. rewrite length_rev. fold n. lia.
Qed.

Lemma from_register_magnitude v :
  from_register v =
  inr {| busy := Z.testbit (Z.abs v) 0;
         grip_detected := Z.testbit (Z.abs v) 1;
         force_grip_detected := Z.testbit (Z.abs v) 2;
         calibration_ok := Z.testbit (Z.abs v) 3 |}.
Proof.
  destruct (Z.le_gt_cases 0 v) as [Hv|Hv].
  - rewrite Z.abs_eq by exact Hv. apply from_register_nonneg, Hv.
  - destruct v as [|p|p]; try lia.
    change (Z.abs (Z.neg p)) with (Z.pos p).
    unfold from_register, flag, Py.char_from_end.
    rewrite (format_016b_from_end_neg p 0), (format_016b_from_end_neg p 1),
      (format_016b_from_end_neg p 2), (format_016b_from_end_neg p 3) by lia.
    change (Z.of_nat 0) with 0. change (Z.of_nat 1) with 1.
    change (Z.of_nat 2) with 2. change (Z.of_nat 3) with 3.
    destruct (Z.testbit (Z.pos p) 0), (Z.testbit (Z.pos p) 1),
      (Z.testbit (Z.pos p) 2), (Z.testbit (Z.pos p) 3); reflexivity.
Qed.

(** X9. [from_register] raises on no integer: it returns bits 0 to 3 of the
    magnitude of its argument.  So a value wider than 16 bits is decoded by
    its low four bits, and a negative value as its absolute value is. *)
Theorem from_register_any_integer v :
  from_register v =
    inr {| busy := Z.testbit (Z.abs v) 0;
           grip_detected := Z.testbit (Z.abs v) 1;
           force_grip_detected := Z.testbit (Z.abs v) 2;
           calibration_ok := Z.testbit (Z.abs v) 3 |}
  /\ from_register v = from_register (Z.abs v mod 16)
  /\ from_register (- v) = from_register v.
Proof.
  split; [apply from_register_magnitude|]. split.
  - rewrite (from_register_magnitude v), (from_register_magnitude (_ mod _)).
    rewrite (Z.abs_eq (_ mod _)) by (apply Z.mod_pos_bound; lia).
    change 16 with (2 ^ 4).
    rewrite !Z.mod_pow2_bits_low by lia. reflexivity.
  - rewrite (from_register_magnitude v), (from_register_magnitude (- v)).
    rewrite Z.abs_opp. reflexivity.
Qed.

End StatusExtras.

(* ====================================================================== *)
(** ** High-level operations over any backing device *)

Section ProtocolExtras.
Import GripperBase.
Context {G : Type} `{GripperBase G}.

Lemma spied_run {A} (c : call) (m : Py.M G A) (s : Spied G) :
  spy c m s = (fst (m (inner s)),
               {| inner := snd (m (inner s)); calls := calls s ++ [c] |}).
Proof. unfold spy. destruct (m (inner s)); reflexivity. Qed.

Ltac write_sequence :=
  unfold watch, Py.bind, set_target_force, set_target_diameter, set_grip_type,
    set_control, parameter_writes;
  cbn [GripperBase.write_register spied_gripper];
  repeat (rewrite spied_run; cbn [inner calls fst snd app issued outcome];
          match goal with
          | |- context [write_register ?r ?v ?g] =>
              destruct (write_register r v g) as [[?e|[]] ?g]; cbn [fst snd]
          end;
          [ split; reflexivity | ]);
  split; reflexivity.

(** X10. [move_gripper(d, f, g)] and [flex_grip(d, f, g)] issue, on any
    backing device, the single writes target force [f], target diameter
    [d], grip type [g], control opcode, in that order, with the values as
    given and no read; the opcode is GRIP (1) for [move_gripper] and
    FLEXIBLE_GRIP (5) for [flex_grip].  A write the device rejects is the
    last one issued, and its exception, [RuntimeError] included, is raised
    to the caller. *)
Theorem move_and_flex_write_order (d f : Z) (g : GripType) (dev : G) :
  (calls (snd (move_gripper d f g (watch dev)))
   = issued (parameter_writes d f g CMD_GRIP) dev
   /\ fst (move_gripper d f g (watch dev))
      = outcome (parameter_writes d f g CMD_GRIP) dev)
  /\ (calls (snd (flex_grip d f g (watch dev)))
      = issued (parameter_writes d f g CMD_FLEXIBLE_GRIP) dev
      /\ fst (flex_grip d f g (watch dev))
         = outcome (parameter_writes d f g CMD_FLEXIBLE_GRIP) dev).
Proof.
  split.
  - unfold move_gripper. write_sequence.
  - unfold flex_grip. write_sequence.
Qed.

(** X11. [detect_object] on any backing device: one read of the status
    register; if it raises [RuntimeError] or returns no value the answer is
    [False]; another exception is raised to the caller; otherwise the
    answer is bit 1 or bit 2 of the value read. *)
Theorem detect_object_outcomes (dev : G) :
  match read_registers REG_STATUS 1 dev with
  | (inl e, dev') =>
      detect_object dev
      = (if Py.is_RuntimeError e then inr false else inl e, dev')
  | (inr [], dev') => detect_object dev = (inr false, dev')
  | (inr (r0 :: _), dev') =>
      detect_object dev
      = (inr (Z.testbit (Z.abs r0) 1 || Z.testbit (Z.abs r0) 2), dev')
  end.
Proof.
  unfold detect_object, get_status, Py.bind, Py.try_except, Py.ret, Py.lift.
  destruct (read_registers REG_STATUS 1 dev) as [[e|[|r0 l]] dev'].
  - destruct (Py.is_RuntimeError e); reflexivity.
  - reflexivity.
  - rewrite from_register_magnitude. reflexivity.
Qed.

End ProtocolExtras.

(* ====================================================================== *)
(** ** The in-memory device *)

Section SimpleDeviceExtras.
Import SimpleDevice.

Lemma land_mask v : Z.land v 65535 = v mod 65536.
Proof. change 65535 with (Z.ones 16). rewrite Z.land_ones by lia. reflexivity. Qed.

Lemma index_in_range {A} (l : list A) (i : Z) :
  0 <= i < Z.of_nat (length l) ->
  exists a, Py.getitem l i = inr a /\ l !! Z.to_nat i = Some a.
Proof.
  intros [H0 H1]. unfold Py.getitem, Py.position.
  destruct (0 <=? i) eqn:E0; [|apply Z.leb_gt in E0; lia].
  destruct (i <? Z.of_nat (length l)) eqn:E1; [|apply Z.ltb_ge in E1; lia].
  destruct (l !! Z.to_nat i) as [a|] eqn:E.
  - exists a. auto.
  - apply lookup_ge_None in E. lia.
Qed.

Lemma assign_in_range {A} (l : list A) (i : Z) (a : A) :
  0 <= i < Z.of_nat (length l) ->
  Py.setitem l i a = inr (<[Z.to_nat i := a]> l).
Proof.
  intros [H0 H1]. unfold Py.setitem, Py.position.
  destruct (0 <=? i) eqn:E0; [|apply Z.leb_gt in E0; lia].
  destruct (i <? Z.of_nat (length l)) eqn:E1; [|apply Z.ltb_ge in E1; lia].
  reflexivity.
Qed.

Lemma assign_past_end {A} (l : list A) (i : Z) (a : A) :
  Z.of_nat (length l) <= i -> Py.setitem l i a = inl Py.IndexError.
Proof.
  intros H1. unfold Py.setitem, Py.position.
  destruct (0 <=? i) eqn:E0; [|apply Z.leb_gt in E0; lia].
  destruct (i <? Z.of_nat (length l)) eqn:E1; [apply Z.ltb_lt in E1; lia|].
  reflexivity.
Qed.

(** [[l[a + i] for i in range(n)]] inside the list is the segment of [l]. *)
Lemma slice_segment {A} (l : list A) (a : Z) m k :
  0 <= a -> (Z.to_nat a + k + m <= length l)%nat ->
  slice l (map (Z.add a) (map Z.of_nat (seq k m)))
  = inr (take m (drop (Z.to_nat a + k) l)).
Proof.
  intros Ha. revert k. induction m as [|m IH]; intros k Hk.
  - reflexivity.
  - cbn [seq map slice].
    destruct (index_in_range l (a + Z.of_nat k)) as (x & -> & Hx); [lia|].
    replace (Z.to_nat (a + Z.of_nat k)) with (Z.to_nat a + k)%nat in Hx by lia.
    rewrite IH by lia. rewrite (drop_S _ _ _ Hx). cbn [take].
    replace (Z.to_nat a + S k)%nat with (S (Z.to_nat a + k)) by lia.
    reflexivity.
Qed.

Lemma hrs_setitem_in_range idx v d :
  0 <= idx < Z.of_nat (length (_hrs d)) ->
  hrs_setitem idx v d = (inr tt, set_hrs_attr (<[Z.to_nat idx := v]> (_hrs d)) d).
Proof.
  intros Hi. unfold hrs_setitem, Py.bind, Py.gets, Py.lift, Py.modify.
  rewrite assign_in_range by exact Hi. reflexivity.
Qed.

(** A block write inside the register list. *)
Lemma set_holding_registers_in_range vs :
  forall a d,
    0 <= a -> a + Z.of_nat (length vs) <= Z.of_nat (length (_hrs d)) ->
    set_holding_registers a vs d
    = (inr tt,
       set_hrs_attr (list_inserts (Z.to_nat a)
                       (map (fun v => Z.land v 65535) vs) (_hrs d)) d).
Proof.
  induction vs as [|v vs IH]; intros a d Ha Hlen.
  - destruct d; reflexivity.
  - unfold set_holding_registers.
    rewrite (for_each_enumerate_cons
               (fun i x => hrs_setitem i (Z.land x 65535))).
    unfold Py.bind.
    rewrite hrs_setitem_in_range by (cbn [length] in Hlen; lia).
    fold (set_holding_registers (a + 1) vs).
    rewrite IH; [|lia|cbn [length] in *; cbn [_hrs set_hrs_attr];
                      rewrite length_insert; lia].
    cbn [map list_inserts _hrs set_hrs_attr].
    replace (Z.to_nat (a + 1)) with (S (Z.to_nat a)) by lia.
    rewrite list_insert_inserts_lt by lia. reflexivity.
Qed.

(** Reading back a block that was just inserted. *)
Lemma read_back_block (b : SimpleDevice) (a : Z) (ks l : list Z) :
  0 <= a -> (Z.to_nat a + length ks <= length l)%nat ->
  _hrs b = list_inserts (Z.to_nat a) ks l ->
  get_holding_registers a (Z.of_nat (length ks)) b = (inr ks, b).
Proof.
  intros Ha Hlen Hb.
  unfold get_holding_registers, Py.bind, Py.gets, Py.lift, Py.range.
  cbn [fst snd]. rewrite Nat2Z.id, Hb.
  rewrite slice_segment by (try rewrite length_inserts; lia).
  f_equal. f_equal. rewrite Nat.add_0_r.
  apply list_eq. intros i.
  destruct (decide (i < length ks)%nat) as [Hi|Hi].
  - rewrite lookup_take_lt by exact Hi. rewrite lookup_drop.
    rewrite list_lookup_inserts by lia. f_equal. lia.
  - rewrite lookup_take_ge by lia. symmetry.
    apply lookup_ge_None. lia.
Qed.

Lemma map_mask vs :
  map (fun v => Z.land v 65535) vs = map (fun v => v mod 65536) vs.
Proof. apply map_ext. intros v. apply land_mask. Qed.

(** X12. A block of values written with [set_holding_registers] inside the
    register list is stored modulo 2^16: reading the same block back
    returns each value reduced modulo 65536 (so a negative value comes back
    positive), the registers outside the block keep their values, the
    number of registers does not change, and coils and inputs are left
    alone. *)
Theorem holding_registers_block_round_trip a vs d :
  0 <= a -> a + Z.of_nat (length vs) <= Z.of_nat (length (_hrs d)) ->
  let (r, d') := set_holding_registers a vs d in
  r = inr tt
  /\ get_holding_registers a (Z.of_nat (length vs)) d'
     = (inr (map (fun v => v mod 65536) vs), d')
  /\ length (_hrs d') = length (_hrs d)
  /\ (forall k, (k < Z.to_nat a \/ Z.to_nat a + length vs <= k)%nat ->
                _hrs d' !! k = _hrs d !! k)
  /\ _coils d' = _coils d /\ _dis d' = _dis d /\ _irs d' = _irs d.
Proof.
  intros Ha Hlen. rewrite set_holding_registers_in_range by assumption.
  set (ks := map (fun v => Z.land v 65535) vs).
  assert (Hks : length ks = length vs) by (unfold ks; apply length_map).
  split; [reflexivity|]. cbn [_hrs _coils _dis _irs set_hrs_attr].
  split; [|split; [apply length_inserts|split; [|auto]]].
  - rewrite <- map_mask. fold ks. rewrite <- Hks.
    apply (read_back_block _ a ks (_hrs d)); [exact Ha|lia|reflexivity].
  - intros k [Hk|Hk].
    + apply list_lookup_inserts_lt. exact Hk.
    + apply list_lookup_inserts_ge. lia.
Qed.

Lemma holding_registers_block_round_trip_witness :
  let d := __init__ 64 128 64 128 0 1 in
  0 <= 126
  /\ 126 + Z.of_nat (length [70000; -1]) <= Z.of_nat (length (_hrs d))
  /\ fst (get_holding_registers 126 2 (snd (set_holding_registers 126 [70000; -1] d)))
     = inr [4464; 65535].
Proof.
  cbv zeta. split; [lia|]. split; [vm_compute; discriminate|].
  generalize (holding_registers_block_round_trip 126 [70000; -1]
                (__init__ 64 128 64 128 0 1)
                ltac:(lia) ltac:(vm_compute; discriminate)).
  destruct (set_holding_registers 126 [70000; -1] (__init__ 64 128 64 128 0 1))
    as [r d'].
  intros (_ & Hg & _). cbn [snd].
  change (Z.of_nat (length [70000; -1])) with 2 in Hg.
  rewrite Hg. reflexivity.
Defined.

(** X13. A block that starts inside the register list and runs past its
    end raises [IndexError] after the values that fit have been stored:
    the registers from the start address to the end hold the first values
    of the block, masked to 16 bits, and the registers before it are
    unchanged. *)
Theorem holding_registers_block_overrun a vs d :
  0 <= a <= Z.of_nat (length (_hrs d)) ->
  Z.of_nat (length (_hrs d)) < a + Z.of_nat (length vs) ->
  let (r, d') := set_holding_registers a vs d in
  r = inl Py.IndexError
  /\ length (_hrs d') = length (_hrs d)
  /\ (forall k, (k < Z.to_nat a)%nat -> _hrs d' !! k = _hrs d !! k)
  /\ (forall k, (Z.to_nat a <= k < length (_hrs d))%nat ->
                _hrs d' !! k
                = (fun v => v mod 65536) <$> vs !! (k - Z.to_nat a)%nat).
Proof.
  intros Ha Hlen.
  set (n := (length (_hrs d) - Z.to_nat a)%nat).
  assert (Hn : (n < length vs)%nat) by lia.
  destruct (lookup_lt_is_Some_2 vs n Hn) as [v Hv].
  assert (Evs : take n vs ++ v :: drop (S n) vs = vs)
    by (rewrite <- (drop_S _ _ _ Hv); apply take_drop).
  assert (Htk : length (take n vs) = n) by (rewrite length_take; lia).
  assert (E : set_holding_registers a vs d
              = (inl Py.IndexError,
                 set_hrs_attr (list_inserts (Z.to_nat a)
                                 (map (fun v => Z.land v 65535) (take n vs))
                                 (_hrs d)) d)).
  { transitivity (set_holding_registers a (take n vs ++ v :: drop (S n) vs) d);
      [rewrite Evs; reflexivity|].
    unfold set_holding_registers.
    rewrite (for_each_enumerate_app
               (fun i x => hrs_setitem i (Z.land x 65535))).
    unfold Py.bind at 1.
    fold (set_holding_registers a (take n vs)).
    rewrite set_holding_registers_in_range by lia.
    rewrite (for_each_enumerate_cons
               (fun i x => hrs_setitem i (Z.land x 65535))).
    unfold Py.bind.
    unfold hrs_setitem at 1. unfold Py.bind, Py.gets, Py.lift.
    cbn [_hrs set_hrs_attr fst snd].
    rewrite assign_past_end by (rewrite length_inserts; lia).
    reflexivity. }
  rewrite E.
  split; [reflexivity|]. cbn [_hrs set_hrs_attr].
  split; [apply length_inserts|]. split.
  - intros k Hk. apply list_lookup_inserts_lt. exact Hk.
  - intros k Hk.
    rewrite list_lookup_inserts by (rewrite ?length_map, ?Htk; lia).
    rewrite list_lookup_fmap, lookup_take_lt by lia.
    destruct (vs !! (k - Z.to_nat a)%nat); [|reflexivity].
    cbn. f_equal. apply land_mask.
Qed.

Lemma holding_registers_block_overrun_witness :
  let d := __init__ 64 128 64 128 0 1 in
  0 <= 127 <= Z.of_nat (length (_hrs d))
  /\ Z.of_nat (length (_hrs d)) < 127 + Z.of_nat (length [7; 8; 9])
  /\ fst (set_holding_registers 127 [7; 8; 9] d) = inl Py.IndexError
  /\ _hrs (snd (set_holding_registers 127 [7; 8; 9] d)) !! 127%nat = Some 7.
Proof.
  cbv zeta. split; [vm_compute; split; discriminate|].
  split; [vm_compute; reflexivity|].
  generalize (holding_registers_block_overrun 127 [7; 8; 9]
                (__init__ 64 128 64 128 0 1)
                ltac:(vm_compute; split; discriminate)
                ltac:(vm_compute; reflexivity)).
  destruct (set_holding_registers 127 [7; 8; 9] (__init__ 64 128 64 128 0 1))
    as [r d'].
  intros (Hr & _ & _ & Hk). cbn [fst snd]. split; [exact Hr|].
  rewrite (Hk 127%nat) by (vm_compute; split; lia). reflexivity.
Defined.

End SimpleDeviceExtras.


(* ====================================================================== *)
(** ** The gateway *)

Section GatewayExtras.
Import GripperBase GripperDevice.
Context {G : Type} `{GripperBase G}.

(** *** A gateway that is not connected *)

Lemma get_coils_loop_unconnected idxs :
  forall (d : GripperDevice G) address out,
    _connected d = false ->
    get_coils_loop address idxs out d = (inr out, d).
Proof.
  induction idxs as [|i idxs IH]; intros d address out Hc; [reflexivity|].
  cbn [get_coils_loop]. unfold Py.bind, Py.attempt, get_coils_step.
  unfold Py.bind, Py.gets. rewrite Hc. cbn [negb Py.ret fst snd].
  apply IH, Hc.
Qed.

(** The first loop of [set_coils] only touches the coil list. *)
Lemma store_coils_frame bs :
  forall (d : GripperDevice G) address,
    exists b,
      store_coils address bs d = (inr tt, set_super b d)
      /\ SimpleDevice._hrs b = SimpleDevice._hrs (super d)
      /\ SimpleDevice._irs b = SimpleDevice._irs (super d)
      /\ SimpleDevice._open_cmd_coil b = SimpleDevice._open_cmd_coil (super d)
      /\ SimpleDevice._status_coil b = SimpleDevice._status_coil (super d)
      /\ length (SimpleDevice._coils b) = length (SimpleDevice._coils (super d)).
Proof.
  induction bs as [|v bs IH]; intros d address.
  - exists (super d). split; [destruct d; reflexivity|]. auto.
  - unfold store_coils.
    rewrite (for_each_enumerate_cons
               (fun idx x =>
                  Py.bind (Py.gets (fun d0 : GripperDevice G => d0))
                    (fun d0 =>
                       if (0 <=? idx)
                          && (idx <? Z.of_nat
                                       (length (SimpleDevice._coils (super d0))))
                       then on_super (SimpleDevice.coils_setitem idx x)
                       else Py.ret tt))).
    fold (store_coils (G:=G) (address + 1) bs).
    unfold Py.bind at 1. unfold Py.bind at 1. unfold Py.gets at 1.
    cbn [fst snd].
    destruct ((0 <=? address)
              && (address <? Z.of_nat (length (SimpleDevice._coils (super d)))))
      eqn:E.
    + apply andb_true_iff in E. destruct E as [E0 E1].
      apply Z.leb_le in E0. apply Z.ltb_lt in E1.
      unfold on_super, SimpleDevice.coils_setitem, Py.bind, Py.gets, Py.lift,
        Py.modify.
      rewrite assign_in_range by lia. cbn [fst snd].
      destruct (IH (set_super
                      (SimpleDevice.set_coils_attr
                         (<[Z.to_nat address := v]>
                            (SimpleDevice._coils (super d))) (super d)) d)
                   (address + 1))
        as (b & -> & Hh & Hi & Ho & Hs & Hl).
      exists b. cbn in Hh, Hi, Ho, Hs, Hl. rewrite length_insert in Hl.
      split; [reflexivity|]. auto.
    + unfold Py.ret. cbn [fst snd]. apply IH.
Qed.

Lemma for_eachF_unconnected {A} (xs : list A)
      (body : A -> Py.MF (GripperDevice G) unit) (d : GripperDevice G) :
  (forall x, body x d = Some (inr tt, d)) ->
  for_eachF xs body d = Some (inr tt, d).
Proof.
  intros Hb. induction xs as [|x xs IH]; [reflexivity|].
  cbn [for_eachF]. unfold Py.bindF. rewrite Hb. exact IH.
Qed.

(** X14. A gateway that is not connected is a plain store: register
    writes, coil writes, coil reads and input-register reads do what the
    in-memory device does, for any bound on the waiting loop, and none of
    them calls the gripper or reads the clock. *)
Theorem unconnected_gateway_is_a_store (d : GripperDevice G) fuel a n vs bs :
  _connected d = false ->
  set_holding_registers fuel a vs d
  = Some (on_super (SimpleDevice.set_holding_registers a vs) d)
  /\ get_coils a n d = on_super (SimpleDevice.get_coils a n) d
  /\ get_input_registers a n d
     = on_super (SimpleDevice.get_input_registers a n) d
  /\ set_coils fuel a bs d = Some (store_coils a bs d)
  /\ fst (store_coils a bs d) = inr tt
  /\ _gripper (snd (store_coils a bs d)) = _gripper d
  /\ clock (snd (store_coils a bs d)) = clock d.
Proof.
  intros Hc.
  assert (Hsup : forall A (c : Py.M SimpleDevice.SimpleDevice A),
             _connected (snd (on_super c d)) = false).
  { intros A c. unfold on_super. destruct (c (super d)). exact Hc. }
  split; [|split; [|split]].
  - unfold set_holding_registers, Py.bindF, Py.liftF, Py.gets.
    pose proof (Hsup _ (SimpleDevice.set_holding_registers a vs)) as H1.
    destruct (on_super (SimpleDevice.set_holding_registers a vs) d)
      as [[e|[]] d1]; [reflexivity|].
    cbn [snd] in H1. rewrite H1. reflexivity.
  - unfold get_coils, Py.bind.
    pose proof (Hsup _ (SimpleDevice.get_coils a n)) as H1.
    destruct (on_super (SimpleDevice.get_coils a n) d) as [[e|out] d1];
      [reflexivity|].
    apply get_coils_loop_unconnected. exact H1.
  - unfold get_input_registers, Py.bind, Py.gets.
    pose proof (Hsup _ (SimpleDevice.get_input_registers a n)) as H1.
    destruct (on_super (SimpleDevice.get_input_registers a n) d)
      as [[e|out] d1]; [reflexivity|].
    cbn [snd] in H1. cbn [fst snd]. rewrite H1. reflexivity.
  - destruct (store_coils_frame bs d a) as (b & E & _).
    unfold set_coils, Py.bindF, Py.liftF. rewrite E. cbn [fst snd].
    split; [|auto].
    apply for_eachF_unconnected. intros iv.
    unfold coil_action, Py.bindF, Py.liftF, Py.gets. cbn [_connected set_super].
    rewrite Hc. reflexivity.
Qed.

(** *** Connecting and closing *)

(** X15. [connect] never raises and returns the connection flag it leaves
    behind.  If the gripper refuses the connection, or opening it raises,
    the gateway is not connected and no register is read.  If it accepts,
    the minimum and the maximum diameter are read, in that order; the
    cached limits are assigned only when both reads returned (each from the
    first value of its read, an empty read leaving its limit as it was),
    so a failed second read also discards the minimum just read. *)
Theorem connect_outcome (d : GripperDevice G) :
  let (r, d') := connect d in
  r = inr (_connected d') /\ super d' = super d /\ clock d' = clock d
  /\ match open_connection (_gripper d) with
     | (inr true, g1) =>
         _connected d' = true
         /\ match read_registers REG_MIN_DIAMETER 1 g1 with
            | (inr md, g2) =>
                match read_registers REG_MAX_DIAMETER 1 g2 with
                | (inr xd, g3) =>
                    _gripper d' = g3
                    /\ _min_d d' = match md with
                                   | m :: _ => Some m
                                   | [] => _min_d d
                                   end
                    /\ _max_d d' = match xd with
                                   | x :: _ => Some x
                                   | [] => _max_d d
                                   end
                | (inl _, g3) =>
                    _gripper d' = g3
                    /\ _min_d d' = _min_d d /\ _max_d d' = _max_d d
                end
            | (inl _, g2) =>
                _gripper d' = g2 /\ _min_d d' = _min_d d /\ _max_d d' = _max_d d
            end
     | (_, g1) =>
         _connected d' = false /\ _gripper d' = g1
         /\ _min_d d' = _min_d d /\ _max_d d' = _max_d d
     end.
Proof.
  unfold connect, Py.try_except, Py.bind, on_gripper, Py.modify, Py.gets, Py.ret.
  destruct (open_connection (_gripper d)) as [[e|[|]] g1]; cbn.
  - auto 10.
  - destruct (read_registers REG_MIN_DIAMETER 1 g1) as [[e|md] g2]; cbn.
    + auto 10.
    + destruct (read_registers REG_MAX_DIAMETER 1 g2) as [[e|xd] g3]; cbn.
      * auto 10.
      * destruct md as [|m md], xd as [|x xd]; cbn; auto 10.
  - auto 10.
Qed.

(** X16. [close] leaves the gateway not connected in every case.  The
    gripper's [close_connection] is called only if the gateway was
    connected, and an exception it raises goes on to the caller, after the
    flag has been cleared. *)
Theorem close_outcome (d : GripperDevice G) :
  let (r, d') := close d in
  _connected d' = false /\ super d' = super d
  /\ (if _connected d
      then r = fst (close_connection (_gripper d))
           /\ _gripper d' = snd (close_connection (_gripper d))
      else r = inr tt /\ _gripper d' = _gripper d).
Proof.
  unfold close, Py.bind, Py.gets, Py.attempt, Py.modify, Py.lift, on_gripper,
    Py.ret.
  destruct (_connected d) eqn:Hc; cbn.
  - destruct (close_connection (_gripper d)) as [[e|[]] g1]; cbn; auto.
  - auto.
Qed.


(** *** Waiting for the gripper *)

(** X17. When the gripper does not report itself busy, whether its status
    says so or cannot be read at all ([get_status] returns [None], or
    raises), [_wait_ready] returns [True] at its first poll, provided less
    than ten seconds pass between its first two clock readings: an
    unreadable status counts as ready here. *)
Theorem wait_ready_takes_unknown_as_ready (d : GripperDevice G) fuel :
  (forall st, fst (get_status (_gripper d)) = inr (Some st) ->
              Status.busy st = false) ->
  (Py.readings (clock d) (S (Py.ticks (clock d)))
   - Py.readings (clock d) (Py.ticks (clock d)) < 10)%Q ->
  exists d',
    _wait_ready (S fuel) d = Some (inr true, d')
    /\ _gripper d' = snd (get_status (_gripper d))
    /\ super d' = super d /\ _connected d' = _connected d.
Proof.
  intros Hst Hclk.
  unfold _wait_ready, Py.bindF, Py.liftF, now, Py.time_time.
  cbn [_wait_ready_loop fst snd].
  unfold Py.bindF, Py.liftF, now, Py.time_time.
  cbn [clock set_clock Py.readings Py.ticks].
  assert (Hlt : Py.Qltb (Py.readings (clock d) (S (Py.ticks (clock d)))
                         - Py.readings (clock d) (Py.ticks (clock d))) 10
                = true).
  { unfold Py.Qltb. apply negb_true_iff, not_true_is_false.
    intros Hle. apply Qle_bool_iff in Hle. lra. }
  rewrite Hlt.
  unfold _is_busy, Py.try_except, Py.bind, on_gripper, Py.ret.
  cbn [_gripper set_clock].
  destruct (get_status (_gripper d)) as [[e|[st|]] g1] eqn:E; cbn [fst snd].
  - eexists. split; [reflexivity|]. auto.
  - rewrite (Hst st eq_refl). cbn [negb]. eexists. split; [reflexivity|]. auto.
  - eexists. split; [reflexivity|]. auto.
Qed.

(** *** Status coils and the width register *)

Lemma coil_read_one (d : GripperDevice G) idx :
  0 <= idx < Z.of_nat (length (SimpleDevice._coils (super d))) ->
  exists c, on_super (SimpleDevice.get_coils idx 1) d = (inr [c], d).
Proof.
  intros Hi.
  destruct (index_in_range (SimpleDevice._coils (super d)) idx Hi) as (c & Hc & _).
  exists c. unfold on_super, SimpleDevice.get_coils, Py.bind, Py.gets, Py.lift.
  change (Py.range 1) with [0]. cbn [map SimpleDevice.slice fst snd].
  rewrite Z.add_0_r, Hc. destruct d; reflexivity.
Qed.

(** X18. On a connected gateway whose gripper returns a status, a read of
    the ready coil returns [not busy] and a read of the grip coil returns
    [grip_detected or force_grip_detected], taken from that status at the
    time of the read; the coil values stored by earlier writes play no
    part. *)
Theorem status_coils_are_live (d : GripperDevice G) st g1 :
  _connected d = true ->
  get_status (_gripper d) = (inr (Some st), g1) ->
  let sc := SimpleDevice._status_coil (super d) in
  let gc := _status_grip_coil d in
  (0 <= sc < Z.of_nat (length (SimpleDevice._coils (super d))) ->
   fst (get_coils sc 1 d) = inr [negb (Status.busy st)])
  /\ (0 <= gc < Z.of_nat (length (SimpleDevice._coils (super d))) ->
      gc <> sc ->
      fst (get_coils gc 1 d)
      = inr [Status.grip_detected st || Status.force_grip_detected st]).
Proof.
  intros Hc Hst sc gc.
  assert (Hstep : forall idx c,
            idx = sc \/ idx = gc ->
            fst (get_coils_loop idx [0] [c] d)
            = inr [if idx =? sc then negb (Status.busy st)
                   else Status.grip_detected st
                        || Status.force_grip_detected st]).
  { intros idx c Hidx. cbn [get_coils_loop].
    unfold Py.bind, Py.attempt, get_coils_step.
    unfold Py.bind at 1. unfold Py.gets at 1. rewrite Hc. cbn [negb fst snd].
    unfold Py.bind at 1. unfold on_gripper at 1. rewrite Hst. cbn [fst snd].
    unfold Py.bind at 1. unfold Py.attempt at 1.
    destruct (on_gripper get_raw_diameter (set_gripper g1 d)) as [raw d2] eqn:E2.
    assert (Hd2 : super d2 = super d /\ _status_grip_coil d2 = _status_grip_coil d).
    { revert E2. unfold on_gripper.
      destruct (get_raw_diameter _) as [r g2]. intros [= _ <-]. auto. }
    destruct Hd2 as (Hs2 & Hg2).
    cbn [fst snd]. unfold Py.bind, Py.gets. cbn [fst snd].
    rewrite Hs2, Hg2, Z.add_0_r. fold sc gc.
    destruct (idx =? sc) eqn:E1; [reflexivity|].
    destruct (idx =? gc) eqn:E3; [reflexivity|].
    apply Z.eqb_neq in E1, E3. destruct Hidx; contradiction. }
  split.
  - intros Hsc. destruct (coil_read_one d sc Hsc) as (c & Ec).
    unfold get_coils, Py.bind. rewrite Ec, range_1. cbn [fst snd].
    rewrite (Hstep sc c), Z.eqb_refl by (left; reflexivity). reflexivity.
  - intros Hgc Hne. destruct (coil_read_one d gc Hgc) as (c & Ec).
    unfold get_coils, Py.bind. rewrite Ec, range_1. cbn [fst snd].
    rewrite (Hstep gc c) by (right; reflexivity).
    destruct (gc =? sc) eqn:E; [apply Z.eqb_eq in E; contradiction|].
    reflexivity.
Qed.

(** [round] of a float that is a whole number. *)
Lemma round_whole q r : (q == inject_Z r)%Q -> Py.round q = r.
Proof.
  intros Hq. unfold Py.round.
  assert (Hf : Qfloor q = r) by (rewrite Hq; apply Qfloor_Z).
  rewrite Hf.
  assert (Hc : (q - inject_Z r ?= 1 # 2)%Q = Lt).
  { apply Qlt_alt. rewrite Hq. unfold Qminus. rewrite Qplus_opp_r.
    reflexivity. }
  rewrite Hc. reflexivity.
Qed.

Lemma input_register_read_one (d : GripperDevice G) idx :
  0 <= idx < Z.of_nat (length (SimpleDevice._irs (super d))) ->
  exists x, on_super (SimpleDevice.get_input_registers idx 1) d = (inr [x], d)
            /\ SimpleDevice._irs (super d) !! Z.to_nat idx = Some x.
Proof.
  intros Hi.
  destruct (index_in_range (SimpleDevice._irs (super d)) idx Hi) as (x & Hx & Hl).
  exists x. split; [|exact Hl].
  unfold on_super, SimpleDevice.get_input_registers, Py.bind, Py.gets, Py.lift.
  change (Py.range 1) with [0]. cbn [map SimpleDevice.slice fst snd].
  rewrite Z.add_0_r, Hx. destruct d; reflexivity.
Qed.

(** X19. On a connected gateway a read of the width input register returns
    the gripper's raw-diameter register, read at that moment, and stores it
    in the input register, unmasked: a value of magnitude at most [2^31], in
    tenths of a millimetre, survives the conversion to millimetres and back
    (within that range the rounding of the two float operations stays far
    below the half unit [round] absorbs).  When the raw diameter cannot be
    read (the read raises, or returns no value) the stored value is returned
    and kept. *)
Theorem width_register_is_live (d : GripperDevice G) :
  _connected d = true ->
  let w := _ir_width_index d in
  let irs := SimpleDevice._irs (super d) in
  0 <= w < Z.of_nat (length irs) ->
  let (r, d') := get_input_registers w 1 d in
  match read_registers REG_RAW_DIAMETER 1 (_gripper d) with
  | (inr (r0 :: _), g1) =>
      Z.abs r0 <= 2 ^ 31 ->
      r = inr [r0] /\ _gripper d' = g1
      /\ SimpleDevice._irs (super d') = <[Z.to_nat w := r0]> irs
  | (_, g1) =>
      r = inr [default 0 (irs !! Z.to_nat w)] /\ _gripper d' = g1
      /\ SimpleDevice._irs (super d') = irs
  end.
Proof.
  intros Hc w irs Hw.
  destruct (input_register_read_one d w Hw) as (x & Ex & Hx).
  unfold get_input_registers. unfold Py.bind at 1. rewrite Ex. cbn [fst snd].
  unfold Py.bind at 1. unfold Py.gets at 1. rewrite Hc. cbn [negb fst snd].
  rewrite range_1.
  unfold Py.bind at 1. unfold Py.gets at 1. cbn [fst snd].
  rewrite Z.add_0_r. fold w. rewrite Z.eqb_refl.
  unfold Py.bind at 1. unfold Py.attempt, on_gripper at 1.
  unfold get_raw_diameter, get_scaled, Py.try_except. unfold Py.bind at 1.
  fold irs in Hx. rewrite Hx. cbn [default from_option]. unfold id.
  destruct (read_registers REG_RAW_DIAMETER 1 (_gripper d))
    as [[e|[|r0 rest]] g1]; cbn [fst snd Py.ret].
  - destruct (Py.is_RuntimeError e); cbn; auto.
  - cbn. auto.
  - rewrite (round_whole _ r0) by field.
    unfold Py.bind. cbn [super set_gripper].
    assert (Hin : (0 <=? w) && (w <? Z.of_nat (length (SimpleDevice._irs (super d))))
                  = true).
    { apply andb_true_iff. split; [apply Z.leb_le|apply Z.ltb_lt]; apply Hw. }
    rewrite Hin.
    unfold on_super, SimpleDevice.irs_setitem, Py.bind, Py.gets, Py.lift,
      Py.modify.
    cbn [super set_gripper].
    rewrite assign_in_range by exact Hw. cbn. auto.
Qed.

(** *** Parameter registers *)

(** A register write that does not touch the command register triggers no
    command. *)
Lemma handle_command_skipped fuel ch (d : GripperDevice G) :
  _hr_cmd_index d ∉ ch -> handle_command fuel ch d = Some (inr tt, d).
Proof.
  intros Hn. unfold handle_command, Py.bindF, Py.liftF, Py.gets.
  cbn [fst snd]. rewrite (bool_decide_eq_false_2 _ Hn).
  rewrite andb_false_r. reflexivity.
Qed.

(** The holding registers once [v] is stored at [i]. *)
Lemma stored_register (d : GripperDevice G) i v :
  0 <= i < Z.of_nat (length (hrs d)) ->
  let d1 := snd (on_super (SimpleDevice.set_holding_registers i [v]) d) in
  hrs d1 = <[Z.to_nat i := v mod 65536]> (hrs d)
  /\ hrs_getitem i d1 = (inr (v mod 65536), d1)
  /\ (forall j, 0 <= j < Z.of_nat (length (hrs d)) -> j <> i ->
                hrs_getitem j d1 = (inr (default 0 (hrs d !! Z.to_nat j)), d1))
  /\ forall j, in_hrs d1 j = in_hrs d j.
Proof.
  intros Hi. cbv zeta. rewrite base_write_one by exact Hi. cbn [snd].
  set (d1 := set_super _ d).
  assert (Hh : hrs d1 = <[Z.to_nat i := v mod 65536]> (hrs d)).
  { unfold d1, hrs. cbn. rewrite land_mask. reflexivity. }
  assert (Hlen : length (hrs d1) = length (hrs d))
    by (rewrite Hh; apply length_insert).
  split; [exact Hh|]. split; [|split].
  - destruct (hrs_getitem_in_range d1 i) as (x & -> & Hx); [lia|].
    rewrite Hh, list_lookup_insert_eq in Hx by lia. congruence.
  - intros j Hj Hne.
    destruct (hrs_getitem_in_range d1 j) as (x & -> & Hx); [lia|].
    rewrite Hh, list_lookup_insert_ne in Hx by lia. rewrite Hx. reflexivity.
  - intros j. unfold in_hrs. rewrite Hlen. reflexivity.
Qed.

(** X20. On a connected gateway, a write of one value to the force holding
    register (distinct from the diameter, grip-type and command registers)
    stores the value modulo 2^16 and calls [set_target_force] with the
    stored value on the gripper, and nothing else; it returns normally for
    any bound on the waiting loop, also when the gripper raises. *)
Theorem force_register_write_is_forwarded (d : GripperDevice G) v fuel :
  _connected d = true ->
  0 <= _hr_force_index d < Z.of_nat (length (hrs d)) ->
  _hr_diameter_index d <> _hr_force_index d ->
  _hr_griptype_index d <> _hr_force_index d ->
  _hr_cmd_index d <> _hr_force_index d ->
  exists d',
    set_holding_registers fuel (_hr_force_index d) [v] d = Some (inr tt, d')
    /\ hrs d' = <[Z.to_nat (_hr_force_index d) := v mod 65536]> (hrs d)
    /\ _gripper d' = snd (set_target_force (v mod 65536) (_gripper d))
    /\ clock d' = clock d.
Proof.
  intros Hc Hfi Hdi Hgi Hci.
  destruct (stored_register d (_hr_force_index d) v Hfi) as (Hh & Hget & _ & Hin).
  set (ch := changed_set (_hr_force_index d) [v]).
  unfold set_holding_registers, Py.bindF, Py.liftF.
  rewrite base_write_one by exact Hfi.
  rewrite base_write_one in Hh, Hget, Hin by exact Hfi. cbn [snd] in Hh, Hget, Hin.
  set (d1 := set_super _ d) in *.
  unfold Py.gets. cbn [fst snd].
  change (_connected d1) with (_connected d). rewrite Hc. cbn [negb].
  unfold Py.try_exceptF, Py.bindF, Py.liftF. fold ch.
  assert (E2 : apply_force ch d1
               = (inr tt, set_gripper
                            (snd (set_target_force (v mod 65536) (_gripper d))) d1)).
  { unfold apply_force, Py.bind, Py.gets. cbn [fst snd].
    change (_hr_force_index d1) with (_hr_force_index d).
    rewrite (bool_decide_eq_true_2 (_hr_force_index d ∈ ch))
      by (apply changed_single; reflexivity).
    rewrite Hin. rewrite (proj2 (in_hrs_range d _) Hfi). cbn [andb].
    rewrite Hget. unfold Py.try_except, on_gripper, Py.ret.
    change (_gripper d1) with (_gripper d).
    destruct (set_target_force (v mod 65536) (_gripper d)) as [[e|[]] g];
      reflexivity. }
  rewrite E2. set (d2 := set_gripper _ d1).
  assert (E3 : apply_diameter_griptype ch d2 = (inr tt, d2)).
  { unfold apply_diameter_griptype, Py.bind, Py.gets. cbn [fst snd].
    change (_hr_diameter_index d2) with (_hr_diameter_index d).
    change (_hr_griptype_index d2) with (_hr_griptype_index d).
    rewrite (bool_decide_eq_false_2 (_hr_diameter_index d ∈ ch))
      by (unfold ch; rewrite changed_single; exact Hdi).
    rewrite (bool_decide_eq_false_2 (_hr_griptype_index d ∈ ch))
      by (unfold ch; rewrite changed_single; exact Hgi).
    reflexivity. }
  rewrite E3.
  rewrite handle_command_skipped
    by (change (_hr_cmd_index d2) with (_hr_cmd_index d);
        unfold ch; rewrite changed_single; exact Hci).
  exists d2. split; [reflexivity|]. split; [exact Hh|]. split; reflexivity.
Qed.

(** X21. On a connected gateway, a write of one value to the diameter or to
    the grip-type holding register (distinct from the force and command
    registers) stores the value modulo 2^16 and then sends both parameters
    to the gripper: [set_target_diameter] with the stored diameter clamped
    to the cached limits, then [set_grip_type] with INTERNAL if the stored
    grip-type register is 1 and EXTERNAL otherwise; if the first call
    raises the second is not made, and the write returns normally either
    way. *)
Theorem diameter_griptype_write_is_forwarded (d : GripperDevice G) i v fuel :
  _connected d = true ->
  i = _hr_diameter_index d \/ i = _hr_griptype_index d ->
  0 <= _hr_diameter_index d < Z.of_nat (length (hrs d)) ->
  0 <= _hr_griptype_index d < Z.of_nat (length (hrs d)) ->
  _hr_force_index d <> i -> _hr_cmd_index d <> i ->
  let stored := <[Z.to_nat i := v mod 65536]> (hrs d) in
  let diameter :=
    clamp_diameter d (default 0 (stored !! Z.to_nat (_hr_diameter_index d))) in
  let grip_type :=
    grip_type_of (default 0 (stored !! Z.to_nat (_hr_griptype_index d))) in
  exists d',
    set_holding_registers fuel i [v] d = Some (inr tt, d')
    /\ hrs d' = stored
    /\ _gripper d'
       = snd (Py.bind (set_target_diameter diameter)
                      (fun _ => set_grip_type grip_type) (_gripper d)).
Proof.
  intros Hc Hi Hdi Hgi Hfi Hci stored diameter grip_type.
  assert (Hir : 0 <= i < Z.of_nat (length (hrs d)))
    by (destruct Hi; subst i; assumption).
  destruct (stored_register d i v Hir) as (Hh & _ & _ & Hin).
  set (ch := changed_set i [v]).
  unfold set_holding_registers, Py.bindF, Py.liftF.
  rewrite base_write_one by exact Hir.
  rewrite base_write_one in Hh, Hin by exact Hir. cbn [snd] in Hh, Hin.
  set (d1 := set_super _ d) in *. fold stored in Hh.
  unfold Py.gets. cbn [fst snd].
  change (_connected d1) with (_connected d). rewrite Hc. cbn [negb].
  unfold Py.try_exceptF, Py.bindF, Py.liftF. fold ch.
  assert (E2 : apply_force ch d1 = (inr tt, d1)).
  { unfold apply_force, Py.bind, Py.gets. cbn [fst snd].
    change (_hr_force_index d1) with (_hr_force_index d).
    rewrite (bool_decide_eq_false_2 (_hr_force_index d ∈ ch))
      by (unfold ch; rewrite changed_single; exact Hfi).
    reflexivity. }
  rewrite E2.
  assert (Hlen : length (hrs d1) = length (hrs d))
    by (rewrite Hh; apply length_insert).
  assert (E3 : apply_diameter_griptype ch d1
               = (inr tt,
                  set_gripper
                    (snd (Py.bind (set_target_diameter diameter)
                            (fun _ => set_grip_type grip_type) (_gripper d)))
                    d1)).
  { unfold apply_diameter_griptype. unfold Py.bind at 1. unfold Py.gets at 1.
    cbn [fst snd].
    change (_hr_diameter_index d1) with (_hr_diameter_index d).
    change (_hr_griptype_index d1) with (_hr_griptype_index d).
    assert (Hch : bool_decide (_hr_diameter_index d ∈ ch)
                  || bool_decide (_hr_griptype_index d ∈ ch) = true).
    { apply orb_true_iff. destruct Hi as [Hi|Hi]; [left|right];
        apply bool_decide_eq_true_2, changed_single; congruence. }
    rewrite Hch, !Hin.
    rewrite (proj2 (in_hrs_range d _) Hdi), (proj2 (in_hrs_range d _) Hgi).
    cbn [andb].
    destruct (hrs_getitem_in_range d1 (_hr_diameter_index d)) as (x & Ex & Hx);
      [lia|].
    destruct (hrs_getitem_in_range d1 (_hr_griptype_index d)) as (y & Ey & Hy);
      [lia|].
    rewrite Hh in Hx, Hy.
    unfold Py.bind at 1. rewrite Ex. cbn [fst snd].
    unfold Py.bind at 1. rewrite Ey. cbn [fst snd].
    change (clamp_diameter d1 x) with (clamp_diameter d x).
    unfold diameter, grip_type. rewrite Hx, Hy. cbn [default from_option].
    unfold id, Py.try_except, Py.bind, on_gripper, Py.ret.
    change (_gripper d1) with (_gripper d).
    destruct (set_target_diameter (clamp_diameter d x) (_gripper d))
      as [[e|[]] g]; cbn [fst snd]; [reflexivity|].
    change (_gripper (set_gripper g d1)) with g.
    destruct (set_grip_type (grip_type_of y) g) as [[e|[]] g']; reflexivity. }
  rewrite E3. set (d2 := set_gripper _ d1).
  rewrite handle_command_skipped
    by (change (_hr_cmd_index d2) with (_hr_cmd_index d);
        unfold ch; rewrite changed_single; exact Hci).
  exists d2. split; [reflexivity|]. split; [exact Hh|]. reflexivity.
Qed.

(** *** Command coils *)

Lemma hrs_or_default_in_range (d : GripperDevice G) idx dflt :
  0 <= idx < Z.of_nat (length (hrs d)) ->
  hrs_or_default idx dflt d = (inr (default 0 (hrs d !! Z.to_nat idx)), d).
Proof.
  intros Hi. unfold hrs_or_default, Py.bind, Py.gets. cbn [fst snd].
  destruct (hrs d) as [|x l] eqn:E; [cbn in Hi; lia|].
  rewrite <- E in *.
  destruct (hrs_getitem_in_range d idx Hi) as (v & -> & ->). reflexivity.
Qed.

(** X22. With no separate close coil configured, a write of one value to
    the open command coil of a connected gateway waits for the gripper to
    be ready and then calls [open_gripper] if the value is [True] and
    [close_gripper] if it is [False], with the force held in the force
    holding register; the write returns normally, also when the gripper
    raises.  [d1] is the gateway once the coil is stored, [dw] when the
    wait is over. *)
Theorem open_coil_opens_or_closes (d : GripperDevice G) (v : bool) :
  _connected d = true -> _close_cmd_coil d = None ->
  0 <= _hr_force_index d < Z.of_nat (length (hrs d)) ->
  clock_advances (Py.readings (clock d)) ->
  let oc := SimpleDevice._open_cmd_coil (super d) in
  let force := default 0 (hrs d !! Z.to_nat (_hr_force_index d)) in
  let d1 := snd (store_coils oc [v] d) in
  exists fuel0, forall fuel, (fuel0 <= fuel)%nat ->
    exists b dw d',
      set_coils fuel oc [v] d = Some (inr tt, d')
      /\ _wait_ready fuel d1 = Some (inr b, dw)
      /\ _gripper d'
         = snd ((if v then open_gripper force else close_gripper force)
                  (_gripper dw))
      /\ hrs d' = hrs d.
Proof.
  intros Hc Hcl Hfi Hclk oc force.
  destruct (store_coils_frame [v] d oc) as (b0 & E & Hh & _ & Ho & _).
  rewrite E. cbn [snd]. cbv zeta.
  set (d1 := set_super b0 d).
  assert (Hclk1 : clock_advances (Py.readings (clock d1))) by exact Hclk.
  destruct (wait_ready_terminates d1 Hclk1) as (fuel0 & Hw).
  exists fuel0. intros fuel Hf.
  destruct (Hw fuel Hf) as (b & dw & Ew & g & k & Edw).
  exists b, dw.
  assert (Hh1 : hrs d1 = hrs d) by exact Hh.
  assert (Hfi1 : 0 <= _hr_force_index d1 < Z.of_nat (length (hrs d1)))
    by (rewrite Hh1; exact Hfi).
  unfold set_coils, Py.bindF, Py.liftF. rewrite E. fold d1.
  change (Py.enumerate [v]) with [(0, v)]. cbn [for_eachF fst snd].
  unfold Py.bindF at 1. unfold coil_action.
  unfold Py.bindF at 1. unfold Py.liftF at 1. unfold Py.gets at 1.
  change (_connected d1) with (_connected d). rewrite Hc. cbn [negb].
  change (SimpleDevice._open_cmd_coil (super d1))
    with (SimpleDevice._open_cmd_coil b0).
  rewrite Ho, Z.add_0_r. fold oc. rewrite Z.eqb_refl.
  unfold Py.bindF at 1. unfold Py.liftF at 1.
  rewrite (hrs_or_default_in_range d1 _ 500 Hfi1).
  change (_hr_force_index d1) with (_hr_force_index d). rewrite Hh1.
  fold force.
  change (_close_cmd_coil d1) with (_close_cmd_coil d). rewrite Hcl.
  assert (Hop : forall op : Py.M G unit,
            logged (Py.bindF (_wait_ready fuel)
                      (fun _ => Py.liftF (on_gripper op))) d1
            = Some (inr tt, set_gripper (snd (op (_gripper dw))) dw)).
  { intros op. unfold logged, Py.try_exceptF, Py.bindF. rewrite Ew.
    unfold Py.liftF, on_gripper.
    destruct (op (_gripper dw)) as [[e|[]] g']; reflexivity. }
  destruct v; rewrite Hop; cbn [Py.retF];
    (eexists; split; [reflexivity|]; split; [exact Ew|];
     split; [reflexivity|]; subst dw; exact Hh1).
Qed.

(** X23. On a connected gateway whose force register index lies past the
    end of a non-empty register list, a write to the open command coil
    raises [IndexError] to the caller: the force is read before the [try]
    that guards the action.  The coil has been stored by then, and the
    gripper is neither polled nor commanded. *)
Theorem open_coil_with_bad_force_index (d : GripperDevice G) (v : bool) fuel :
  _connected d = true ->
  (0 < length (hrs d))%nat ->
  Z.of_nat (length (hrs d)) <= _hr_force_index d ->
  let oc := SimpleDevice._open_cmd_coil (super d) in
  set_coils fuel oc [v] d = Some (inl Py.IndexError, snd (store_coils oc [v] d))
  /\ _gripper (snd (store_coils oc [v] d)) = _gripper d.
Proof.
  intros Hc Hne Hfi oc.
  destruct (store_coils_frame [v] d oc) as (b0 & E & Hh & _ & Ho & _).
  rewrite E. cbn [snd]. split; [|reflexivity].
  set (d1 := set_super b0 d).
  assert (Hh1 : hrs d1 = hrs d) by exact Hh.
  unfold set_coils, Py.bindF, Py.liftF. rewrite E. fold d1.
  change (Py.enumerate [v]) with [(0, v)]. cbn [for_eachF fst snd].
  unfold Py.bindF at 1. unfold coil_action.
  unfold Py.bindF at 1. unfold Py.liftF at 1. unfold Py.gets at 1.
  change (_connected d1) with (_connected d). rewrite Hc. cbn [negb].
  change (SimpleDevice._open_cmd_coil (super d1))
    with (SimpleDevice._open_cmd_coil b0).
  rewrite Ho, Z.add_0_r. fold oc. rewrite Z.eqb_refl.
  unfold Py.bindF at 1. unfold Py.liftF at 1.
  unfold hrs_or_default, Py.bind, Py.gets. cbn [fst snd].
  rewrite Hh1. destruct (hrs d) as [|x l] eqn:El; [cbn in Hne; lia|].
  unfold hrs_getitem, Py.bind, Py.gets, Py.lift. cbn [fst snd].
  rewrite Hh1, ?El. change (_hr_force_index d1) with (_hr_force_index d).
  unfold Py.getitem, Py.position.
  destruct (0 <=? _hr_force_index d) eqn:E0; [|apply Z.leb_gt in E0; lia].
  destruct (_hr_force_index d <? Z.of_nat (length (x :: l))) eqn:E1;
    [apply Z.ltb_lt in E1; lia|].
  reflexivity.
Qed.

(** *** The Modbus datablocks *)

Lemma changed_block a vs x :
  x ∈ changed_set a vs <-> a <= x < a + Z.of_nat (length vs).
Proof.
  unfold changed_set. rewrite elem_of_list_to_set, list_elem_of_fmap.
  split.
  - intros (i & -> & Hi). apply elem_of_range in Hi. lia.
  - intros Hx. exists (x - a). split; [lia|]. apply elem_of_range. lia.
Qed.

(** A block write that leaves the command register out stores the block
    and returns; what it sends to the gripper does not change the
    registers. *)
Lemma block_write_stores (d : GripperDevice G) fuel a vs :
  0 <= a -> a + Z.of_nat (length vs) <= Z.of_nat (length (hrs d)) ->
  ~ (a <= _hr_cmd_index d < a + Z.of_nat (length vs)) ->
  exists d',
    set_holding_registers fuel a vs d = Some (inr tt, d')
    /\ hrs d' = list_inserts (Z.to_nat a)
                  (map (fun v => Z.land v 65535) vs) (hrs d).
Proof.
  intros Ha Hlen Hci.
  unfold set_holding_registers, Py.bindF, Py.liftF. unfold on_super at 1.
  rewrite set_holding_registers_in_range by assumption.
  set (d1 := set_super _ d). unfold Py.gets. cbn [fst snd].
  assert (Hh : hrs d1 = list_inserts (Z.to_nat a)
                          (map (fun v => Z.land v 65535) vs) (hrs d))
    by reflexivity.
  destruct (_connected d1); cbn [negb]; [|exists d1; auto].
  unfold Py.try_exceptF, Py.bindF, Py.liftF.
  set (ch := changed_set a vs).
  destruct (apply_force_polled ch d1) as (Er & g2 & k2 & E2).
  destruct (apply_force ch d1) as [r2 d2]. cbn [fst snd] in Er, E2. subst r2.
  destruct (apply_diameter_griptype_polled ch d2) as (Er & g3 & k3 & E3).
  destruct (apply_diameter_griptype ch d2) as [r3 d3].
  cbn [fst snd] in Er, E3. subst r3.
  rewrite handle_command_skipped.
  - exists d3. split; [reflexivity|]. subst d3 d2. exact Hh.
  - subst d3 d2. change (_hr_cmd_index _) with (_hr_cmd_index d).
    unfold ch. rewrite changed_block. exact Hci.
Qed.

(** X24. Holding registers written through the Modbus datablock read back
    through it: for a block at a 1-based address [address >= 1] that lies
    inside the register list and leaves the command register out, the
    write returns normally, connected or not and for any bound on the
    waiting loop, and a read of the same block returns the values modulo
    2^16.  Address 0 denotes the same register as address 1, and a write to
    a discrete-input or input-register block changes nothing. *)
Theorem datablock_registers_round_trip (d : GripperDevice G) fuel address vs :
  1 <= address ->
  address - 1 + Z.of_nat (length vs) <= Z.of_nat (length (hrs d)) ->
  ~ (address - 1 <= _hr_cmd_index d < address - 1 + Z.of_nat (length vs)) ->
  (exists d',
     DelegatingDataBlock.setValues fuel DelegatingDataBlock.hr address vs d
     = Some (inr tt, d')
     /\ fst (DelegatingDataBlock.getValues DelegatingDataBlock.hr address
               (Z.of_nat (length vs)) d')
        = inr (DelegatingDataBlock.Words (map (fun v => v mod 65536) vs)))
  /\ DelegatingDataBlock.setValues fuel DelegatingDataBlock.hr 0 vs d
     = DelegatingDataBlock.setValues fuel DelegatingDataBlock.hr 1 vs d
  /\ DelegatingDataBlock.setValues fuel DelegatingDataBlock.ir address vs d
     = Some (inr tt, d)
  /\ DelegatingDataBlock.setValues fuel DelegatingDataBlock.di address vs d
     = Some (inr tt, d).
Proof.
  intros Ha Hlen Hci.
  split; [|split; [reflexivity|split; reflexivity]].
  unfold DelegatingDataBlock.setValues, DelegatingDataBlock.getValues,
    DelegatingDataBlock.zaddr.
  rewrite Z.max_r by lia.
  set (ks := map (fun v => Z.land v 65535) vs).
  assert (Hks : length ks = length vs) by (unfold ks; apply length_map).
  destruct (block_write_stores d fuel (address - 1) ks) as (d' & E & Hh);
    [lia|rewrite Hks; exact Hlen|rewrite Hks; exact Hci|].
  exists d'. split; [exact E|].
  unfold Py.bind, get_holding_registers, on_super.
  set (kk := map (fun v => Z.land v 65535) ks) in *.
  assert (Hkk : length kk = length vs)
    by (unfold kk; rewrite length_map; exact Hks).
  rewrite <- Hkk.
  rewrite (read_back_block (super d') (address - 1) kk (hrs d));
    [| lia | lia | exact Hh].
  unfold kk.
  cbn [fst snd Py.ret]. f_equal. f_equal. unfold ks.
  rewrite map_map. apply map_ext. intros v.
  rewrite !land_mask. apply Z.mod_mod. lia.
Qed.

(** *** Position coils *)

(** X26. On a connected gateway whose gripper answers the status read and
    then returns [r0], of magnitude at most [2^31], for its raw-diameter
    register, a one-coil read of the open coil returns whether
    [r0 >= max - 5] and a one-coil read of the closed coil whether
    [r0 <= min + 5], for the limits cached by [connect]: a tolerance of
    0.5 mm.  A limit that was never learned makes its coil read [False].
    (The ready and grip coils come first when coil indices coincide; within
    the bound the conversion of [r0] to millimetres and back is exact.) *)
Theorem position_coils_are_live (d : GripperDevice G) ost g1 r0 rest g2 :
  _connected d = true ->
  get_status (_gripper d) = (inr ost, g1) ->
  read_registers REG_RAW_DIAMETER 1 g1 = (inr (r0 :: rest), g2) ->
  Z.abs r0 <= 2 ^ 31 ->
  let sc := SimpleDevice._status_coil (super d) in
  let gc := _status_grip_coil d in
  let oc := _status_open_coil d in
  let cc := _status_closed_coil d in
  (0 <= oc < Z.of_nat (length (SimpleDevice._coils (super d))) ->
   oc <> sc -> oc <> gc ->
   fst (get_coils oc 1 d)
   = inr [match _max_d d with Some hi => hi - 5 <=? r0 | None => false end])
  /\ (0 <= cc < Z.of_nat (length (SimpleDevice._coils (super d))) ->
      cc <> sc -> cc <> gc -> cc <> oc ->
      fst (get_coils cc 1 d)
      = inr [match _min_d d with Some lo => r0 <=? lo + 5 | None => false end]).
Proof.
  intros Hc Hst Hraw _ sc gc oc cc.
  assert (Hstep : forall idx c,
            idx <> sc -> idx <> gc -> idx = oc \/ idx = cc ->
            fst (get_coils_loop idx [0] [c] d)
            = inr [if idx =? oc
                   then match _max_d d with
                        | Some hi => hi - 5 <=? r0
                        | None => false
                        end
                   else match _min_d d with
                        | Some lo => r0 <=? lo + 5
                        | None => false
                        end]).
  { intros idx c Hn1 Hn2 Hidx. cbn [get_coils_loop].
    unfold Py.bind, Py.attempt, get_coils_step.
    unfold Py.bind at 1. unfold Py.gets at 1. rewrite Hc. cbn [negb fst snd].
    unfold Py.bind at 1. unfold on_gripper at 1. rewrite Hst. cbn [fst snd].
    unfold Py.bind at 1. unfold Py.attempt at 1. unfold on_gripper at 1.
    change (_gripper (set_gripper g1 d)) with g1.
    unfold get_raw_diameter, get_scaled, Py.try_except. unfold Py.bind at 1.
    rewrite Hraw. cbn [fst snd Py.ret].
    rewrite (round_whole _ r0) by field.
    unfold Py.bind, Py.gets. cbn [fst snd].
    cbn [super _status_grip_coil _status_open_coil _status_closed_coil
         _max_d _min_d set_gripper].
    rewrite Z.add_0_r. fold sc gc oc cc.
    destruct (idx =? sc) eqn:E1; [apply Z.eqb_eq in E1; contradiction|].
    destruct (idx =? gc) eqn:E2; [apply Z.eqb_eq in E2; contradiction|].
    destruct (idx =? oc) eqn:E3.
    - destruct (_max_d d); reflexivity.
    - destruct (idx =? cc) eqn:E4.
      + destruct (_min_d d); reflexivity.
      + apply Z.eqb_neq in E3, E4. destruct Hidx; contradiction. }
  split.
  - intros Hoc Hn1 Hn2. destruct (coil_read_one d oc Hoc) as (c & Ec).
    unfold get_coils, Py.bind. rewrite Ec, range_1. cbn [fst snd].
    rewrite (Hstep oc c), Z.eqb_refl by auto. reflexivity.
  - intros Hcc Hn1 Hn2 Hn3. destruct (coil_read_one d cc Hcc) as (c & Ec).
    unfold get_coils, Py.bind. rewrite Ec, range_1. cbn [fst snd].
    rewrite (Hstep cc c) by auto.
    destruct (cc =? oc) eqn:E; [apply Z.eqb_eq in E; contradiction|].
    reflexivity.
Qed.

(** *** A status read that raises *)

Lemma get_coils_step_raising (d : GripperDevice G) a i out e g1 :
  _connected d = true ->
  get_status (_gripper d) = (inl e, g1) ->
  get_coils_step a i out d = (inl e, set_gripper g1 d).
Proof.
  intros Hc Hst. unfold get_coils_step.
  unfold Py.bind at 1. unfold Py.gets at 1. rewrite Hc. cbn [negb fst snd].
  unfold Py.bind at 1. unfold on_gripper at 1. rewrite Hst. reflexivity.
Qed.

(** X28. On a connected gateway, when the gripper's status read raises an
    exception that [get_status] does not handle, a coil read of at least
    one coil stops at its first coil and returns the stored coil values as
    they are, the ready coil included; out-of-range reads raise as on the
    in-memory device. *)
Theorem raising_status_gives_stored_coils (d : GripperDevice G) a n e g1 :
  _connected d = true ->
  get_status (_gripper d) = (inl e, g1) ->
  0 < n ->
  fst (get_coils a n d) = fst (on_super (SimpleDevice.get_coils a n) d)
  /\ super (snd (get_coils a n d)) = super d.
Proof.
  intros Hc Hst Hn.
  assert (Hb : snd (SimpleDevice.get_coils a n (super d)) = super d).
  { unfold SimpleDevice.get_coils, Py.bind, Py.gets, Py.lift. reflexivity. }
  unfold get_coils, Py.bind, on_super.
  destruct (SimpleDevice.get_coils a n (super d)) as [[e'|out] b].
  - cbn [fst snd] in *. subst b. split; reflexivity.
  - cbn [snd] in Hb. subst b. cbn [fst snd].
    unfold Py.range. destruct (Z.to_nat n) as [|k] eqn:Ek; [lia|].
    cbn [seq map get_coils_loop].
    pose proof (get_coils_step_raising (set_super (super d) d) a (Z.of_nat 0)
                  out e g1 Hc Hst) as E0.
    unfold Py.bind, Py.attempt. rewrite E0. cbn [fst snd Py.ret].
    split; reflexivity.
Qed.


End GatewayExtras.


(** *** Instances *)

Ltac in_range :=
  split; [apply Z.leb_le | first [apply Z.ltb_lt | apply Z.leb_le]];
  vm_compute; reflexivity.

Lemma unconnected_gateway_is_a_store_witness :
  GripperDevice._connected unconnected_gateway = false
  /\ GripperDevice.set_holding_registers 0 0 [700; 300] unconnected_gateway
     = Some (GripperDevice.on_super (SimpleDevice.set_holding_registers 0 [700; 300])
               unconnected_gateway)
  /\ GripperDevice.set_coils 0 0 [true] unconnected_gateway
     = Some (GripperDevice.store_coils 0 [true] unconnected_gateway).
Proof.
  split; [reflexivity|].
  destruct (unconnected_gateway_is_a_store unconnected_gateway 0 0 0
              [700; 300] [true] eq_refl) as (H1 & _ & _ & H2 & _).
  split; [exact H1|exact H2].
Defined.


Lemma wait_ready_takes_unknown_as_ready_witness :
  (forall st,
      fst (GripperBase.get_status (GripperDevice._gripper gateway_link_lost))
      = inr (Some st) -> Status.busy st = false)
  /\ (Py.readings (GripperDevice.clock gateway_link_lost)
        (S (Py.ticks (GripperDevice.clock gateway_link_lost)))
      - Py.readings (GripperDevice.clock gateway_link_lost)
          (Py.ticks (GripperDevice.clock gateway_link_lost)) < 10)%Q
  /\ exists d',
       GripperDevice._wait_ready 1 gateway_link_lost = Some (inr true, d').
Proof.
  assert (H1 : forall st,
             fst (GripperBase.get_status
                    (GripperDevice._gripper gateway_link_lost))
             = inr (Some st) -> Status.busy st = false)
    by (intros st Hst; vm_compute in Hst; discriminate).
  assert (H2 : (Py.readings (GripperDevice.clock gateway_link_lost)
                  (S (Py.ticks (GripperDevice.clock gateway_link_lost)))
                - Py.readings (GripperDevice.clock gateway_link_lost)
                    (Py.ticks (GripperDevice.clock gateway_link_lost)) < 10)%Q)
    by (vm_compute; reflexivity).
  split; [exact H1|]. split; [exact H2|].
  destruct (wait_ready_takes_unknown_as_ready gateway_link_lost 0 H1 H2)
    as (d' & E & _).
  exists d'. exact E.
Defined.

Lemma status_coils_are_live_witness :
  let st := {| Status.busy := false; Status.grip_detected := false;
               Status.force_grip_detected := false;
               Status.calibration_ok := true |} in
  GripperDevice._connected simulator_gateway = true
  /\ fst (GripperBase.get_status (GripperDevice._gripper simulator_gateway))
     = inr (Some st)
  /\ fst (GripperDevice.get_coils 2 1 simulator_gateway) = inr [true]
  /\ fst (GripperDevice.get_coils 5 1 simulator_gateway) = inr [false].
Proof.
  cbv zeta.
  split; [reflexivity|]. split; [vm_compute; reflexivity|].
  destruct (status_coils_are_live simulator_gateway
              {| Status.busy := false; Status.grip_detected := false;
                 Status.force_grip_detected := false;
                 Status.calibration_ok := true |}
              (snd (GripperBase.get_status
                      (GripperDevice._gripper simulator_gateway)))
              eq_refl)
    as (Hs & Hg).
  - rewrite (surjective_pairing
               (GripperBase.get_status
                  (GripperDevice._gripper simulator_gateway))) at 1.
    f_equal; vm_compute; reflexivity.
  - split.
    + apply Hs. in_range.
    + apply Hg; [in_range|vm_compute; discriminate].
Defined.

Lemma width_register_is_live_witness :
  GripperDevice._connected simulator_gateway = true
  /\ 0 <= GripperDevice._ir_width_index simulator_gateway
       < Z.of_nat (length (SimpleDevice._irs
                             (GripperDevice.super simulator_gateway)))
  /\ fst (GripperDevice.get_input_registers 0 1 simulator_gateway)
     = inr [1000].
Proof.
  assert (Hw : 0 <= GripperDevice._ir_width_index simulator_gateway
               < Z.of_nat (length (SimpleDevice._irs
                                     (GripperDevice.super simulator_gateway))))
    by (in_range).
  split; [reflexivity|]. split; [exact Hw|].
  generalize (width_register_is_live simulator_gateway eq_refl Hw).
  change (GripperDevice._ir_width_index simulator_gateway) with 0.
  destruct (GripperDevice.get_input_registers 0 1 simulator_gateway) as [r d'].
  destruct (GripperBase.read_registers GripperBase.REG_RAW_DIAMETER 1
              (GripperDevice._gripper simulator_gateway))
    as [[e|[|r0 rest]] g1] eqn:E.
  - exfalso. apply (f_equal fst) in E. vm_compute in E. discriminate.
  - exfalso. apply (f_equal fst) in E. vm_compute in E. discriminate.
  - apply (f_equal fst) in E. vm_compute in E. injection E as <- _.
    intros Hr. destruct Hr as (-> & _); [vm_compute; discriminate|reflexivity].
Defined.

Lemma force_register_write_is_forwarded_witness :
  GripperDevice._connected simulator_gateway = true
  /\ 0 <= GripperDevice._hr_force_index simulator_gateway
       < Z.of_nat (length (GripperDevice.hrs simulator_gateway))
  /\ exists d',
       GripperDevice.set_holding_registers 0 0 [70000] simulator_gateway
       = Some (inr tt, d')
       /\ GripperDevice.hrs d' !! 0%nat = Some 4464
       /\ Simulator._target_force (GripperDevice._gripper d') = 1000.
Proof.
  assert (Hf : 0 <= GripperDevice._hr_force_index simulator_gateway
               < Z.of_nat (length (GripperDevice.hrs simulator_gateway)))
    by (in_range).
  split; [reflexivity|]. split; [exact Hf|].
  destruct (force_register_write_is_forwarded simulator_gateway 70000 0
              eq_refl Hf
              ltac:(vm_compute; discriminate) ltac:(vm_compute; discriminate)
              ltac:(vm_compute; discriminate))
    as (d' & E & Hh & Hg & _).
  exists d'. split; [exact E|]. split.
  - rewrite Hh. vm_compute. reflexivity.
  - rewrite Hg. vm_compute. reflexivity.
Defined.

Lemma diameter_griptype_write_is_forwarded_witness :
  GripperDevice._connected simulator_gateway = true
  /\ 1 = GripperDevice._hr_diameter_index simulator_gateway
  /\ exists d',
       GripperDevice.set_holding_registers 0 1 [1300] simulator_gateway
       = Some (inr tt, d')
       /\ GripperDevice.hrs d' !! 1%nat = Some 1300
       /\ Simulator._target_diameter (GripperDevice._gripper d') = 1000
       /\ Simulator._grip_type (GripperDevice._gripper d')
          = GripperBase.EXTERNAL.
Proof.
  split; [reflexivity|]. split; [reflexivity|].
  destruct (diameter_griptype_write_is_forwarded simulator_gateway 1 1300 0
              eq_refl (or_introl eq_refl)
              ltac:(in_range)
              ltac:(in_range)
              ltac:(vm_compute; discriminate) ltac:(vm_compute; discriminate))
    as (d' & E & Hh & Hg).
  exists d'. split; [exact E|]. split; [|split].
  - rewrite Hh. vm_compute. reflexivity.
  - rewrite Hg. vm_compute. reflexivity.
  - rewrite Hg. vm_compute. reflexivity.
Defined.

Lemma open_coil_opens_or_closes_witness :
  GripperDevice._connected simulator_gateway = true
  /\ GripperDevice._close_cmd_coil simulator_gateway = None
  /\ clock_advances (Py.readings (GripperDevice.clock simulator_gateway))
  /\ exists fuel0, forall fuel, (fuel0 <= fuel)%nat ->
       exists d',
         GripperDevice.set_coils fuel 0 [false] simulator_gateway
         = Some (inr tt, d').
Proof.
  split; [reflexivity|]. split; [reflexivity|].
  split; [exact steady_clock_advances|].
  destruct (open_coil_opens_or_closes simulator_gateway false
              eq_refl eq_refl
              ltac:(in_range)
              steady_clock_advances)
    as (fuel0 & Hfuel).
  exists fuel0. intros fuel Hf.
  destruct (Hfuel fuel Hf) as (b & dw & d' & E & _).
  exists d'. exact E.
Defined.

Lemma open_coil_with_bad_force_index_witness :
  let d := snd (GripperDevice.connect
                  (GripperDevice.__init__ noiseless_simulator 0 2 None None
                     None None 3 4 5 200 1 2 3 0 (steady_clock 1))) in
  GripperDevice._connected d = true
  /\ (0 < length (GripperDevice.hrs d))%nat
  /\ Z.of_nat (length (GripperDevice.hrs d)) <= GripperDevice._hr_force_index d
  /\ fst <$> GripperDevice.set_coils 5 0 [true] d = Some (inl Py.IndexError).
Proof.
  cbv zeta.
  set (d := snd (GripperDevice.connect
                   (GripperDevice.__init__ noiseless_simulator 0 2 None None
                      None None 3 4 5 200 1 2 3 0 (steady_clock 1)))).
  assert (H1 : GripperDevice._connected d = true) by (vm_compute; reflexivity).
  assert (H2 : (0 < length (GripperDevice.hrs d))%nat) by (vm_compute; lia).
  assert (H3 : Z.of_nat (length (GripperDevice.hrs d))
               <= GripperDevice._hr_force_index d)
    by (vm_compute; discriminate).
  split; [exact H1|]. split; [exact H2|]. split; [exact H3|].
  pose proof (proj1 (open_coil_with_bad_force_index d true 5 H1 H2 H3)) as Hx.
  change (SimpleDevice._open_cmd_coil (GripperDevice.super d)) with 0 in Hx.
  rewrite Hx. reflexivity.
Defined.

Lemma datablock_registers_round_trip_witness :
  1 <= 1
  /\ exists d',
       DelegatingDataBlock.setValues 0 DelegatingDataBlock.hr 1
         [700; 65836; -1] simulator_gateway = Some (inr tt, d')
       /\ fst (DelegatingDataBlock.getValues DelegatingDataBlock.hr 1 3 d')
          = inr (DelegatingDataBlock.Words [700; 300; 65535]).
Proof.
  split; [lia|].
  destruct (datablock_registers_round_trip simulator_gateway 0 1
              [700; 65836; -1] ltac:(lia)
              ltac:(vm_compute; discriminate)
              ltac:(vm_compute; intros [_ Hc]; discriminate Hc))
    as ((d' & E & Hg) & _).
  exists d'. split; [exact E|]. exact Hg.
Defined.

Lemma position_coils_are_live_witness :
  GripperDevice._connected simulator_gateway = true
  /\ GripperDevice._max_d simulator_gateway = Some 1000
  /\ GripperDevice._min_d simulator_gateway = Some 0
  /\ fst (GripperDevice.get_coils 3 1 simulator_gateway) = inr [true]
  /\ fst (GripperDevice.get_coils 4 1 simulator_gateway) = inr [false].
Proof.
  split; [reflexivity|]. split; [reflexivity|]. split; [reflexivity|].
  set (g := GripperDevice._gripper simulator_gateway).
  assert (Hst : GripperBase.get_status g
                = (inr (match fst (GripperBase.get_status g) with
                        | inr o => o
                        | inl _ => None
                        end),
                   snd (GripperBase.get_status g))).
  { rewrite (surjective_pairing (GripperBase.get_status g)) at 1.
    f_equal; vm_compute; reflexivity. }
  set (g1 := snd (GripperBase.get_status g)) in *.
  assert (Hraw : GripperBase.read_registers GripperBase.REG_RAW_DIAMETER 1 g1
                 = (inr [1000],
                    snd (GripperBase.read_registers
                           GripperBase.REG_RAW_DIAMETER 1 g1))).
  { rewrite (surjective_pairing
               (GripperBase.read_registers GripperBase.REG_RAW_DIAMETER 1 g1))
      at 1.
    f_equal; vm_compute; reflexivity. }
  assert (Hb : Z.abs 1000 <= 2 ^ 31) by (vm_compute; discriminate).
  destruct (position_coils_are_live simulator_gateway _ _ _ _ _
              eq_refl Hst Hraw Hb) as (Ho & Hcl).
  split.
  - apply Ho; [in_range|vm_compute; discriminate|vm_compute; discriminate].
  - apply Hcl; [in_range|vm_compute; discriminate|vm_compute; discriminate
                |vm_compute; discriminate].
Defined.

Lemma raising_status_gives_stored_coils_witness :
  let d := snd (GripperDevice.store_coils 2 [true]
                  (faulty_gateway Py.OtherException)) in
  GripperDevice._connected d = true
  /\ fst (GripperBase.get_status (GripperDevice._gripper d))
     = inl Py.OtherException
  /\ 0 < 1
  /\ fst (GripperDevice.get_coils 2 1 d) = inr [true].
Proof.
  cbv zeta.
  set (d := snd (GripperDevice.store_coils 2 [true]
                   (faulty_gateway Py.OtherException))).
  assert (H1 : GripperDevice._connected d = true) by (vm_compute; reflexivity).
  assert (H2 : fst (GripperBase.get_status (GripperDevice._gripper d))
               = inl Py.OtherException) by (vm_compute; reflexivity).
  assert (Hst : GripperBase.get_status (GripperDevice._gripper d)
                = (inl Py.OtherException,
                   snd (GripperBase.get_status (GripperDevice._gripper d)))).
  { rewrite (surjective_pairing
               (GripperBase.get_status (GripperDevice._gripper d))) at 1.
    rewrite H2. reflexivity. }
  split; [exact H1|]. split; [exact H2|]. split; [lia|].
  destruct (raising_status_gives_stored_coils d 2 1 Py.OtherException _
              H1 Hst ltac:(lia)) as (Hr & _).
  rewrite Hr. vm_compute. reflexivity.
Defined.
